(** * publication_tracker.py: a shallow embedding and its verified properties

    The embedding follows [src/publication_tracker.py].  Python [str] values
    are modelled as [string], each [ascii] standing for one code point in the
    range 0..255 (Latin-1); integers are unbounded [Z]; the title cache, a
    Python [dict] iterated in insertion order, is an association list. *)

From Stdlib Require Import List String Ascii ZArith QArith Bool Lia DecimalString.
From Stdlib Require Import Permutation.
From Stdlib Require Qcanon.
Import ListNotations.

Set Warnings "-register-all".

Open Scope string_scope.
Open Scope Z_scope.

(** ** Python string primitives *)

Module PyStr.

(** [str.isspace] on one code point below 256. *)
Definition isspace (c : ascii) : bool :=
  let n := N.to_nat (N_of_ascii c) in
  ((9 <=? n) && (n <=? 13) || (28 <=? n) && (n <=? 32)
   || (n =? 133) || (n =? 160))%nat.

(** [str.lower] on one code point below 256: A-Z and the accented capitals
    192..222 (the multiplication sign 215 apart) move up by 32. *)
Definition lower_char (c : ascii) : ascii :=
  let n := N.to_nat (N_of_ascii c) in
  if ((65 <=? n) && (n <=? 90)
      || (192 <=? n) && (n <=? 222) && negb (n =? 215))%nat
  then ascii_of_nat (n + 32) else c.

Fixpoint lower (s : string) : string :=
  match s with
  | EmptyString => EmptyString
  | String c r => String (lower_char c) (lower r)
  end.

Fixpoint lstrip (s : string) : string :=
  match s with
  | EmptyString => EmptyString
  | String c r => if isspace c then lstrip r else s
  end.

Fixpoint rstrip (s : string) : string :=
  match s with
  | EmptyString => EmptyString
  | String c r =>
      match rstrip r with
      | EmptyString => if isspace c then EmptyString else String c EmptyString
      | r' => String c r'
      end
  end.

(** [s.strip()] *)
Definition strip (s : string) : string := rstrip (lstrip s).

(** [len(s)] *)
Definition len (s : string) : Z := Z.of_nat (String.length s).

(** [sub in s] *)
Fixpoint contains (sub s : string) : bool :=
  prefix sub s
  || match s with
     | EmptyString => false
     | String _ r => contains sub r
     end.

Definition colon : ascii := ":"%char.

(** [s.split(":")[0]]: the text before the first colon, the whole of [s]
    when it has none. *)
Fixpoint before_colon (s : string) : string :=
  match s with
  | EmptyString => EmptyString
  | String c r => if Ascii.eqb c colon then EmptyString
                  else String c (before_colon r)
  end.

(** [s[:n]] for a non-negative [n]. *)
Fixpoint take (n : nat) (s : string) : string :=
  match n, s with
  | O, _ => EmptyString
  | _, EmptyString => EmptyString
  | S k, String c r => String c (take k r)
  end.

End PyStr.

(** ** The title reconciler (get_engrxiv_stats_from_cache) *)

(** [engrxiv_cache]: scraped title and download count, in insertion order. *)
Definition TitleCache := list (string * Z).

Module Reconciler.
Import PyStr.

(** First loop: the substring scan with its length guard. *)
Fixpoint scan_substring (t_target : string) (items : TitleCache) : option Z :=
  match items with
  | [] => None
  | (cached_title, downloads) :: rest =>
      let t_cached := strip (lower cached_title) in
      if contains t_target t_cached || contains t_cached t_target then
        if 10 <? len t_cached then Some downloads
        else scan_substring t_target rest
      else scan_substring t_target rest
  end.

(** Second loop: equality of the normalised text before the first colon. *)
Fixpoint scan_base (t_target_base : string) (items : TitleCache) : option Z :=
  match items with
  | [] => None
  | (cached_title, downloads) :: rest =>
      let t_cached_base := strip (before_colon (lower cached_title)) in
      if String.eqb t_target_base t_cached_base && (5 <? len t_target_base)
      then Some downloads
      else scan_base t_target_base rest
  end.

(** The function returns a pair whose first component is always [None]. *)
Definition get_engrxiv_stats_from_cache
    (engrxiv_cache : TitleCache) (target_title : string) : option Z * Z :=
  match engrxiv_cache with
  | [] => (None, 0)
  | _ =>
      let t_target := strip (lower target_title) in
      match scan_substring t_target engrxiv_cache with
      | Some downloads => (None, downloads)
      | None =>
          let t_target_base := strip (before_colon t_target) in
          match scan_base t_target_base engrxiv_cache with
          | Some downloads => (None, downloads)
          | None => (None, 0)
          end
      end
  end.

(** The count the caller keeps: [_, downloads = get_engrxiv_stats_from_cache(title)]. *)
Definition resolve (cache : TitleCache) (title : string) : Z :=
  snd (get_engrxiv_stats_from_cache cache title).

(** The specification's reading of the two tiers. *)
Definition normalize (s : string) : string := strip (lower s).

Definition tier1_match (title : string) (e : string * Z) : Prop :=
  (contains (normalize title) (normalize (fst e)) = true
   \/ contains (normalize (fst e)) (normalize title) = true)
  /\ 10 < len (normalize (fst e)).

Definition left_segment (s : string) : string := normalize (before_colon s).

Definition tier2_match (title : string) (e : string * Z) : Prop :=
  left_segment (fst e) = left_segment title /\ 5 < len (left_segment title).

End Reconciler.

(** ** Python values, exceptions and the outside world *)

(** The values [r.json()] can produce, which are also the values the
    adapters hand on: [None], booleans, integers, floats (by their exact
    rational value), strings, lists and string-keyed dictionaries. *)
Inductive pyval : Type :=
| PNone
| PBool (b : bool)
| PInt (z : Z)
| PFloat (q : Q)
| PStr (s : string)
| PList (l : list pyval)
| PDict (d : list (string * pyval)).

Inductive exn : Type :=
| KeyError | IndexError | TypeError | AttributeError | ValueError
| OverflowError | ZeroDivisionError | RequestException | JSONDecodeError | SearchError.

Inductive result (A : Type) : Type :=
| Ok (a : A)
| Raise (e : exn).
Arguments Ok {A} a.
Arguments Raise {A} e.

(** What [requests.get] can do: raise (connection error, timeout), or
    return a response with a status code whose [.json()] either decodes
    or raises. *)
Record response : Type := {
  status_code : Z;
  json_body : option pyval
}.

Inductive reply : Type :=
| ConnFail
| Resp (r : response).

(** What [googlesearch.search] can do: raise at the call, or yield results
    whose [description] is a string or not, possibly raising after the
    last one listed. *)
Inductive search_reply : Type :=
| SearchFail
| SearchResults (descriptions : list (option string)) (breaks_off : bool).

Inductive request : Type :=
| ZenodoRecords (doi : string)
| AltmetricDoi (doi : string)
| HNSearch (search_query : string)
| HNComments (story_id : pyval).

(** The outside world answers the n-th external call of a run. *)
Record World : Type := {
  http : nat -> request -> reply;
  web_search : nat -> string -> search_reply
}.

Module Py.

Fixpoint assoc {A : Type} (k : string) (d : list (string * A)) : option A :=
  match d with
  | [] => None
  | (k', v) :: rest => if String.eqb k k' then Some v else assoc k rest
  end.

(** [v[k]] for a string key. *)
Definition getitem (v : pyval) (k : string) : result pyval :=
  match v with
  | PDict d => match assoc k d with Some x => Ok x | None => Raise KeyError end
  | _ => Raise TypeError
  end.

(** [v[0]] *)
Definition getitem0 (v : pyval) : result pyval :=
  match v with
  | PList (x :: _) => Ok x
  | PList [] => Raise IndexError
  | PStr (String c _) => Ok (PStr (String c EmptyString))
  | PStr EmptyString => Raise IndexError
  | PDict _ => Raise KeyError
  | _ => Raise TypeError
  end.

(** [v.get(k, default)] *)
Definition get (v : pyval) (k : string) (default : pyval) : result pyval :=
  match v with
  | PDict d => match assoc k d with Some x => Ok x | None => Ok default end
  | _ => Raise AttributeError
  end.

(** [v > 0] *)
Definition gt0 (v : pyval) : result bool :=
  match v with
  | PInt z => Ok (0 <? z)
  | PBool b => Ok b
  | PFloat q => Ok (negb (Qle_bool q 0))
  | _ => Raise TypeError
  end.

(** Truth value, as in [if v:]. *)
Definition truthy (v : pyval) : bool :=
  match v with
  | PNone => false
  | PBool b => b
  | PInt z => negb (z =? 0)
  | PFloat q => negb (Qeq_bool q 0)
  | PStr s => negb (String.eqb s EmptyString)
  | PList l => match l with [] => false | _ => true end
  | PDict d => match d with [] => false | _ => true end
  end.

Fixpoint chars (s : string) : list pyval :=
  match s with
  | EmptyString => []
  | String c r => PStr (String c EmptyString) :: chars r
  end.

(** The items [for c in v] visits. *)
Definition iter (v : pyval) : result (list pyval) :=
  match v with
  | PList l => Ok l
  | PStr s => Ok (chars s)
  | PDict d => Ok (map (fun kv => PStr (fst kv)) d)
  | _ => Raise TypeError
  end.

(** [isinstance(v, int)]: booleans are integers in Python. *)
Definition as_int (v : pyval) : option Z :=
  match v with
  | PInt z => Some z
  | PBool b => Some (if b then 1 else 0)
  | _ => None
  end.

End Py.

(** ** A state and exception monad over the call counter *)

Definition M (A : Type) : Type := nat -> result A * nat.

Definition ret {A} (a : A) : M A := fun n => (Ok a, n).
Definition raise {A} (e : exn) : M A := fun n => (Raise e, n).
Definition bind {A B} (m : M A) (k : A -> M B) : M B :=
  fun n => match m n with
           | (Ok a, n') => k a n'
           | (Raise e, n') => (Raise e, n')
           end.
Definition lift {A} (r : result A) : M A := fun n => (r, n).

(** [try: body / except: handler] with a bare [except]. *)
Definition try_except {A} (body handler : M A) : M A :=
  fun n => match body n with
           | (Ok a, n') => (Ok a, n')
           | (Raise _, n') => handler n'
           end.

Declare Scope py_scope.
Delimit Scope py_scope with py.
Notation "x <- m ;; k" := (bind m (fun x => k))
  (at level 61, m at next level, right associativity) : py_scope.
Notation "' pat <- m ;; k" := (bind m (fun x => match x with pat => k end))
  (at level 61, pat pattern, m at next level, right associativity) : py_scope.

(** ** The two regular expressions *)

Module Re.
Import PyStr.

Definition is_digit (c : ascii) : bool :=
  let n := N.to_nat (N_of_ascii c) in ((48 <=? n) && (n <=? 57))%nat.

Fixpoint skip_digits (s : string) : string :=
  match s with
  | String c r => if is_digit c then skip_digits r else s
  | EmptyString => s
  end.

Fixpoint take_digits (s : string) : string :=
  match s with
  | String c r => if is_digit c then String c (take_digits r) else EmptyString
  | EmptyString => EmptyString
  end.

(** [re.search(r"(\d+)\s*Reads", desc)]: group 1 of the leftmost match.
    A match at a position takes the whole run of digits there, then the
    whole run of whitespace, then the word; giving back a digit or a
    space cannot help, since the next character is then a digit or a
    space. *)
Fixpoint search_reads (desc : string) : option string :=
  match desc with
  | EmptyString => None
  | String c r =>
      if is_digit c && prefix "Reads" (lstrip (skip_digits desc))
      then Some (take_digits desc)
      else search_reads r
  end.

(** The value of a string of decimal digits. *)
Definition int_of_digits (digits : string) : Z :=
  fold_left
    (fun acc c => 10 * acc + (Z.of_N (N_of_ascii c) - 48))
    (list_ascii_of_string digits) 0.

(** [sys.get_int_max_str_digits()] as CPython sets it by default (3.11 and
    later, and the security releases of the older lines). *)
Definition int_max_str_digits : Z := 4300.

(** [int(digits)] for a string of decimal digits, as both adapters call it
    on group 1 of a match: the value, or ValueError when the string has
    more digits than the limit. *)
Definition int_of_str (digits : string) : result Z :=
  if int_max_str_digits <? len digits then Raise ValueError
  else Ok (int_of_digits digits).

(** The rest of the text after the first [>], if no [<] comes before it. *)
Fixpoint close_tag (s : string) : option string :=
  match s with
  | EmptyString => None
  | String c r =>
      if Ascii.eqb c ">" then Some r
      else if Ascii.eqb c "<" then None
      else close_tag r
  end.

(** A match of [<[^<]+?>] at the head of [s]: the text after it. *)
Definition match_tag (s : string) : option string :=
  match s with
  | String c (String d r) =>
      if Ascii.eqb c "<" && negb (Ascii.eqb d "<") then close_tag r else None
  | _ => None
  end.

Fixpoint sub_tags_fuel (fuel : nat) (text : string) : string :=
  match fuel with
  | O => text
  | S fuel' =>
      match match_tag text with
      | Some rest => sub_tags_fuel fuel' rest
      | None =>
          match text with
          | EmptyString => EmptyString
          | String c r => String c (sub_tags_fuel fuel' r)
          end
      end
  end.

(** [re.sub('<[^<]+?>', '', text)]; every step consumes a character, so
    the length of the text is fuel enough. *)
Definition sub_tags (text : string) : string :=
  sub_tags_fuel (String.length text) text.

End Re.

(** ** The source adapters *)

Record comment_preview : Type := {
  author : pyval;
  text : string
}.

(** The dictionary [get_hacker_news_details] returns on a hit. *)
Record hn_details : Type := {
  points : pyval;
  comments_count : pyval;
  objectID : pyval;
  hn_title : pyval;
  comments_preview : list comment_preview
}.

Definition score_only : pyval := PDict [("score", PInt 0)].
Definition Protected : pyval := PStr "Protected".

Section Adapters.
Import PyStr.
Local Open Scope py_scope.

Variable w : World.

(** [requests.get(url, timeout=...)]: one external call. *)
Definition requests_get (rq : request) : M response :=
  fun n => match http w n rq with
           | ConnFail => (Raise RequestException, S n)
           | Resp r => (Ok r, S n)
           end.

(** [r.json()] *)
Definition json (r : response) : M pyval :=
  match json_body r with
  | Some v => ret v
  | None => raise JSONDecodeError
  end.

Definition get_zenodo_stats (doi : string) : M (pyval * pyval) :=
  try_except
    (r <- requests_get (ZenodoRecords doi) ;;
     data <- json r ;;
     hits <- lift (Py.getitem data "hits") ;;
     total <- lift (Py.getitem hits "total") ;;
     positive <- lift (Py.gt0 total) ;;
     if (positive : bool) then
       hits <- lift (Py.getitem data "hits") ;;
       hits_list <- lift (Py.getitem hits "hits") ;;
       first <- lift (Py.getitem0 hits_list) ;;
       stats <- lift (Py.getitem first "stats") ;;
       unique_views <- lift (Py.get stats "unique_views" (PInt 0)) ;;
       unique_downloads <- lift (Py.get stats "unique_downloads" (PInt 0)) ;;
       ret (unique_views, unique_downloads)
     else ret (PNone, PNone))
    (ret (PNone, PNone)).

Definition get_altmetric_data (doi : string) : M pyval :=
  try_except
    (r <- requests_get (AltmetricDoi doi) ;;
     if status_code r =? 200 then
       data <- json r ;;
       score <- lift (Py.get data "score" (PInt 0)) ;;
       posts <- lift (Py.get data "cited_by_posts_count" (PInt 0)) ;;
       tweeters <- lift (Py.get data "cited_by_tweeters_count" (PInt 0)) ;;
       details_url <- lift (Py.get data "details_url" PNone) ;;
       ret (PDict [("score", score);
                   ("cited_by_posts_count", posts);
                   ("cited_by_tweeters_count", tweeters);
                   ("details_url", details_url)])
     else ret score_only)
    (ret score_only).

(** One turn of the loop over the comment hits. *)
Definition preview_of (c : pyval) : result comment_preview :=
  match Py.get c "comment_text" (PStr "") with
  | Raise e => Raise e
  | Ok (PStr text) =>
      let clean_text := Re.sub_tags text in
      let clean_text :=
        if 150 <? len clean_text then take 150 clean_text ++ "..."
        else clean_text in
      match Py.get c "author" PNone with
      | Raise e => Raise e
      | Ok a => Ok {| author := a; text := clean_text |}
      end
  | Ok _ => Raise TypeError
  end.

Fixpoint previews (c_hits : list pyval) : result (list comment_preview) :=
  match c_hits with
  | [] => Ok []
  | c :: rest =>
      match preview_of c with
      | Raise e => Raise e
      | Ok p => match previews rest with
                | Raise e => Raise e
                | Ok ps => Ok (p :: ps)
                end
      end
  end.

(** The body of the [try] block: [Some] at the [return] inside it, [None]
    when control falls out of the nested [if]s. *)
Definition hn_try_body (search_query : string) : M (option hn_details) :=
  r <- requests_get (HNSearch search_query) ;;
  if status_code r =? 200 then
    data <- json r ;;
    hits <- lift (Py.get data "hits" (PList [])) ;;
    if Py.truthy hits then
      best_hit <- lift (Py.getitem0 hits) ;;
      story_id <- lift (Py.get best_hit "objectID" PNone) ;;
      c_r <- requests_get (HNComments story_id) ;;
      preview <-
        (if status_code c_r =? 200 then
           c_data <- json c_r ;;
           c_hits <- lift (Py.get c_data "hits" (PList [])) ;;
           cs <- lift (Py.iter c_hits) ;;
           lift (previews cs)
         else ret []) ;;
      pts <- lift (Py.get best_hit "points" (PInt 0)) ;;
      cnt <- lift (Py.get best_hit "num_comments" (PInt 0)) ;;
      ttl <- lift (Py.get best_hit "title" PNone) ;;
      ret (Some {| points := pts; comments_count := cnt; objectID := story_id;
                   hn_title := ttl; comments_preview := preview |})
    else ret None
  else ret None.

(** The query and the URL are built before the [try]; on the strings
    modelled here that cannot raise. *)
Definition get_hacker_news_details (title : string) : M (option hn_details) :=
  let search_query := strip (before_colon title) in
  try_except (hn_try_body search_query) (ret None).

(** The loop over the search results: [Some n] at the [return] inside it. *)
Fixpoint scan_results (descriptions : list (option string)) (breaks_off : bool)
  : result (option Z) :=
  match descriptions with
  | [] => if breaks_off then Raise SearchError else Ok None
  | None :: _ => Raise TypeError
  | Some desc :: rest =>
      match Re.search_reads desc with
      | Some digits =>
          match Re.int_of_str digits with
          | Ok reads => Ok (Some reads)
          | Raise e => Raise e
          end
      | None => scan_results rest breaks_off
      end
  end.

(** [search(query, num_results=2, advanced=True)] and the loop over it. *)
Definition rg_try_body (query : string) : M (option Z) :=
  fun n => match web_search w n query with
           | SearchFail => (Raise SearchError, S n)
           | SearchResults ds b => (scan_results ds b, S n)
           end.

Definition get_researchgate_rough (title : string) : M pyval :=
  let query := "site:researchgate.net " ++ title in
  found <- try_except (rg_try_body query) (ret None) ;;
  match found with
  | Some reads => ret (PInt reads)
  | None => ret Protected
  end.

End Adapters.

(** ** Python floats

    A [float] is an IEEE 754 binary64 number.  It is kept here as its sign
    and its exact rational magnitude, and every operation rounds the exact
    result to the nearest binary64, ties to even: 53 significant bits,
    exponents down to the subnormal step 2^-1074, overflow from 2^1024. *)

Module Float64.

Inductive t : Type :=
| Finite (negative : bool) (magnitude : Q)
| Inf (negative : bool)
| NaN.

(** The integer nearest to [n / d], ties to even, for [0 <= n] and [0 < d]. *)
Definition round_half_even (n d : Z) : Z :=
  let q := n / d in
  let r := n mod d in
  if 2 * r <? d then q
  else if d <? 2 * r then q + 1
  else if Z.even q then q else q + 1.

(** The floor of the binary logarithm of [n / d]. *)
Definition floor_log2 (n d : positive) : Z :=
  let e := Z.log2 (Zpos n) - Z.log2 (Zpos d) in
  let reaches :=
    if 0 <=? e then Zpos d * 2 ^ e <=? Zpos n
    else Zpos d <=? Zpos n * 2 ^ (- e) in
  if reaches then e else e - 1.

(** The binary64 nearest to the positive rational [n / d], or [None] when
    it rounds past the largest finite one. *)
Definition nearest (n d : positive) : option Q :=
  let e := Z.max (floor_log2 n d - 52) (-1074) in
  let m :=
    if 0 <=? e then round_half_even (Zpos n) (Zpos d * 2 ^ e)
    else round_half_even (Zpos n * 2 ^ (- e)) (Zpos d) in
  let v :=
    if 0 <=? e then Qmake (m * 2 ^ e) 1
    else Qmake m (Z.to_pos (2 ^ (- e))) in
  if Qle_bool (Qmake (2 ^ 1024) 1) v then None else Some (Qred v).

(** Rounding of a non-negative exact magnitude, overflow giving infinity. *)
Definition of_magnitude (negative : bool) (a : Q) : t :=
  match Qnum a with
  | Zpos n =>
      match nearest n (Qden a) with
      | Some v => Finite negative v
      | None => Inf negative
      end
  | _ => Finite negative 0
  end.

(** A decimal literal such as [0.1], and its negation [-0.1]. *)
Definition literal (a : Q) : t := of_magnitude false a.

Definition neg (x : t) : t :=
  match x with
  | Finite s a => Finite (negb s) a
  | Inf s => Inf (negb s)
  | NaN => NaN
  end.

(** [a / b] on two [int]s: the correctly rounded quotient. *)
Definition int_truediv (a b : Z) : result t :=
  if b =? 0 then Raise ZeroDivisionError
  else
    let negative := xorb (a <? 0) (b <? 0) in
    match of_magnitude negative (Qmake (Z.abs a) (Z.to_pos (Z.abs b))) with
    | Inf _ => Raise OverflowError
    | x => Ok x
    end.

(** [x * 100] *)
Definition times100 (x : t) : t :=
  match x with
  | Finite s a => of_magnitude s (Qred (a * 100))
  | other => other
  end.

(** [round(x, 1)]: the decimal with one fractional digit nearest to the
    exact value of [x], ties to even, read back as a float. *)
Definition tenths (a : Q) : Z :=
  round_half_even (Qnum a * 10) (Zpos (Qden a)).

Definition round1 (x : t) : t :=
  match x with
  | Finite s a => of_magnitude s (Qred (Qmake (tenths a) 10))
  | other => other
  end.

Definition value (negative : bool) (a : Q) : Q :=
  if negative then Qopp a else a.

(** [x < y] *)
Definition ltb (x y : t) : bool :=
  match x, y with
  | NaN, _ | _, NaN => false
  | Finite s a, Finite s' a' => negb (Qle_bool (value s' a') (value s a))
  | Inf true, Inf true => false
  | Inf true, _ => true
  | Finite _ _, Inf s' => negb s'
  | Inf false, _ => false
  end.

(** [x <= y] *)
Definition leb (x y : t) : bool :=
  match x, y with
  | NaN, _ | _, NaN => false
  | Finite s a, Finite s' a' => Qle_bool (value s a) (value s' a')
  | Inf true, _ => true
  | Finite _ _, Inf s' => negb s'
  | Inf false, Inf false => true
  | Inf false, _ => false
  end.

(** [repr(x)] where it is known: the infinities, and a float that is the
    nearest one to a decimal [k / 10] of at most 15 digits, which prints as
    that decimal.  Elsewhere (longer digit strings, exponent notation) the
    text is left undetermined. *)
Definition repr (x : t) : option string :=
  match x with
  | NaN => Some "nan"
  | Inf s => Some (if s then "-inf" else "inf")
  | Finite s a =>
      let k := tenths a in
      let sign := if s then "-" else "" in
      let digits (n : Z) := NilZero.string_of_uint (N.to_uint (Z.to_N n)) in
      match of_magnitude s (Qred (Qmake k 10)) with
      | Finite _ b =>
          if Qeq_bool a b && (k <? 10 ^ 15)
          then Some (sign ++ digits (k / 10) ++ "." ++ digits (k mod 10))
          else None
      | _ => None
      end
  end.

(** [float(z)]: the float nearest to an integer. *)
Definition of_Z (z : Z) : t := of_magnitude (z <? 0) (inject_Z (Z.abs z)).

(** The float nearest to an exact rational. *)
Definition of_Q (q : Q) : t :=
  of_magnitude (Qnum q <? 0) (Qmake (Z.abs (Qnum q)) (Qden q)).

(** [x + y]: the exact sum of two finite floats, rounded; an exact sum of
    zero is +0.0 unless both operands are -0.0. *)
Definition add (x y : t) : t :=
  match x, y with
  | NaN, _ | _, NaN => NaN
  | Inf s, Inf s' => if Bool.eqb s s' then Inf s else NaN
  | Inf s, Finite _ _ => Inf s
  | Finite _ _, Inf s' => Inf s'
  | Finite s a, Finite s' a' =>
      let exact := Qred (value s a + value s' a') in
      match Qnum exact with
      | Z0 => Finite (s && s') 0
      | Zpos _ => of_magnitude false exact
      | Zneg _ => of_magnitude true (Qopp exact)
      end
  end.

(** [x / k] for a positive count [k]. *)
Definition div_count (x : t) (k : positive) : t :=
  match x with
  | Finite s a => of_magnitude s (Qred (a / inject_Z (Zpos k)))
  | other => other
  end.

(** The float that is exactly the integer [z]. *)
Definition exact_Z (z : Z) : t := Finite (z <? 0) (inject_Z (Z.abs z)).

End Float64.

(** ** The sentiment classifier (analyze_sentiment) *)

Section Sentiment.

(** [TextBlob(text).sentiment.polarity]: the external analysis, which
    yields a float or raises. *)
Variable polarity : string -> result Float64.t.

(** The argument is a string or [None]. *)
Definition analyze_sentiment (text : option string) : string :=
  match text with
  | None => "N/A"
  | Some EmptyString => "N/A"
  | Some text =>
      match polarity text with
      | Raise _ => "N/A"
      | Ok pol =>
          if Float64.ltb (Float64.literal (1 # 10)) pol then "Positive"
          else if Float64.ltb pol (Float64.neg (Float64.literal (1 # 10)))
               then "Negative"
               else "Neutral"
      end
  end.

End Sentiment.

(** ** Records and the main loop *)

(** An entry of [DOIs]. *)
Record publication : Type := {
  doi : string;
  title : string;
  platform : string
}.

(** The stored ["DL Rate"]: the text ["-"], or the text of a float followed
    by a percent sign.  [repr] of a float determines the float, so the
    second kind is kept as the float itself. *)
Inductive dl_rate_text : Type :=
| Dash
| Percent (x : Float64.t).

(** The characters of a stored rate, where [Float64.repr] gives them. *)
Definition rate_string (r : dl_rate_text) : option string :=
  match r with
  | Dash => Some "-"
  | Percent x => option_map (fun s => s ++ "%") (Float64.repr x)
  end.

(** A dictionary appended to [records]. *)
Record metric_record : Type := {
  Title : string;
  Platform : string;
  DOI : string;
  Views : pyval;
  Downloads : pyval;
  DL_Rate : dl_rate_text;
  Altmetric : pyval;
  HackerNews : option hn_details;
  RG_Reads : pyval
}.

(** Lines 392-394: the rate of one record. *)
Definition dl_rate (views downloads : pyval) : result dl_rate_text :=
  match Py.as_int views, Py.as_int downloads with
  | Some v, Some d =>
      if 0 <? v then
        match Float64.int_truediv d v with
        | Ok x => Ok (Percent (Float64.round1 (Float64.times100 x)))
        | Raise e => Raise e
        end
      else Ok Dash
  | _, _ => Ok Dash
  end.

Section MainLoop.
Local Open Scope py_scope.

Variable w : World.
Variable engrxiv_cache : TitleCache.

(** Lines 381-386: the views and downloads of one publication. *)
Definition stats_step (item : publication) : M (pyval * pyval) :=
  if String.eqb (platform item) "Zenodo" then get_zenodo_stats w (doi item)
  else if String.eqb (platform item) "engrXiv" then
    let '(_, downloads) :=
      Reconciler.get_engrxiv_stats_from_cache engrxiv_cache (title item) in
    ret (PStr "N/A", PInt downloads)
  else ret (PNone, PNone).

(** One turn of the loop over [DOIs]. *)
Definition process (item : publication) : M metric_record :=
  let doi := doi item in
  let title := title item in
  let plat := platform item in
  '(views, downloads) <- stats_step item ;;
  am_data <- get_altmetric_data w doi ;;
  hn_data <- get_hacker_news_details w title ;;
  rg_reads <- get_researchgate_rough w title ;;
  rate <- lift (dl_rate views downloads) ;;
  ret {| Title := title; Platform := plat; DOI := doi;
         Views := views; Downloads := downloads; DL_Rate := rate;
         Altmetric := am_data; HackerNews := hn_data; RG_Reads := rg_reads |}.

(** The loop, [records] growing by one [append] per turn. *)
Fixpoint loop (items : list publication) (records : list metric_record)
  : M (list metric_record) :=
  match items with
  | [] => ret records
  | item :: rest =>
      r <- process item ;;
      loop rest (records ++ [r])
  end.

Definition main_loop (DOIs : list publication) : M (list metric_record) :=
  loop DOIs [].

End MainLoop.

(** ** The report table (generate_markdown_report, lines 315-337) *)

(** What the ["DL Rate"] column shows. *)
Inductive rate_display : Type :=
| Stored (r : dl_rate_text)
| NotAvailable.

Definition display_string (d : rate_display) : option string :=
  match d with
  | Stored r => rate_string r
  | NotAvailable => Some "N/A"
  end.

(** A row of the table; [None] in the last two columns is the text ["-"]. *)
Record table_row : Type := {
  row_title : string;
  row_downloads : pyval;
  row_rate : rate_display;
  row_score : result pyval;
  row_hn_pts : option pyval;
  row_hn_cmts : option pyval
}.

Definition short_title (title : string) : string :=
  let title_main := PyStr.before_colon title in
  if 30 <? PyStr.len title_main then PyStr.take 30 title_main ++ "..."
  else title_main.

(** One turn of the loop over [records]: the row built, and the record as
    the turn leaves it. *)
Definition report_row (r : metric_record) : table_row * metric_record :=
  let dl_rate_display := Stored (DL_Rate r) in
  let dl_rate_display :=
    if negb (String.eqb (Platform r) "Zenodo") then NotAvailable
    else dl_rate_display in
  ({| row_title := short_title (Title r);
      row_downloads := Downloads r;
      row_rate := dl_rate_display;
      row_score := Py.get (Altmetric r) "score" (PInt 0);
      row_hn_pts := option_map points (HackerNews r);
      row_hn_cmts := option_map comments_count (HackerNews r) |}, r).

Fixpoint report_rows (records : list metric_record)
  : list table_row * list metric_record :=
  match records with
  | [] => ([], [])
  | r :: rest =>
      let '(row, r') := report_row r in
      let '(rows, rest') := report_rows rest in
      (row :: rows, r' :: rest')
  end.

(** ** Corpus statistics (lines 404-407)

    The [Downloads] column of the data frame holds int64 cells when every
    record has an integer count, and float64 cells, NaN standing for a
    missing cell, when some record has none; [pd.to_numeric] with
    [errors='coerce'] turns what is not a number into NaN.  A data frame
    built from an empty list of records has no columns, and
    [df['Downloads']] raises KeyError.

    Three things are left open, as parameters: the order in which numpy
    adds the cells of a float column, the reading of a text as a number,
    and the statistics of a column with a boolean or with an integer
    outside the int64 range. *)

(** A result of numpy: an int64 or a float64. *)
Inductive number : Type :=
| IntNum (z : Z)
| FloatNum (x : Float64.t).

(** A sum of floats as it is bracketed: the cells are the leaves. *)
Inductive sum_tree : Type :=
| Leaf (x : Float64.t)
| Node (l r : sum_tree).

Fixpoint eval (t : sum_tree) : Float64.t :=
  match t with
  | Leaf x => x
  | Node l r => Float64.add (eval l) (eval r)
  end.

Fixpoint leaves (t : sum_tree) : list Float64.t :=
  match t with
  | Leaf x => [x]
  | Node l r => (leaves l ++ leaves r)%list
  end.

(** A way of summing adds every cell once, and apart from the cells only
    zeros (the start value of an accumulator). *)
Definition adds_each_once (reduction : list Float64.t -> sum_tree) : Prop :=
  forall column,
    exists k,
      Permutation (leaves (reduction column))
        (repeat (Float64.Finite false 0) k ++ column)%list.

(** The sum from the first cell to the last, one way of summing. *)
Fixpoint left_comb_from (acc : sum_tree) (column : list Float64.t) : sum_tree :=
  match column with
  | [] => acc
  | x :: rest => left_comb_from (Node acc (Leaf x)) rest
  end.

Definition left_comb (column : list Float64.t) : sum_tree :=
  match column with
  | [] => Leaf (Float64.Finite false 0)
  | x :: rest => left_comb_from (Leaf x) rest
  end.

(** A cell of the column as pandas holds it. *)
Inductive cell : Type :=
| IntCell (z : Z)
| FloatCell (x : Float64.t)
| OpenCell.

(** [numpy.int64] arithmetic wraps around. *)
Definition wrap64 (z : Z) : Z := (z + 2 ^ 63) mod 2 ^ 64 - 2 ^ 63.

Section Stats.

(** Whether pandas reads a text as a number. *)
Variable numeric_text : string -> bool.

(** The statistics of a data frame with a cell left open. *)
Variable open_total : list metric_record -> result number.
Variable open_avg : list metric_record -> result Float64.t.

(** The bracketing of numpy's float sum. *)
Variable reduction : list Float64.t -> sum_tree.

Definition int64 (z : Z) : bool := (- 2 ^ 63 <=? z) && (z <? 2 ^ 63).

(** One cell of the column after [pd.to_numeric(..., errors='coerce')]. *)
Definition read_cell (v : pyval) : cell :=
  match v with
  | PInt z => if int64 z then IntCell z else OpenCell
  | PBool _ => OpenCell
  | PFloat q => FloatCell (Float64.of_Q q)
  | PStr s => if numeric_text s then OpenCell else FloatCell Float64.NaN
  | PNone | PList _ | PDict _ => FloatCell Float64.NaN
  end.

Definition is_open (c : cell) : bool :=
  match c with OpenCell => true | _ => false end.

Definition is_int (c : cell) : bool :=
  match c with IntCell _ => true | _ => false end.

Definition int_of (c : cell) : Z :=
  match c with IntCell z => z | _ => 0 end.

(** The cell in a float64 column. *)
Definition as_float (c : cell) : Float64.t :=
  match c with
  | IntCell z => Float64.of_Z z
  | FloatCell x => x
  | OpenCell => Float64.NaN
  end.

Definition isna (x : Float64.t) : bool :=
  match x with Float64.NaN => true | _ => false end.

(** [.fillna(0)] *)
Definition fillna0 (column : list Float64.t) : list Float64.t :=
  map (fun x => if isna x then Float64.Finite false 0 else x) column.

(** [.dropna()] *)
Definition dropna (column : list Float64.t) : list Float64.t :=
  filter (fun x => negb (isna x)) column.

(** [.sum()] on a float64 column. *)
Definition sum (column : list Float64.t) : Float64.t :=
  eval (reduction column).

(** [.sum()] on an int64 column. *)
Definition sum_int64 (column : list Z) : Z :=
  wrap64 (fold_left Z.add column 0).

(** [.mean()]: the float sum by the number of cells, NaN on an empty
    column. *)
Definition mean (column : list Float64.t) : Float64.t :=
  match column with
  | [] => Float64.NaN
  | _ => Float64.div_count (sum column) (Pos.of_nat (List.length column))
  end.

(** [str.contains(pat, case=False)] for a pattern of plain letters. *)
Definition contains_nocase (pat s : string) : bool :=
  PyStr.contains (PyStr.lower pat) (PyStr.lower s).

(** Line 405. *)
Definition total_dl (df : list metric_record) : result number :=
  match df with
  | [] => Raise KeyError
  | _ =>
      let cells := map (fun r => read_cell (Downloads r)) df in
      if existsb is_open cells then open_total df
      else if forallb is_int cells
           then Ok (IntNum (sum_int64 (map int_of cells)))
           else Ok (FloatNum (sum (fillna0 (map as_float cells))))
  end.

(** Line 406. *)
Definition df_for_avg (df : list metric_record) : list metric_record :=
  filter (fun r => negb (contains_nocase "Technical Letter" (Title r))) df.

(** Line 407, reached when line 405 has not raised. *)
Definition avg_dl (df : list metric_record) : result Float64.t :=
  match df with
  | [] => Raise KeyError
  | _ =>
      if existsb is_open (map (fun r => read_cell (Downloads r)) df)
      then open_avg df
      else
        Ok (mean (dropna (map (fun r => as_float (read_cell (Downloads r)))
                            (df_for_avg df))))
  end.

(** The download cell of a record is an integer count, or is missing or
    not a number. *)
Definition plain_cell (v : pyval) : Prop :=
  match v with
  | PInt _ | PNone | PList _ | PDict _ => True
  | PStr s => numeric_text s = false
  | PBool _ | PFloat _ => False
  end.

End Stats.

(** The specification's reading, on integer counts: a sum that counts a
    cell without a count as 0, and the sum and the number of the counts of
    the records that are kept. *)
Definition count_of (v : pyval) : option Z :=
  match v with PInt z => Some z | _ => None end.

Fixpoint spec_total (df : list metric_record) : Z :=
  match df with
  | [] => 0
  | r :: rest =>
      match count_of (Downloads r) with Some z => z | None => 0 end
      + spec_total rest
  end.

Fixpoint spec_kept (df : list metric_record) : Z * nat :=
  match df with
  | [] => (0, O)
  | r :: rest =>
      let '(s, k) := spec_kept rest in
      if contains_nocase "Technical Letter" (Title r) then (s, k)
      else match count_of (Downloads r) with
           | Some z => (z + s, S k)
           | None => (s, k)
           end
  end.

(** Every record has a count. *)
Definition all_counts (df : list metric_record) : bool :=
  forallb (fun r => match count_of (Downloads r) with
                    | Some _ => true
                    | None => false
                    end) df.

(** The sum of the absolute values of the counts. *)
Fixpoint abs_total (df : list metric_record) : Z :=
  match df with
  | [] => 0
  | r :: rest =>
      match count_of (Downloads r) with Some z => Z.abs z | None => 0 end
      + abs_total rest
  end.

(** The frame the statistics are exact on: every download cell is plain
    and the absolute values of the counts sum to less than 2^53. *)
Definition plain_frame (numeric_text : string -> bool)
    (df : list metric_record) : Prop :=
  Forall (fun r => plain_cell numeric_text (Downloads r)) df
  /\ abs_total df < 2 ^ 53.

(** Sums of integer counts, and the counts of a list of records: the
    counts with 0 for a cell without one, and the counts that are there. *)
Fixpoint abs_sum (zs : list Z) : Z :=
  match zs with
  | [] => 0
  | z :: rest => Z.abs z + abs_sum rest
  end.

Fixpoint int_sum (zs : list Z) : Z :=
  match zs with
  | [] => 0
  | z :: rest => z + int_sum rest
  end.

Definition counts0 (df : list metric_record) : list Z :=
  map (fun r => match count_of (Downloads r) with Some z => z | None => 0 end)
    df.

Fixpoint counts (df : list metric_record) : list Z :=
  match df with
  | [] => []
  | r :: rest =>
      match count_of (Downloads r) with
      | Some z => z :: counts rest
      | None => counts rest
      end
  end.


(** ** Outcomes of a monadic call, and kinds of reply *)

(** [m], started at call count [n], returns [v]. *)
Definition returns {A : Type} (m : M A) (n : nat) (v : A) : Prop :=
  fst (m n) = Ok v.

(** [m] returns a value from every call count: no exception leaves it. *)
Definition total {A : Type} (m : M A) : Prop :=
  forall n, exists v, returns m n v.

(** A network error, or a response whose body does not decode. *)
Definition unusable (rp : reply) : Prop :=
  rp = ConnFail \/ exists r, rp = Resp r /\ json_body r = None.

(** A response with a status code other than 200. *)
Definition refused (rp : reply) : Prop :=
  exists r, rp = Resp r /\ status_code r <> 200.

(** [d.get(k, default)] on the pairs of a dictionary. *)
Definition get_or (d : list (string * pyval)) (k : string) (default : pyval)
  : pyval :=
  match Py.assoc k d with Some v => v | None => default end.

(** The identifying fields of a publication and of a record. *)
Definition pub_ident (p : publication) : string * string * string :=
  (doi p, title p, platform p).
Definition record_ident (r : metric_record) : string * string * string :=
  (DOI r, Title r, Platform r).

(** No registry reply makes the rate division of its record overflow. *)
Definition rates_representable (w : World) : Prop :=
  forall n doi views downloads,
    returns (get_zenodo_stats w doi) n (views, downloads) ->
    exists rate, dl_rate views downloads = Ok rate.

(** ** Sample replies and worlds *)

Definition ok_json (v : pyval) : reply :=
  Resp {| status_code := 200; json_body := Some v |}.

(** A registry reply with one record carrying the given [stats]. *)
Definition zenodo_hit (stats : list (string * pyval)) : pyval :=
  PDict [("hits", PDict [("total", PInt 1);
                         ("hits", PList [PDict [("stats", PDict stats)]])])].

(** A forum search reply with one story. *)
Definition hn_hit : pyval :=
  PDict [("hits", PList [PDict [("objectID", PStr "4711");
                                ("points", PInt 12);
                                ("num_comments", PInt 3);
                                ("title", PStr "Anatomy of Conceptual Collapse")]])].

(** Every request fails at the network. *)
Definition world_down : World :=
  {| http := fun _ _ => ConnFail; web_search := fun _ _ => SearchFail |}.

(** The registry answers with the given [stats]; nothing else answers. *)
Definition world_zenodo (stats : list (string * pyval)) : World :=
  {| http := fun _ rq => match rq with
                         | ZenodoRecords _ => ok_json (zenodo_hit stats)
                         | _ => ConnFail
                         end;
     web_search := fun _ _ => SearchFail |}.

(** The forum search finds a story; the comments request then gets [c]. *)
Definition world_forum (c : reply) : World :=
  {| http := fun _ rq => match rq with
                         | HNSearch _ => ok_json hn_hit
                         | HNComments _ => c
                         | _ => ConnFail
                         end;
     web_search := fun _ _ => SearchFail |}.

(** The forum search answers with no story. *)
Definition world_no_story : World :=
  {| http := fun _ rq => match rq with
                         | HNSearch _ => ok_json (PDict [("hits", PList [])])
                         | _ => ConnFail
                         end;
     web_search := fun _ _ => SearchFail |}.

(** The reads of lines 212-213 on a decoded registry payload, one after the
    other: the [stats] of the first record, [None] when the total is not
    above 0, or the exception of the first read that fails. *)
Definition registry_stats (data : pyval) : result (option pyval) :=
  match Py.getitem data "hits" with
  | Raise e => Raise e
  | Ok hits =>
      match Py.getitem hits "total" with
      | Raise e => Raise e
      | Ok total =>
          match Py.gt0 total with
          | Raise e => Raise e
          | Ok false => Ok None
          | Ok true =>
              match Py.getitem hits "hits" with
              | Raise e => Raise e
              | Ok hits_list =>
                  match Py.getitem0 hits_list with
                  | Raise e => Raise e
                  | Ok first =>
                      match Py.getitem first "stats" with
                      | Raise e => Raise e
                      | Ok stats => Ok (Some stats)
                      end
                  end
              end
          end
      end
  end.

(** A value that is not a dictionary. *)
Definition not_a_dict (v : pyval) : Prop := forall d, v <> PDict d.

(** The registry answers with [rp], the mention service with [rp'];
    nothing else answers. *)
Definition world_payload (rp rp' : reply) : World :=
  {| http := fun _ rq => match rq with
                         | ZenodoRecords _ => rp
                         | AltmetricDoi _ => rp'
                         | _ => ConnFail
                         end;
     web_search := fun _ _ => SearchFail |}.

(** A registry payload that announces one record and lists none. *)
Definition empty_listing : pyval :=
  PDict [("hits", PDict [("total", PInt 1); ("hits", PList [])])].

(** The list [DOIs] of the source. *)
Definition DOIs : list publication :=
  [ {| doi := "10.31224/5289";
       title := "Masami Systems: A Structurally Constrained, Emotionally Persistent AI Companion for Simulating Human-like Connection";
       platform := "engrXiv" |};
    {| doi := "10.31224/5381";
       title := "A Japanese Persona Is All You Need: A Case Study on AI's Creative Agency Driving the Translation Asymmetry Trap";
       platform := "engrXiv" |};
    {| doi := "10.5281/zenodo.17428600";
       title := "Technical Letter (ZIP)";
       platform := "Zenodo" |};
    {| doi := "10.31224/5745";
       title := "Drift of Ungrounded Modality: On Sycophantic Failure in Constitutional AI";
       platform := "engrXiv" |};
    {| doi := "10.5281/zenodo.17575634";
       title := "In the Lover's Mirror";
       platform := "Zenodo" |};
    {| doi := "10.5281/zenodo.17759331";
       title := "Anatomy of Conceptual Collapse";
       platform := "Zenodo" |} ].

(** A cache as the prefetch could leave it. *)
Definition sample_cache : TitleCache :=
  [("Masami Systems: A Structurally Constrained, Emotionally Persistent AI Companion for Simulating Human-like Connection", 31);
   ("Drift of Ungrounded Modality", 12)].

(** Registry counts whose quotient is beyond the largest float. *)
Definition huge_stats : list (string * pyval) :=
  [("unique_views", PInt 1); ("unique_downloads", PInt (2 ^ 1024))].

Definition plain_stats : list (string * pyval) :=
  [("unique_views", PInt 200); ("unique_downloads", PInt 50)].

Definition third_stats : list (string * pyval) :=
  [("unique_views", PInt 3); ("unique_downloads", PInt 1)].

(** The characters stored as the rate for integer views and downloads,
    where the rate is computed and its text is known. *)
Definition rate_of (views downloads : Z) : option string :=
  match dl_rate (PInt views) (PInt downloads) with
  | Ok rate => rate_string rate
  | Raise _ => None
  end.

(** A record with a given title, platform, views and downloads, and no
    other signal. *)
Definition record_with (title platform : string) (views downloads : pyval)
    (rate : dl_rate_text) : metric_record :=
  {| Title := title; Platform := platform; DOI := "";
     Views := views; Downloads := downloads; DL_Rate := rate;
     Altmetric := score_only; HackerNews := None; RG_Reads := Protected |}.

(** Downloads 10, 20, None and 999, the last under a title that contains
    "Technical Letter". *)
Definition sample_records : list metric_record :=
  [ record_with "In the Lover's Mirror" "Zenodo" (PInt 40) (PInt 10) Dash;
    record_with "Anatomy of Conceptual Collapse" "Zenodo" (PInt 50) (PInt 20)
      Dash;
    record_with "A Paper Elsewhere" "arXiv" PNone PNone Dash;
    record_with "Technical Letter (ZIP)" "Zenodo" (PInt 2000) (PInt 999) Dash ].

(** The same downloads, the 999 under a title that spells the pattern in
    another letter case, and a cell that is a text instead of a missing
    one. *)
Definition shouting_records : list metric_record :=
  [ record_with "In the Lover's Mirror" "Zenodo" (PInt 40) (PInt 10) Dash;
    record_with "Anatomy of Conceptual Collapse" "Zenodo" (PInt 50) (PInt 20)
      Dash;
    record_with "A Paper Elsewhere" "arXiv" PNone (PStr "N/A") Dash;
    record_with "A TECHNICAL letter, zipped" "Zenodo" (PInt 2000) (PInt 999)
      Dash ].

(** Downloads 2^53 - 1, 2 and None: the exact sum 2^53 + 1 is not a
    float. *)
Definition wide_records : list metric_record :=
  [ record_with "In the Lover's Mirror" "Zenodo" (PInt 40)
      (PInt (2 ^ 53 - 1)) Dash;
    record_with "Anatomy of Conceptual Collapse" "Zenodo" (PInt 50) (PInt 2)
      Dash;
    record_with "A Paper Elsewhere" "arXiv" PNone PNone Dash ].

(** ** The bulk scrape (prefetch_engrxiv_search_results, lines 154-202) *)

Module Prefetch.
Import PyStr.

(** What the HTML parser hands to the loop for one [div.details]: its text
    ([get_text(strip=True)]) and the text of the title element that the
    parent and sibling lookups find for it, if they find one. *)
Record detail_block : Type := {
  det_text : string;
  title_text : option string
}.

(** The search page: the request or the parsing raises, or there is a
    status code and the [div.details] blocks of the document. *)
Inductive page : Type :=
| PageFail
| Page (status : Z) (details_divs : list detail_block).

(** [s[n:]] *)
Fixpoint drop (n : nat) (s : string) : string :=
  match n, s with
  | O, _ => s
  | _, EmptyString => EmptyString
  | S k, String _ r => drop k r
  end.

(** [re.search(r"Downloads:\s*(\d+)", text)]: group 1 of the leftmost
    match.  After the word, the whole run of whitespace and then the whole
    run of digits are taken; giving back a space cannot help. *)
Fixpoint search_downloads (text : string) : option string :=
  match text with
  | EmptyString => None
  | String _ r =>
      if prefix "Downloads:" text then
        match Re.take_digits (lstrip (drop 10 text)) with
        | EmptyString => search_downloads r
        | digits => Some digits
        end
      else search_downloads r
  end.

(** The scan of [s.replace(old, "")], with [skip] characters of a match
    still to be passed over. *)
Fixpoint remove_all_from (old : string) (skip : nat) (s : string) : string :=
  match s with
  | EmptyString => EmptyString
  | String c r =>
      match skip with
      | S k => remove_all_from old k r
      | O =>
          if prefix old s
          then remove_all_from old (String.length old - 1) r
          else String c (remove_all_from old O r)
      end
  end.

(** [s.replace(old, "")]: the occurrences of [old], left to right and
    without overlap, are left out. *)
Definition remove_all (old s : string) : string :=
  match old with
  | EmptyString => s
  | _ => remove_all_from old O s
  end.

(** [d[k] = v] on a dictionary kept in insertion order: a key already
    present keeps its place and takes the new value. *)
Fixpoint dict_set (k : string) (v : Z) (d : TitleCache) : TitleCache :=
  match d with
  | [] => [(k, v)]
  | (k', v') :: rest =>
      if String.eqb k k' then (k, v) :: rest
      else (k', v') :: dict_set k v rest
  end.

(** The loop over [details_divs], inside the [try] of the function.  When
    [int(match.group(1))] raises (a run of more than 4300 digits), the
    [except Exception] of lines 201-202 ends the function: the blocks that
    follow are not read, and the cache stays as the blocks before left it. *)
Fixpoint prefetch_loop (details_divs : list detail_block)
    (engrxiv_cache : TitleCache) : TitleCache :=
  match details_divs with
  | [] => engrxiv_cache
  | det :: rest =>
      match search_downloads (det_text det) with
      | None => prefetch_loop rest engrxiv_cache
      | Some digits =>
          match Re.int_of_str digits with
          | Raise _ => engrxiv_cache
          | Ok dl_count =>
              match title_text det with
              | None => prefetch_loop rest engrxiv_cache
              | Some full_title =>
                  let full_title :=
                    strip (remove_all "Preprint / Version 1" full_title) in
                  prefetch_loop rest
                    (dict_set full_title dl_count engrxiv_cache)
              end
          end
      end
  end.

(** The function: the cache as it leaves it. *)
Definition prefetch_engrxiv_search_results (pg : page)
    (engrxiv_cache : TitleCache) : TitleCache :=
  match pg with
  | PageFail => engrxiv_cache
  | Page status details_divs =>
      if negb (status =? 200) then engrxiv_cache
      else prefetch_loop details_divs engrxiv_cache
  end.

End Prefetch.

(** ** The loop of the report with its highlights (lines 315-340) *)

(** An entry of [social_highlights]. *)
Record highlight : Type := {
  hl_title : string;
  hl_am : pyval;
  hl_hn : option hn_details
}.

(** [am.get('score', 0) > 0 or (hn and hn['points'] > 0)] *)
Definition is_highlight (r : metric_record) : result bool :=
  match Py.get (Altmetric r) "score" (PInt 0) with
  | Raise e => Raise e
  | Ok score =>
      match Py.gt0 score with
      | Raise e => Raise e
      | Ok true => Ok true
      | Ok false =>
          match HackerNews r with
          | None => Ok false
          | Some hn => Py.gt0 (points hn)
          end
      end
  end.

(** The loop over [records]: the rows of the table and the highlights, or
    the exception that stops the report. *)
Fixpoint report_loop (records : list metric_record)
  : result (list table_row * list highlight) :=
  match records with
  | [] => Ok ([], [])
  | r :: rest =>
      match is_highlight r with
      | Raise e => Raise e
      | Ok chosen =>
          match report_loop rest with
          | Raise e => Raise e
          | Ok (table_rows, social_highlights) =>
              Ok (fst (report_row r) :: table_rows,
                  if chosen
                  then {| hl_title := Title r; hl_am := Altmetric r;
                          hl_hn := HackerNews r |} :: social_highlights
                  else social_highlights)
          end
      end
  end.

(** ** The messaging functions (lines 77-136 and 467-483) *)

Module Slack.

(** The calls made on the client, in the order made. *)
Inductive call : Type :=
| AuthTest
| ConversationsInfo (channel : string)
| FilesUploadV2 (channel file title : string).

(** A call returns, raises [SlackApiError], or raises something else.  Of
    what it returns only the truth value of [info['channel']['is_member']]
    is read, and only after [conversations_info]. *)
Inductive answer : Type :=
| Answered (is_member : bool)
| ApiError
| OtherError.

(** The service answers the n-th call of a run. *)
Definition Client : Type := nat -> call -> answer.

(** A function returns a value, or an exception leaves it. *)
Inductive outcome (A : Type) : Type :=
| Finished (a : A)
| Escaped.
Arguments Finished {A} a.
Arguments Escaped {A}.

(** [if not x] for a string or [None]. *)
Definition unset (x : option string) : bool :=
  match x with
  | None => true
  | Some s => String.eqb s EmptyString
  end.

Definition text_of (x : option string) : string :=
  match x with Some s => s | None => EmptyString end.

Section WithClient.
Variable client : Client.
(** [os.path.exists] *)
Variable path_exists : string -> bool.

Definition send (c : call) (log : list call) : answer * list call :=
  (client (List.length log) c, (log ++ [c])%list).

Definition diagnose_and_connect (token channel_id : option string)
    (log : list call) : outcome bool * list call :=
  if unset token then (Finished false, log)
  else
    match send AuthTest log with
    | (ApiError, log) => (Finished false, log)
    | (OtherError, log) => (Escaped, log)
    | (Answered _, log) =>
        if unset channel_id then (Finished true, log)
        else
          match send (ConversationsInfo (text_of channel_id)) log with
          | (Answered is_member, log) => (Finished is_member, log)
          | (ApiError, log) => (Finished false, log)
          | (OtherError, log) => (Escaped, log)
          end
    end.

Definition upload_file_to_slack (token channel_id : option string)
    (filepath title : string) (log : list call)
  : outcome unit * list call :=
  if negb (path_exists filepath) then (Finished tt, log)
  else
    match send (FilesUploadV2 (text_of channel_id) filepath title) log with
    | (OtherError, log) => (Escaped, log)
    | (_, log) => (Finished tt, log)
    end.

(** Lines 467-483; [img_filename] is [None] when the image was not
    written, and the two titles are the texts built from the date. *)
Definition slack_upload (SLACK_BOT_TOKEN SLACK_CHANNEL_ID : option string)
    (img_filename : option string) (md_filename csv_filename : string)
    (img_title md_title : string) (log : list call)
  : outcome unit * list call :=
  if negb (unset SLACK_BOT_TOKEN) && negb (unset SLACK_CHANNEL_ID) then
    let after_image :=
      match img_filename with
      | Some img =>
          if String.eqb img EmptyString then (Finished tt, log)
          else upload_file_to_slack SLACK_BOT_TOKEN SLACK_CHANNEL_ID
                 img img_title log
      | None => (Finished tt, log)
      end in
    match after_image with
    | (Escaped, log) => (Escaped, log)
    | (Finished _, log) =>
        match upload_file_to_slack SLACK_BOT_TOKEN SLACK_CHANNEL_ID
                md_filename md_title log with
        | (Escaped, log) => (Escaped, log)
        | (Finished _, log) =>
            upload_file_to_slack SLACK_BOT_TOKEN SLACK_CHANNEL_ID
              csv_filename "Raw Data (CSV)" log
        end
    end
  else (Finished tt, log).

End WithClient.
End Slack.

(** ** Predicates on the characters of a string *)

(** Every character of [s] passes the test [p]. *)
Fixpoint all_chars (p : ascii -> bool) (s : string) : bool :=
  match s with
  | EmptyString => true
  | String c r => p c && all_chars p r
  end.

(** The character [x] does not occur in [s]. *)
Definition free_of (x : ascii) (s : string) : bool :=
  all_chars (fun c => negb (Ascii.eqb c x)) s.

(** The web search answers with [sr]; nothing else answers. *)
Definition world_search (sr : search_reply) : World :=
  {| http := fun _ _ => ConnFail; web_search := fun _ _ => sr |}.

(** A comment of 165 characters with markup, and four comment hits. *)
Definition long_comment : string :=
  "<p>This is a rather long comment about the paper, written to run well past the limit of one hundred and fifty characters that the preview applies to it.</p> The end.".

Definition comment_hits : list pyval :=
  [PDict [("author", PStr "ada"); ("comment_text", PStr long_comment)];
   PDict [("author", PStr "bob"); ("comment_text", PStr "Nice <i>work</i>")];
   PDict [("comment_text", PStr "Agreed")];
   PDict [("author", PStr "dan")]].

Definition four_comments : pyval := PDict [("hits", PList comment_hits)].

(** The story of [hn_hit]. *)
Definition hn_story : list (string * pyval) :=
  [("objectID", PStr "4711"); ("points", PInt 12); ("num_comments", PInt 3);
   ("title", PStr "Anatomy of Conceptual Collapse")].

(** A record with no mention score and no forum bundle. *)
Definition quiet (r : metric_record) : Prop :=
  Altmetric r = score_only /\ HackerNews r = None.

(** A story whose points are null in the service's answer, and the record
    of a publication for which it was found. *)
Definition null_points_story : hn_details :=
  {| points := PNone; comments_count := PInt 0; objectID := PStr "4712";
     hn_title := PStr "In the Lover's Mirror"; comments_preview := [] |}.

Definition null_points_record : metric_record :=
  {| Title := "In the Lover's Mirror"; Platform := "Zenodo";
     DOI := "10.5281/zenodo.17575634";
     Views := PInt 200; Downloads := PInt 50; DL_Rate := Dash;
     Altmetric := score_only; HackerNews := Some null_points_story;
     RG_Reads := Protected |}.

(** A service where the bot is authenticated but not a member of the
    channel, and which refuses every upload of an image. *)
Definition client_outsider : Slack.Client :=
  fun _ c =>
    match c with
    | Slack.AuthTest => Slack.Answered true
    | Slack.ConversationsInfo _ => Slack.Answered false
    | Slack.FilesUploadV2 _ file _ =>
        if String.eqb file "impact_graph.png" then Slack.ApiError
        else Slack.Answered true
    end.

(** The block holds a download count of more digits than [int] converts:
    the scrape ends at it. *)
Definition block_stops (det : Prefetch.detail_block) : bool :=
  match Prefetch.search_downloads (Prefetch.det_text det) with
  | Some digits => Re.int_max_str_digits <? PyStr.len digits
  | None => false
  end.

(** What a block of the search page adds to the cache, if anything: the
    trimmed title and the count. *)
Definition block_entry (det : Prefetch.detail_block) : option (string * Z) :=
  match Prefetch.search_downloads (Prefetch.det_text det),
        Prefetch.title_text det with
  | Some digits, Some full_title =>
      if Re.int_max_str_digits <? PyStr.len digits then None
      else Some (PyStr.strip
                   (Prefetch.remove_all "Preprint / Version 1" full_title),
                 Re.int_of_digits digits)
  | _, _ => None
  end.

(** Titles are distinct and trimmed, counts are not negative. *)
Definition cache_well_formed (c : TitleCache) : Prop :=
  NoDup (map fst c)
  /\ forall e, In e c -> PyStr.strip (fst e) = fst e /\ 0 <= snd e.

(** [c * n] for a character [c]. *)
Fixpoint replicate (n : nat) (c : ascii) : string :=
  match n with
  | O => EmptyString
  | S k => String c (replicate k c)
  end.

(** A run of 4301 digits, one more than [int] converts. *)
Definition long_digits : string := replicate 4301 "9".

(** A search page whose second block holds such a run. *)
Definition broken_page : Prefetch.page :=
  Prefetch.Page 200
    [ {| Prefetch.det_text := "Downloads: 1";
         Prefetch.title_text := Some "First" |};
      {| Prefetch.det_text := "Downloads: " ++ long_digits;
         Prefetch.title_text := Some "Second" |};
      {| Prefetch.det_text := "Downloads: 3";
         Prefetch.title_text := Some "Third" |} ].

(** A comment hit the loop of the forum adapter gets through: a dictionary
    whose [comment_text], if it has one, is a string. *)
Definition usable_comment (c : pyval) : bool :=
  match c with
  | PDict d =>
      match Py.assoc "comment_text" d with
      | None | Some (PStr _) => true
      | Some _ => false
      end
  | _ => false
  end.

(** A comments answer whose second hit has a null [comment_text]. *)
Definition null_text_comments : pyval :=
  PDict [("hits", PList [PDict [("author", PStr "ada");
                                ("comment_text", PStr "Fine")];
                         PDict [("author", PStr "bob");
                                ("comment_text", PNone)]])].

(** A search page with three results, the first title met again. *)
Definition sample_page : Prefetch.page :=
  Prefetch.Page 200
    [ {| Prefetch.det_text := "Published: 2025-01-02 Downloads: 31";
         Prefetch.title_text := Some "Masami SystemsPreprint / Version 1" |};
      {| Prefetch.det_text := "Published: 2025-03-04";
         Prefetch.title_text := Some "No count here" |};
      {| Prefetch.det_text := "Downloads:12";
         Prefetch.title_text := Some " Drift of Ungrounded Modality " |};
      {| Prefetch.det_text := "Downloads: 7";
         Prefetch.title_text := None |};
      {| Prefetch.det_text := "Downloads:  33 Views: 90";
         Prefetch.title_text := Some "Masami Systems" |} ].

(** * Properties *)

(** ** Strings *)

Module PyStrFacts.
Import PyStr.

Ltac by_cases_on_char c :=
  destruct c as [[] [] [] [] [] [] [] []]; vm_compute; congruence.

Lemma lower_char_colon (c : ascii) :
  Ascii.eqb (lower_char c) colon = Ascii.eqb c colon.
Proof. by_cases_on_char c. Qed.

Lemma isspace_not_colon (c : ascii) :
  isspace c = true -> Ascii.eqb c colon = false.
Proof. by_cases_on_char c. Qed.

Lemma before_colon_lower (s : string) :
  before_colon (lower s) = lower (before_colon s).
Proof.
  induction s as [|c r IH]; simpl; [reflexivity|].
  rewrite lower_char_colon.
  destruct (Ascii.eqb c colon); simpl; [reflexivity | now rewrite IH].
Qed.

Lemma before_colon_lstrip (s : string) :
  before_colon (lstrip s) = lstrip (before_colon s).
Proof.
  induction s as [|c r IH]; simpl; [reflexivity|].
  destruct (isspace c) eqn:Hsp.
  - rewrite (isspace_not_colon c Hsp). simpl. now rewrite Hsp.
  - simpl. destruct (Ascii.eqb c colon); simpl; [reflexivity|].
    now rewrite Hsp.
Qed.

Lemma rstrip_before_colon_rstrip (s : string) :
  rstrip (before_colon (rstrip s)) = rstrip (before_colon s).
Proof.
  induction s as [|c r IH]; simpl; [reflexivity|].
  destruct (Ascii.eqb c colon) eqn:Hc.
  - destruct (rstrip r); [destruct (isspace c) eqn:Hsp|]; simpl;
      try reflexivity; now rewrite Hc.
  - cbn [rstrip]. rewrite <- IH.
    destruct (rstrip r) as [|c' r'] eqn:Hr.
    + destruct (isspace c) eqn:Hsp; [reflexivity|].
      cbn [before_colon]. rewrite Hc. cbn. now rewrite Hsp.
    + cbn [before_colon]. rewrite Hc. reflexivity.
Qed.

Lemma lstrip_rstrip (s : string) : lstrip (rstrip s) = rstrip (lstrip s).
Proof.
  induction s as [|c r IH]; simpl; [reflexivity|].
  destruct (isspace c) eqn:Hsp.
  - rewrite <- IH. destruct (rstrip r); simpl; now rewrite ?Hsp.
  - cbn [rstrip]. destruct (rstrip r) eqn:Hr; simpl; now rewrite Hsp.
Qed.

Lemma lstrip_idem (s : string) : lstrip (lstrip s) = lstrip s.
Proof.
  induction s as [|c r IH]; simpl; [reflexivity|].
  destruct (isspace c) eqn:Hsp; [exact IH | simpl; now rewrite Hsp].
Qed.

(** Trimming before taking the text before the colon changes nothing once
    that text is trimmed again. *)
Lemma strip_before_colon_strip (s : string) :
  strip (before_colon (strip s)) = strip (before_colon s).
Proof.
  unfold strip.
  rewrite <- before_colon_lstrip, lstrip_rstrip, lstrip_idem.
  rewrite rstrip_before_colon_rstrip.
  now rewrite before_colon_lstrip.
Qed.

Lemma before_colon_no_colon (s : string) :
  contains ":" s = false -> before_colon s = s.
Proof.
  induction s as [|c r IH]; simpl; [reflexivity|].
  unfold colon. destruct (Ascii.eqb c ":") eqn:Hc.
  - apply Ascii.eqb_eq in Hc. subst c. destruct r; simpl; discriminate.
  - intros H. apply orb_false_iff in H. destruct H as [_ H].
    now rewrite IH.
Qed.

End PyStrFacts.

(** ** The title reconciler *)

Module ReconcilerFacts.
Import PyStr PyStrFacts Reconciler.

(** The two texts the second loop compares are the specification's left
    segments: lowering and the first trim commute with the split. *)
Lemma target_base (title : string) :
  strip (before_colon (strip (lower title))) = left_segment title.
Proof.
  unfold left_segment, normalize.
  now rewrite strip_before_colon_strip, before_colon_lower.
Qed.

Lemma cached_base (cached_title : string) :
  strip (before_colon (lower cached_title)) = left_segment cached_title.
Proof. unfold left_segment, normalize. now rewrite before_colon_lower. Qed.

Lemma tier1_test (title : string) (e : string * Z) :
  tier1_match title e <->
  (contains (normalize title) (normalize (fst e))
   || contains (normalize (fst e)) (normalize title))
  && (10 <? len (normalize (fst e))) = true.
Proof.
  unfold tier1_match.
  rewrite andb_true_iff, orb_true_iff, Z.ltb_lt. reflexivity.
Qed.

Lemma tier2_test (title : string) (e : string * Z) :
  tier2_match title e <->
  String.eqb (left_segment title) (left_segment (fst e))
  && (5 <? len (left_segment title)) = true.
Proof.
  unfold tier2_match.
  rewrite andb_true_iff, String.eqb_eq, Z.ltb_lt.
  split; intros [H1 H2]; split; congruence.
Qed.

Lemma scan_substring_step (title : string) (e : string * Z) (rest : TitleCache) :
  scan_substring (normalize title) (e :: rest) =
  if (contains (normalize title) (normalize (fst e))
      || contains (normalize (fst e)) (normalize title))
     && (10 <? len (normalize (fst e)))
  then Some (snd e) else scan_substring (normalize title) rest.
Proof.
  destruct e as [c d]. cbn [scan_substring fst snd]. fold (normalize c).
  destruct (contains (normalize title) (normalize c)
            || contains (normalize c) (normalize title)); cbn [andb];
    reflexivity.
Qed.

Lemma scan_base_step (title : string) (e : string * Z) (rest : TitleCache) :
  scan_base (left_segment title) (e :: rest) =
  if String.eqb (left_segment title) (left_segment (fst e))
     && (5 <? len (left_segment title))
  then Some (snd e) else scan_base (left_segment title) rest.
Proof.
  destruct e as [c d]. cbn [scan_base fst snd]. now rewrite cached_base.
Qed.

Lemma scan_substring_none (title : string) (items : TitleCache) :
  (forall x, In x items -> ~ tier1_match title x) ->
  scan_substring (normalize title) items = None.
Proof.
  induction items as [|e rest IH]; intros Hno; [reflexivity|].
  rewrite scan_substring_step.
  destruct (_ && _) eqn:Htest.
  - exfalso. apply (Hno e); [now left | now apply tier1_test].
  - apply IH. intros x Hx. apply Hno. now right.
Qed.

Lemma scan_substring_first (title : string) (before : TitleCache)
    (e : string * Z) (after : TitleCache) :
  (forall x, In x before -> ~ tier1_match title x) ->
  tier1_match title e ->
  scan_substring (normalize title) (before ++ e :: after)%list = Some (snd e).
Proof.
  intros Hno He. induction before as [|b rest IH]; cbn [app].
  - rewrite scan_substring_step. apply tier1_test in He. now rewrite He.
  - rewrite scan_substring_step.
    destruct (_ && _) eqn:Htest.
    + exfalso. apply (Hno b); [now left | now apply tier1_test].
    + apply IH. intros x Hx. apply Hno. now right.
Qed.

Lemma scan_base_none (title : string) (items : TitleCache) :
  (forall x, In x items -> ~ tier2_match title x) ->
  scan_base (left_segment title) items = None.
Proof.
  induction items as [|e rest IH]; intros Hno; [reflexivity|].
  rewrite scan_base_step.
  destruct (_ && _) eqn:Htest.
  - exfalso. apply (Hno e); [now left | now apply tier2_test].
  - apply IH. intros x Hx. apply Hno. now right.
Qed.

Lemma scan_base_first (title : string) (before : TitleCache)
    (e : string * Z) (after : TitleCache) :
  (forall x, In x before -> ~ tier2_match title x) ->
  tier2_match title e ->
  scan_base (left_segment title) (before ++ e :: after)%list = Some (snd e).
Proof.
  intros Hno He. induction before as [|b rest IH]; cbn [app].
  - rewrite scan_base_step. apply tier2_test in He. now rewrite He.
  - rewrite scan_base_step.
    destruct (_ && _) eqn:Htest.
    + exfalso. apply (Hno b); [now left | now apply tier2_test].
    + apply IH. intros x Hx. apply Hno. now right.
Qed.

(** The function on a cache that is not empty, in the specification's terms. *)
Lemma resolve_unfold (cache : TitleCache) (title : string) :
  cache <> [] ->
  resolve cache title =
  match scan_substring (normalize title) cache with
  | Some downloads => downloads
  | None => match scan_base (left_segment title) cache with
            | Some downloads => downloads
            | None => 0
            end
  end.
Proof.
  intros Hne. unfold resolve, get_engrxiv_stats_from_cache.
  destruct cache as [|e rest]; [congruence|].
  cbv zeta. rewrite target_base. fold (normalize title).
  destruct (scan_substring _ _); [reflexivity|].
  destruct (scan_base _ _); reflexivity.
Qed.

End ReconcilerFacts.

Section ReconcilerClaims.
Import PyStr PyStrFacts Reconciler ReconcilerFacts.

(** The text before the first colon, normalised, is the left segment. *)
Lemma left_segment_split (a b : string) :
  contains ":" a = false ->
  left_segment (a ++ String ":" b) = normalize a.
Proof.
  intros Ha. unfold left_segment. f_equal.
  induction a as [|c r IH]; [reflexivity|].
  cbn [append before_colon]. cbn [contains] in Ha.
  apply orb_false_iff in Ha. destruct Ha as [Hp Hr].
  unfold colon. destruct (Ascii.eqb c ":") eqn:Hc.
  - apply Ascii.eqb_eq in Hc. subst c. destruct r; simpl in Hp; discriminate.
  - now rewrite IH.
Qed.

(** C1. Tier 1: when some cache entry's normalised title contains the
    normalised canonical title or is contained in it, and is longer than 10
    characters, [resolve] returns the count of the first such entry in
    insertion order.  The instances fix what the words mean on the code:
    the specification's example (42); letter case is ignored on either
    side; blanks around either title are ignored; containment counts in
    both directions; a cached title of 11 characters passes the guard, one
    of 10 does not, the length being that of the normalised title; a title
    that agrees only on a prefix is no match; of several matching entries
    the first in insertion order gives the count; and a Tier 1 match later
    in the cache is taken before a Tier 2 match earlier in it. *)
Theorem tier1_first_match :
  (forall (cache : TitleCache) (title : string)
          (before : TitleCache) (e : string * Z) (after : TitleCache),
     cache = (before ++ e :: after)%list ->
     (forall x, In x before -> ~ tier1_match title x) ->
     tier1_match title e ->
     resolve cache title = snd e)
  /\ resolve [("A Full Long Paper Title About Something", 42)]
       "A Full Long Paper Title" = 42
  /\ resolve [("A FULL LONG PAPER TITLE ABOUT SOMETHING", 42)]
       "a full long paper title" = 42
  /\ resolve [("a full long paper title about something", 42)]
       "A FULL Long Paper TITLE" = 42
  /\ resolve [("  A Full Long Paper Title About Something  ", 42)]
       "  A Full Long Paper Title  " = 42
  /\ resolve [(" Long Paper Title ", 7)] "A Full Long Paper Title" = 7
  /\ resolve [("Long Paper Title", 7)] "A Full Long Paper Title" = 7
  /\ resolve [("A Full Long", 7)] "A Full Long Paper Title" = 7
  /\ resolve [("Long Paper", 7)] "A Full Long Paper Title" = 0
  /\ resolve [("Long Paper   ", 7)] "A Full Long Paper Title" = 0
  /\ resolve [("A Full Long Paper Title About Nothing", 7)]
       "A Full Long Paper Title About Something" = 0
  /\ resolve [("Short", 1);
              ("A Full Long Paper Title About Something", 42);
              ("A Full Long Paper Title About Something Else", 7)]
       "A Full Long Paper Title" = 42
  /\ resolve [("Short", 1);
              ("A Full Long Paper Title About Something Else", 7);
              ("A Full Long Paper Title About Something", 42)]
       "A Full Long Paper Title" = 7
  /\ resolve [("Anatomy: Part One", 1); ("Anatomy: Part Two Extended", 2)]
       "Anatomy: Part Two" = 2.
Proof.
  split.
  - intros cache title before e after -> Hno He.
    rewrite resolve_unfold by (now destruct before).
    now rewrite (scan_substring_first title before e after Hno He).
  - repeat split; vm_compute; reflexivity.
Qed.

(** A cache of three entries and a title in another letter case with blanks
    around it: the first entry is too short to match, the second and the
    third both match, and the count of the second (42) comes back. *)
Lemma tier1_first_match_witness :
  ~ tier1_match " a full long paper TITLE" ("Short", 1)
  /\ tier1_match " a full long paper TITLE"
       ("  A FULL Long Paper Title About Something ", 42)
  /\ tier1_match " a full long paper TITLE"
       ("A Full Long Paper Title About Something Else", 7)
  /\ resolve [("Short", 1);
              ("  A FULL Long Paper Title About Something ", 42);
              ("A Full Long Paper Title About Something Else", 7)]
       " a full long paper TITLE" = 42.
Proof.
  assert (H0 : ~ tier1_match " a full long paper TITLE" ("Short", 1)).
  { rewrite tier1_test. vm_compute. discriminate. }
  assert (H1 : tier1_match " a full long paper TITLE"
                 ("  A FULL Long Paper Title About Something ", 42)).
  { split; [left|]; vm_compute; reflexivity. }
  assert (H2 : tier1_match " a full long paper TITLE"
                 ("A Full Long Paper Title About Something Else", 7)).
  { split; [left|]; vm_compute; reflexivity. }
  split; [exact H0|]. split; [exact H1|]. split; [exact H2|].
  apply (proj1 tier1_first_match
           [("Short", 1);
            ("  A FULL Long Paper Title About Something ", 42);
            ("A Full Long Paper Title About Something Else", 7)]
           " a full long paper TITLE"
           [("Short", 1)]
           ("  A FULL Long Paper Title About Something ", 42)
           [("A Full Long Paper Title About Something Else", 7)]).
  - reflexivity.
  - intros x [<-|[]]. exact H0.
  - exact H1.
Defined.

(** C2. Tier 2: when Tier 1 matches no entry, [resolve] returns the count of
    the first entry whose left segment (the text before the first colon,
    lowercased and trimmed) equals that of the canonical title, provided
    the segment is longer than 5 characters; for a title without a colon
    the segment is the whole normalised title.  The instances fix what the
    words mean on the code: titles that differ after the colon match on
    the text before it; the first colon is the one that splits; letter case
    and the blanks around the segment are ignored; a segment of 6
    characters passes the guard, one of 5 does not; segments must be equal,
    a longer or a shorter one is no match; of several matching entries the
    first in insertion order gives the count; and a title without a colon
    matches on the whole of it. *)
Theorem tier2_first_match :
  (forall (cache : TitleCache) (title : string)
          (before : TitleCache) (e : string * Z) (after : TitleCache),
     cache = (before ++ e :: after)%list ->
     (forall x, In x cache -> ~ tier1_match title x) ->
     (forall x, In x before -> ~ tier2_match title x) ->
     tier2_match title e ->
     resolve cache title = snd e)
  /\ (forall a b, contains ":" a = false ->
        left_segment (a ++ String ":" b) = normalize a)
  /\ (forall title, contains ":" title = false ->
        left_segment title = normalize title)
  /\ resolve [("Longer Title: Sub A", 5)] "Longer Title: Sub B" = 5
  /\ resolve [("Longer Title: Sub A: More", 5)] "Longer Title: Other: More" = 5
  /\ resolve [("LONGER title : Sub A", 5)] "  Longer TITLE: Sub B" = 5
  /\ resolve [("Shorts: Sub A", 5)] "Shorts: Sub B" = 5
  /\ resolve [("Short: Sub A", 5)] "Short: Sub B" = 0
  /\ resolve [("Longer Title: Sub A", 5)] "Longer Titles: Sub B" = 0
  /\ resolve [("Longer Title: Sub A", 5)] "Longer: Sub B" = 0
  /\ resolve [("Short", 1); ("Longer Title: Sub A", 5); ("Longer Title: Sub C", 6)]
       "Longer Title: Sub B" = 5
  /\ resolve [("Short", 1); ("Longer Title: Sub C", 6); ("Longer Title: Sub A", 5)]
       "Longer Title: Sub B" = 6
  /\ resolve [("Anatomy", 3)] "anatomy " = 3.
Proof.
  split; [|split; [|split]].
  - intros cache title before e after -> Hno1 Hno2 He.
    rewrite resolve_unfold by (now destruct before).
    rewrite (scan_substring_none title _ Hno1).
    now rewrite (scan_base_first title before e after Hno2 He).
  - exact left_segment_split.
  - intros title Hcolon. unfold left_segment.
    now rewrite (before_colon_no_colon title Hcolon).
  - repeat split; vm_compute; reflexivity.
Qed.

(** A cache of three entries and a title with a colon, in another letter
    case and with blanks around the segment: Tier 1 matches no entry, the
    first entry has another segment, the second and the third have the
    title's segment "longer title", and the count of the second (5) comes
    back. *)
Lemma tier2_first_match_witness :
  (forall x, In x [("Short", 1); ("LONGER title : Sub A", 5);
                   ("Longer Title: Sub C", 6)] ->
     ~ tier1_match "  Longer TITLE: Sub B" x)
  /\ ~ tier2_match "  Longer TITLE: Sub B" ("Short", 1)
  /\ tier2_match "  Longer TITLE: Sub B" ("LONGER title : Sub A", 5)
  /\ tier2_match "  Longer TITLE: Sub B" ("Longer Title: Sub C", 6)
  /\ left_segment "  Longer TITLE: Sub B" = "longer title"
  /\ resolve [("Short", 1); ("LONGER title : Sub A", 5);
              ("Longer Title: Sub C", 6)]
       "  Longer TITLE: Sub B" = 5.
Proof.
  assert (H1 : forall x, In x [("Short", 1); ("LONGER title : Sub A", 5);
                               ("Longer Title: Sub C", 6)] ->
                 ~ tier1_match "  Longer TITLE: Sub B" x).
  { intros x [<-|[<-|[<-|[]]]]; rewrite tier1_test; vm_compute; discriminate. }
  assert (H0 : ~ tier2_match "  Longer TITLE: Sub B" ("Short", 1)).
  { rewrite tier2_test. vm_compute. discriminate. }
  assert (H2 : tier2_match "  Longer TITLE: Sub B" ("LONGER title : Sub A", 5)).
  { split; vm_compute; reflexivity. }
  assert (H3 : tier2_match "  Longer TITLE: Sub B" ("Longer Title: Sub C", 6)).
  { split; vm_compute; reflexivity. }
  split; [exact H1|]. split; [exact H0|]. split; [exact H2|].
  split; [exact H3|]. split; [vm_compute; reflexivity|].
  apply (proj1 tier2_first_match
           [("Short", 1); ("LONGER title : Sub A", 5); ("Longer Title: Sub C", 6)]
           "  Longer TITLE: Sub B"
           [("Short", 1)] ("LONGER title : Sub A", 5)
           [("Longer Title: Sub C", 6)]).
  - reflexivity.
  - exact H1.
  - intros x [<-|[]]. exact H0.
  - exact H2.
Defined.

(** C3 fails as stated: the count 5 is not what comes back. *)
Lemma short_prefix_counterexample :
  resolve [("Short: Sub A", 5)] "Short: Sub B" <> 5.
Proof. vm_compute. discriminate. Qed.

(** C3, amended. For the cache {"Short: Sub A": 5} and the title
    "Short: Sub B", Tier 1 fails, both left segments are "short", and that
    segment has exactly 5 characters, not more than 5; so Tier 2 fails too
    and [resolve] returns 0. *)
Theorem short_prefix_example :
  ~ tier1_match "Short: Sub B" ("Short: Sub A", 5)
  /\ left_segment "Short: Sub B" = "short"
  /\ left_segment "Short: Sub A" = "short"
  /\ len (left_segment "Short: Sub B") = 5
  /\ ~ tier2_match "Short: Sub B" ("Short: Sub A", 5)
  /\ resolve [("Short: Sub A", 5)] "Short: Sub B" = 0.
Proof.
  repeat split; try (vm_compute; reflexivity).
  - rewrite tier1_test. vm_compute. discriminate.
  - rewrite tier2_test. vm_compute. discriminate.
Qed.

(** C4. When the cache is empty, or no entry matches in either tier, the
    function returns the pair (None, 0): the count is the integer 0. *)
Theorem resolve_default (cache : TitleCache) (title : string) :
  cache = []
  \/ (forall e, In e cache -> ~ tier1_match title e /\ ~ tier2_match title e) ->
  get_engrxiv_stats_from_cache cache title = (None, 0)
  /\ resolve cache title = 0.
Proof.
  intros H.
  assert (Hr : resolve cache title = 0).
  { destruct cache as [|e0 rest] eqn:Hc; [reflexivity|].
    destruct H as [H|H]; [discriminate|].
    rewrite resolve_unfold by discriminate.
    rewrite scan_substring_none by (intros x Hx; now apply H).
    now rewrite scan_base_none by (intros x Hx; now apply H). }
  split; [|exact Hr].
  unfold resolve in Hr.
  destruct (get_engrxiv_stats_from_cache cache title) as [v d] eqn:Hg.
  cbn in Hr. subst d. f_equal.
  unfold get_engrxiv_stats_from_cache in Hg.
  destruct cache; [congruence|].
  cbv zeta in Hg.
  destruct (scan_substring _ _); [congruence|].
  destruct (scan_base _ _); congruence.
Qed.

Lemma resolve_default_witness :
  (forall e, In e [("Quantum Widgets for Bridges", 9)] ->
     ~ tier1_match "In the Lover's Mirror" e
     /\ ~ tier2_match "In the Lover's Mirror" e)
  /\ resolve [("Quantum Widgets for Bridges", 9)] "In the Lover's Mirror" = 0
  /\ resolve [] "In the Lover's Mirror" = 0.
Proof.
  assert (H : forall e, In e [("Quantum Widgets for Bridges", 9)] ->
     ~ tier1_match "In the Lover's Mirror" e
     /\ ~ tier2_match "In the Lover's Mirror" e).
  { intros e [<-|[]]. rewrite tier1_test, tier2_test.
    split; vm_compute; discriminate. }
  split; [exact H|]. split.
  - apply (resolve_default [("Quantum Widgets for Bridges", 9)]
             "In the Lover's Mirror"). right. exact H.
  - apply (resolve_default [] "In the Lover's Mirror"). left. reflexivity.
Defined.

End ReconcilerClaims.

(** ** The adapters *)

Module AdapterFacts.
Import PyStr.

Lemma try_except_total {A : Type} (body handler : M A) :
  total handler -> total (try_except body handler).
Proof.
  intros Hh n. unfold returns, try_except.
  destruct (body n) as [[a|e] n']; cbn; [now exists a|].
  apply Hh.
Qed.

Lemma ret_total {A : Type} (a : A) : total (ret a).
Proof. intros n. now exists a. Qed.

(** Whatever the body raises, the bare [except] turns into the handler's
    value. *)
Lemma try_except_caught {A : Type} (body : M A) (a : A) (n : nat) (e : exn) :
  fst (body n) = Raise e -> returns (try_except body (ret a)) n a.
Proof.
  unfold returns, try_except. destruct (body n) as [[x|e'] n']; cbn;
    [discriminate | reflexivity].
Qed.

Lemma try_except_passes {A : Type} (body : M A) (a x : A) (n : nat) :
  fst (body n) = Ok x -> returns (try_except body (ret a)) n x.
Proof.
  unfold returns, try_except. destruct (body n) as [[y|e'] n']; cbn;
    congruence.
Qed.

Lemma zenodo_total (w : World) (doi : string) : total (get_zenodo_stats w doi).
Proof. apply try_except_total, ret_total. Qed.

Lemma altmetric_total (w : World) (doi : string) :
  total (get_altmetric_data w doi).
Proof. apply try_except_total, ret_total. Qed.

Lemma hacker_news_total (w : World) (title : string) :
  total (get_hacker_news_details w title).
Proof. apply try_except_total, ret_total. Qed.

Lemma researchgate_total (w : World) (title : string) :
  total (get_researchgate_rough w title).
Proof.
  intros n. unfold returns, get_researchgate_rough, bind, try_except.
  destruct (rg_try_body _ _ n) as [[[reads|]|e] n']; cbn; eauto.
Qed.

Ltac run :=
  unfold returns, get_zenodo_stats, get_altmetric_data,
    get_hacker_news_details, hn_try_body, get_researchgate_rough,
    rg_try_body, try_except, bind, lift, ret, raise, requests_get, json.

Lemma zenodo_unusable (w : World) (doi : string) (n : nat) :
  unusable (http w n (ZenodoRecords doi)) ->
  returns (get_zenodo_stats w doi) n (PNone, PNone).
Proof.
  intros [H|(r & H & Hj)]; run; rewrite H; [reflexivity|].
  now rewrite Hj.
Qed.

Lemma zenodo_no_hits_key (w : World) (doi : string) (n : nat)
    (r : response) (d : list (string * pyval)) :
  http w n (ZenodoRecords doi) = Resp r ->
  json_body r = Some (PDict d) ->
  Py.assoc "hits" d = None ->
  returns (get_zenodo_stats w doi) n (PNone, PNone).
Proof.
  intros H Hj Hd. run. rewrite H, Hj. cbn. now rewrite Hd.
Qed.

Lemma zenodo_field_defaults (w : World) (doi : string) (n : nat)
    (r : response) (data hits total hits_list first : pyval)
    (stats : list (string * pyval)) :
  http w n (ZenodoRecords doi) = Resp r ->
  json_body r = Some data ->
  Py.getitem data "hits" = Ok hits ->
  Py.getitem hits "total" = Ok total ->
  Py.gt0 total = Ok true ->
  Py.getitem hits "hits" = Ok hits_list ->
  Py.getitem0 hits_list = Ok first ->
  Py.getitem first "stats" = Ok (PDict stats) ->
  returns (get_zenodo_stats w doi) n
    (get_or stats "unique_views" (PInt 0),
     get_or stats "unique_downloads" (PInt 0)).
Proof.
  intros H Hj H1 H2 H3 H4 H5 H6. run.
  rewrite H, Hj. cbn. rewrite H1. cbn. rewrite H2. cbn. rewrite H3. cbn.
  rewrite H4. cbn. rewrite H5. cbn. rewrite H6. cbn.
  unfold get_or.
  destruct (Py.assoc "unique_views" stats);
    destruct (Py.assoc "unique_downloads" stats); reflexivity.
Qed.

Lemma altmetric_no_data (w : World) (doi : string) (n : nat) :
  unusable (http w n (AltmetricDoi doi))
  \/ refused (http w n (AltmetricDoi doi)) ->
  returns (get_altmetric_data w doi) n score_only.
Proof.
  intros [[H|(r & H & Hj)]|(r & H & Hs)]; run; rewrite H; cbn;
    try reflexivity.
  - rewrite Hj. now destruct (status_code r =? 200).
  - apply Z.eqb_neq in Hs. now rewrite Hs.
Qed.

Lemma altmetric_field_defaults (w : World) (doi : string) (n : nat)
    (r : response) (d : list (string * pyval)) :
  http w n (AltmetricDoi doi) = Resp r ->
  status_code r = 200 ->
  json_body r = Some (PDict d) ->
  returns (get_altmetric_data w doi) n
    (PDict [("score", get_or d "score" (PInt 0));
            ("cited_by_posts_count", get_or d "cited_by_posts_count" (PInt 0));
            ("cited_by_tweeters_count",
              get_or d "cited_by_tweeters_count" (PInt 0));
            ("details_url", get_or d "details_url" PNone)]).
Proof.
  intros H Hs Hj. run. rewrite H, Hs, Hj. cbn. unfold get_or.
  destruct (Py.assoc "score" d), (Py.assoc "cited_by_posts_count" d),
    (Py.assoc "cited_by_tweeters_count" d), (Py.assoc "details_url" d);
    reflexivity.
Qed.

Lemma researchgate_search_fails (w : World) (title : string) (n : nat) :
  web_search w n ("site:researchgate.net " ++ title) = SearchFail ->
  returns (get_researchgate_rough w title) n Protected.
Proof. intros H. run. now rewrite H. Qed.

Lemma researchgate_nothing_found (w : World) (title : string) (n : nat)
    (ds : list (option string)) (b : bool) :
  web_search w n ("site:researchgate.net " ++ title) = SearchResults ds b ->
  (forall reads, scan_results ds b <> Ok (Some reads)) ->
  returns (get_researchgate_rough w title) n Protected.
Proof.
  intros H Hno. run. rewrite H.
  destruct (scan_results ds b) as [[reads|]|e]; cbn; try reflexivity.
  now destruct (Hno reads).
Qed.

Lemma hn_exception (w : World) (title : string) (n : nat) (e : exn) :
  fst (hn_try_body w (strip (before_colon title)) n) = Raise e ->
  returns (get_hacker_news_details w title) n None.
Proof. apply try_except_caught. Qed.

Lemma hn_search_no_data (w : World) (title : string) (n : nat) :
  unusable (http w n (HNSearch (strip (before_colon title))))
  \/ refused (http w n (HNSearch (strip (before_colon title)))) ->
  returns (get_hacker_news_details w title) n None.
Proof.
  intros [[H|(r & H & Hj)]|(r & H & Hs)]; run; rewrite H; cbn;
    try reflexivity.
  - rewrite Hj. now destruct (status_code r =? 200).
  - apply Z.eqb_neq in Hs. now rewrite Hs.
Qed.

Lemma hn_no_hit (w : World) (title : string) (n : nat)
    (r : response) (d : list (string * pyval)) :
  http w n (HNSearch (strip (before_colon title))) = Resp r ->
  status_code r = 200 ->
  json_body r = Some (PDict d) ->
  Py.truthy (get_or d "hits" (PList [])) = false ->
  returns (get_hacker_news_details w title) n None.
Proof.
  intros H Hs Hj Hh. run. rewrite H, Hs, Hj. cbn.
  unfold get_or in Hh. destruct (Py.assoc "hits" d); cbn in *;
    rewrite ?Hh; reflexivity.
Qed.

Lemma hn_comments_fail (w : World) (title : string) (n : nat)
    (r : response) (d best : list (string * pyval)) (rest : list pyval) :
  http w n (HNSearch (strip (before_colon title))) = Resp r ->
  status_code r = 200 ->
  json_body r = Some (PDict d) ->
  get_or d "hits" (PList []) = PList (PDict best :: rest) ->
  (let c_reply := http w (S n) (HNComments (get_or best "objectID" PNone)) in
   c_reply = ConnFail
   \/ exists c, c_reply = Resp c /\ status_code c = 200
                /\ json_body c = None) ->
  returns (get_hacker_news_details w title) n None.
Proof.
  intros H Hs Hj Hh Hc. run. rewrite H, Hs, Hj. cbn.
  unfold get_or in Hh, Hc.
  destruct (Py.assoc "hits" d) as [hits|]; [|discriminate].
  cbn. subst hits. cbn. cbv zeta in Hc.
  destruct (Py.assoc "objectID" best) as [sid|]; cbn;
    destruct Hc as [Hc|(c & Hc & Hcs & Hcj)]; rewrite Hc; cbn;
    try reflexivity; now rewrite Hcs, Hcj.
Qed.

Lemma hn_comments_refused (w : World) (title : string) (n : nat)
    (r : response) (d best : list (string * pyval)) (rest : list pyval) :
  http w n (HNSearch (strip (before_colon title))) = Resp r ->
  status_code r = 200 ->
  json_body r = Some (PDict d) ->
  get_or d "hits" (PList []) = PList (PDict best :: rest) ->
  refused (http w (S n) (HNComments (get_or best "objectID" PNone))) ->
  returns (get_hacker_news_details w title) n
    (Some {| points := get_or best "points" (PInt 0);
             comments_count := get_or best "num_comments" (PInt 0);
             objectID := get_or best "objectID" PNone;
             hn_title := get_or best "title" PNone;
             comments_preview := [] |}).
Proof.
  intros H Hs Hj Hh (c & Hc & Hcs). run. rewrite H, Hs, Hj. cbn.
  unfold get_or in *.
  destruct (Py.assoc "hits" d) as [hits|]; [|discriminate].
  cbn. subst hits. cbn. apply Z.eqb_neq in Hcs.
  destruct (Py.assoc "objectID" best) as [sid|]; cbn; rewrite Hc; cbn;
    rewrite Hcs; cbn;
    destruct (Py.assoc "points" best), (Py.assoc "num_comments" best),
      (Py.assoc "title" best); reflexivity.
Qed.

(** The registry adapter on a decoded payload, read by read. *)
Lemma zenodo_reads (w : World) (doi : string) (n : nat) (r : response)
    (data : pyval) :
  http w n (ZenodoRecords doi) = Resp r ->
  json_body r = Some data ->
  fst (get_zenodo_stats w doi n) =
  match registry_stats data with
  | Ok (Some stats) =>
      match Py.get stats "unique_views" (PInt 0),
            Py.get stats "unique_downloads" (PInt 0) with
      | Ok views, Ok downloads => Ok (views, downloads)
      | _, _ => Ok (PNone, PNone)
      end
  | _ => Ok (PNone, PNone)
  end.
Proof.
  intros H Hj. run. rewrite H, Hj. unfold registry_stats. cbn.
  destruct (Py.getitem data "hits") as [hits|e]; cbn; [|reflexivity].
  destruct (Py.getitem hits "total") as [total|e]; cbn; [|reflexivity].
  destruct (Py.gt0 total) as [[|]|e]; cbn; try reflexivity.
  destruct (Py.getitem hits "hits") as [hits_list|e]; cbn; [|reflexivity].
  destruct (Py.getitem0 hits_list) as [first|e]; cbn; [|reflexivity].
  destruct (Py.getitem first "stats") as [stats|e]; cbn; [|reflexivity].
  destruct (Py.get stats "unique_views" (PInt 0)) as [v|e]; cbn;
    [|reflexivity].
  destruct (Py.get stats "unique_downloads" (PInt 0)) as [d|e]; reflexivity.
Qed.

Lemma get_not_a_dict (v : pyval) (k : string) (default : pyval) :
  not_a_dict v -> Py.get v k default = Raise AttributeError.
Proof.
  intros Hv. destruct v; try reflexivity. now destruct (Hv d).
Qed.

Lemma get_of_dict (d : list (string * pyval)) (k : string) (default : pyval) :
  Py.get (PDict d) k default = Ok (get_or d k default).
Proof. unfold get_or. cbn. now destruct (Py.assoc k d). Qed.

Lemma zenodo_failed_read (w : World) (doi : string) (n : nat) (r : response)
    (data : pyval) :
  http w n (ZenodoRecords doi) = Resp r ->
  json_body r = Some data ->
  (exists e, registry_stats data = Raise e)
  \/ registry_stats data = Ok None
  \/ (exists stats, registry_stats data = Ok (Some stats) /\ not_a_dict stats) ->
  returns (get_zenodo_stats w doi) n (PNone, PNone).
Proof.
  intros H Hj Hr. unfold returns. rewrite (zenodo_reads w doi n r data H Hj).
  destruct Hr as [[e ->]|[->|(stats & -> & Hs)]]; try reflexivity.
  now rewrite (get_not_a_dict stats _ _ Hs).
Qed.

Lemma zenodo_record_defaults (w : World) (doi : string) (n : nat)
    (r : response) (data : pyval) (stats : list (string * pyval)) :
  http w n (ZenodoRecords doi) = Resp r ->
  json_body r = Some data ->
  registry_stats data = Ok (Some (PDict stats)) ->
  returns (get_zenodo_stats w doi) n
    (get_or stats "unique_views" (PInt 0),
     get_or stats "unique_downloads" (PInt 0)).
Proof.
  intros H Hj Hr. unfold returns. rewrite (zenodo_reads w doi n r data H Hj).
  now rewrite Hr, !get_of_dict.
Qed.

Lemma altmetric_not_a_dict (w : World) (doi : string) (n : nat)
    (r : response) (data : pyval) :
  http w n (AltmetricDoi doi) = Resp r ->
  json_body r = Some data ->
  not_a_dict data ->
  returns (get_altmetric_data w doi) n score_only.
Proof.
  intros H Hj Hd. run. rewrite H, Hj.
  destruct (status_code r =? 200); [|reflexivity].
  cbn. now rewrite (get_not_a_dict data _ _ Hd).
Qed.

Lemma hn_not_a_dict (w : World) (title : string) (n : nat)
    (r : response) (data : pyval) :
  http w n (HNSearch (strip (before_colon title))) = Resp r ->
  json_body r = Some data ->
  not_a_dict data ->
  returns (get_hacker_news_details w title) n None.
Proof.
  intros H Hj Hd. run. rewrite H, Hj.
  destruct (status_code r =? 200); [|reflexivity].
  cbn. now rewrite (get_not_a_dict data _ _ Hd).
Qed.

End AdapterFacts.

Section AdapterClaims.
Import PyStr AdapterFacts.

(** C5 fails as stated in two places.  A registry reply whose record lacks
    the field "unique_views" is not turned into (None, None): the missing
    field becomes 0 next to the count that is present.  And when a story
    was found and the request for its comments is answered with status 503,
    the forum adapter returns the story's bundle, not None. *)
Lemma fail_soft_counterexample :
  (Py.assoc "unique_views" [("unique_downloads", PInt 7)] = None
   /\ returns (get_zenodo_stats (world_zenodo [("unique_downloads", PInt 7)])
                 "10.5281/zenodo.17575634") 0 (PInt 0, PInt 7)
   /\ ~ returns (get_zenodo_stats (world_zenodo [("unique_downloads", PInt 7)])
                   "10.5281/zenodo.17575634") 0 (PNone, PNone))
  /\ (refused (http (world_forum (Resp {| status_code := 503;
                                          json_body := None |}))
                 1 (HNComments (PStr "4711")))
      /\ ~ returns (get_hacker_news_details
                      (world_forum (Resp {| status_code := 503;
                                            json_body := None |}))
                      "Anatomy of Conceptual Collapse") 0 None).
Proof.
  split; [split; [reflexivity|]; split; [reflexivity|] | split].
  - unfold returns. vm_compute. discriminate.
  - eexists. split; [reflexivity|]. cbn. discriminate.
  - unfold returns. vm_compute. discriminate.
Qed.

(** C5, amended. Every adapter returns a value from every state of the
    world: no exception leaves it.  A network error, an undecodable payload
    and a malformed payload (any read of it that raises: a payload that is
    not a dictionary, a key that is not there, an empty list of records, a
    total that does not compare with 0) give the adapter's no-data result:
    (None, None), {"score": 0}, None, "Protected"; so does a status code
    other than 200 in the mention-aggregator and on the forum search
    request.  Two cases give an ordinary result instead: a status code
    other than 200 on the forum comments request leaves the bundle of the
    story with no previews, and a field missing from the stats of a
    registry record or from a mention payload takes its own default (0, or
    None for the link). *)
Theorem adapters_fail_soft (w : World) :
  (forall doi, total (get_zenodo_stats w doi))
  /\ (forall doi, total (get_altmetric_data w doi))
  /\ (forall title, total (get_hacker_news_details w title))
  /\ (forall title, total (get_researchgate_rough w title))
  /\ (forall doi n,
        unusable (http w n (ZenodoRecords doi)) ->
        returns (get_zenodo_stats w doi) n (PNone, PNone))
  /\ (forall doi n r data,
        http w n (ZenodoRecords doi) = Resp r ->
        json_body r = Some data ->
        (exists e, registry_stats data = Raise e)
        \/ registry_stats data = Ok None
        \/ (exists stats,
              registry_stats data = Ok (Some stats) /\ not_a_dict stats) ->
        returns (get_zenodo_stats w doi) n (PNone, PNone))
  /\ (forall doi n r data stats,
        http w n (ZenodoRecords doi) = Resp r ->
        status_code r = 200 ->
        json_body r = Some data ->
        registry_stats data = Ok (Some (PDict stats)) ->
        returns (get_zenodo_stats w doi) n
          (get_or stats "unique_views" (PInt 0),
           get_or stats "unique_downloads" (PInt 0)))
  /\ (forall doi n,
        unusable (http w n (AltmetricDoi doi))
        \/ refused (http w n (AltmetricDoi doi)) ->
        returns (get_altmetric_data w doi) n score_only)
  /\ (forall doi n r data,
        http w n (AltmetricDoi doi) = Resp r ->
        json_body r = Some data ->
        not_a_dict data ->
        returns (get_altmetric_data w doi) n score_only)
  /\ (forall doi n r d,
        http w n (AltmetricDoi doi) = Resp r ->
        status_code r = 200 ->
        json_body r = Some (PDict d) ->
        returns (get_altmetric_data w doi) n
          (PDict [("score", get_or d "score" (PInt 0));
                  ("cited_by_posts_count",
                    get_or d "cited_by_posts_count" (PInt 0));
                  ("cited_by_tweeters_count",
                    get_or d "cited_by_tweeters_count" (PInt 0));
                  ("details_url", get_or d "details_url" PNone)]))
  /\ (forall title n,
        unusable (http w n (HNSearch (strip (before_colon title))))
        \/ refused (http w n (HNSearch (strip (before_colon title)))) ->
        returns (get_hacker_news_details w title) n None)
  /\ (forall title n r data,
        http w n (HNSearch (strip (before_colon title))) = Resp r ->
        json_body r = Some data ->
        not_a_dict data ->
        returns (get_hacker_news_details w title) n None)
  /\ (forall title n e,
        fst (hn_try_body w (strip (before_colon title)) n) = Raise e ->
        returns (get_hacker_news_details w title) n None)
  /\ (forall title n r d best rest,
        http w n (HNSearch (strip (before_colon title))) = Resp r ->
        status_code r = 200 ->
        json_body r = Some (PDict d) ->
        get_or d "hits" (PList []) = PList (PDict best :: rest) ->
        (let c_reply :=
           http w (S n) (HNComments (get_or best "objectID" PNone)) in
         c_reply = ConnFail
         \/ exists c, c_reply = Resp c /\ status_code c = 200
                      /\ json_body c = None) ->
        returns (get_hacker_news_details w title) n None)
  /\ (forall title n r d best rest,
        http w n (HNSearch (strip (before_colon title))) = Resp r ->
        status_code r = 200 ->
        json_body r = Some (PDict d) ->
        get_or d "hits" (PList []) = PList (PDict best :: rest) ->
        refused (http w (S n) (HNComments (get_or best "objectID" PNone))) ->
        returns (get_hacker_news_details w title) n
          (Some {| points := get_or best "points" (PInt 0);
                   comments_count := get_or best "num_comments" (PInt 0);
                   objectID := get_or best "objectID" PNone;
                   hn_title := get_or best "title" PNone;
                   comments_preview := [] |}))
  /\ (forall title n,
        web_search w n ("site:researchgate.net " ++ title) = SearchFail ->
        returns (get_researchgate_rough w title) n Protected)
  /\ (forall title n ds b,
        web_search w n ("site:researchgate.net " ++ title)
          = SearchResults ds b ->
        (forall reads, scan_results ds b <> Ok (Some reads)) ->
        returns (get_researchgate_rough w title) n Protected).
Proof.
  repeat apply conj.
  - apply zenodo_total.
  - apply altmetric_total.
  - apply hacker_news_total.
  - apply researchgate_total.
  - apply zenodo_unusable.
  - apply zenodo_failed_read.
  - intros doi n r data stats H _ Hj Hr.
    exact (zenodo_record_defaults w doi n r data stats H Hj Hr).
  - apply altmetric_no_data.
  - apply altmetric_not_a_dict.
  - apply altmetric_field_defaults.
  - apply hn_search_no_data.
  - apply hn_not_a_dict.
  - apply hn_exception.
  - apply hn_comments_fail.
  - apply hn_comments_refused.
  - apply researchgate_search_fails.
  - apply researchgate_nothing_found.
Qed.

(** With every service down each adapter gives its no-data result; so do
    the registry and the mention adapter on payloads that are lists, and
    the registry adapter on a payload that announces a record and lists
    none, or whose record has no stats; a record whose stats lack the
    views gets 0 for them. *)
Lemma adapters_fail_soft_witness :
  (unusable (http world_down 0 (ZenodoRecords "10.5281/zenodo.17575634"))
   /\ returns (get_zenodo_stats world_down "10.5281/zenodo.17575634") 0
        (PNone, PNone)
   /\ returns (get_altmetric_data world_down "10.31224/5289") 0 score_only
   /\ returns (get_hacker_news_details world_down "In the Lover's Mirror") 0
        None
   /\ returns (get_researchgate_rough world_down "In the Lover's Mirror") 0
        Protected)
  /\ (registry_stats (PList []) = Raise TypeError
      /\ returns (get_zenodo_stats
                    (world_payload (ok_json (PList [])) (ok_json (PList [])))
                    "10.5281/zenodo.17575634") 0 (PNone, PNone)
      /\ returns (get_altmetric_data
                    (world_payload (ok_json (PList [])) (ok_json (PList [])))
                    "10.5281/zenodo.17575634") 0 score_only)
  /\ (registry_stats empty_listing = Raise IndexError
      /\ returns (get_zenodo_stats
                    (world_payload (ok_json empty_listing) ConnFail)
                    "10.5281/zenodo.17575634") 0 (PNone, PNone))
  /\ (registry_stats (zenodo_hit [("unique_downloads", PInt 7)])
      = Ok (Some (PDict [("unique_downloads", PInt 7)]))
      /\ returns (get_zenodo_stats
                    (world_zenodo [("unique_downloads", PInt 7)])
                    "10.5281/zenodo.17575634") 0 (PInt 0, PInt 7)).
Proof.
  split; [|split; [|split]].
  - destruct (adapters_fail_soft world_down)
      as (_ & _ & _ & _ & Hz & _ & _ & Ha & _ & _ & Hh & _ & _ & _ & _ & Hr & _).
    assert (Hdown : forall rq, unusable (http world_down 0 rq)).
    { intros rq. left. reflexivity. }
    split; [apply Hdown|]. split; [apply Hz, Hdown|].
    split; [apply Ha; left; apply Hdown|].
    split; [apply Hh; left; apply Hdown|].
    apply Hr. reflexivity.
  - destruct (adapters_fail_soft
                (world_payload (ok_json (PList [])) (ok_json (PList []))))
      as (_ & _ & _ & _ & _ & Hz & _ & _ & Ha & _).
    split; [reflexivity|]. split.
    + apply (Hz "10.5281/zenodo.17575634" 0%nat
                {| status_code := 200; json_body := Some (PList []) |}
                (PList []) eq_refl eq_refl).
      left. exists TypeError. reflexivity.
    + apply (Ha "10.5281/zenodo.17575634" 0%nat
                {| status_code := 200; json_body := Some (PList []) |}
                (PList []) eq_refl eq_refl).
      intros d. discriminate.
  - destruct (adapters_fail_soft
                (world_payload (ok_json empty_listing) ConnFail))
      as (_ & _ & _ & _ & _ & Hz & _).
    split; [reflexivity|].
    apply (Hz "10.5281/zenodo.17575634" 0%nat
              {| status_code := 200; json_body := Some empty_listing |}
              empty_listing eq_refl eq_refl).
    left. exists IndexError. reflexivity.
  - destruct (adapters_fail_soft (world_zenodo [("unique_downloads", PInt 7)]))
      as (_ & _ & _ & _ & _ & _ & Hd & _).
    split; [reflexivity|].
    exact (Hd "10.5281/zenodo.17575634" 0%nat
              {| status_code := 200;
                 json_body :=
                   Some (zenodo_hit [("unique_downloads", PInt 7)]) |}
              (zenodo_hit [("unique_downloads", PInt 7)])
              [("unique_downloads", PInt 7)]
              eq_refl eq_refl eq_refl eq_refl).
Defined.

End AdapterClaims.

Section ForumClaims.
Import PyStr AdapterFacts.

(** C10 fails as stated for one kind of failure: when a story was found and
    the request for its comments is answered with a status other than 200,
    the adapter returns the story's bundle, not None. *)
Lemma forum_refused_comments_counterexample :
  refused (http (world_forum (Resp {| status_code := 503;
                                      json_body := None |}))
             1 (HNComments (PStr "4711")))
  /\ ~ returns (get_hacker_news_details
                  (world_forum (Resp {| status_code := 503;
                                        json_body := None |}))
                  "Anatomy of Conceptual Collapse") 0 None.
Proof.
  split.
  - eexists. split; [reflexivity|]. cbn. discriminate.
  - unfold returns. vm_compute. discriminate.
Qed.

(** C10, amended. The forum adapter returns None when the search finds no
    story, and equally when the search request fails at the network, is
    answered with a status other than 200 or with an undecodable body, when
    anything raises inside the [try] block, and when a story was found but
    the request for its comments fails at the network or its answer does
    not decode.  None therefore does not tell the absence of a discussion
    from a failure.  A status other than 200 on the comments request is not
    such a case: the bundle of the story comes back with no previews. *)
Theorem forum_none_is_ambiguous (w : World) (title : string) (n : nat) :
  let search_reply := http w n (HNSearch (strip (before_colon title))) in
  (forall r d,
     search_reply = Resp r -> status_code r = 200 ->
     json_body r = Some (PDict d) ->
     Py.truthy (get_or d "hits" (PList [])) = false ->
     returns (get_hacker_news_details w title) n None)
  /\ (unusable search_reply \/ refused search_reply ->
      returns (get_hacker_news_details w title) n None)
  /\ (forall e,
        fst (hn_try_body w (strip (before_colon title)) n) = Raise e ->
        returns (get_hacker_news_details w title) n None)
  /\ (forall r d best rest,
        search_reply = Resp r -> status_code r = 200 ->
        json_body r = Some (PDict d) ->
        get_or d "hits" (PList []) = PList (PDict best :: rest) ->
        (let c_reply :=
           http w (S n) (HNComments (get_or best "objectID" PNone)) in
         c_reply = ConnFail
         \/ exists c, c_reply = Resp c /\ status_code c = 200
                      /\ json_body c = None) ->
        returns (get_hacker_news_details w title) n None)
  /\ (forall r d best rest,
        search_reply = Resp r -> status_code r = 200 ->
        json_body r = Some (PDict d) ->
        get_or d "hits" (PList []) = PList (PDict best :: rest) ->
        refused (http w (S n) (HNComments (get_or best "objectID" PNone))) ->
        returns (get_hacker_news_details w title) n
          (Some {| points := get_or best "points" (PInt 0);
                   comments_count := get_or best "num_comments" (PInt 0);
                   objectID := get_or best "objectID" PNone;
                   hn_title := get_or best "title" PNone;
                   comments_preview := [] |})).
Proof.
  cbv zeta. repeat apply conj.
  - apply hn_no_hit.
  - apply hn_search_no_data.
  - apply hn_exception.
  - apply hn_comments_fail.
  - apply hn_comments_refused.
Qed.

(** Three worlds, one answer: no story exists; the service is down; the
    story exists and the request for its comments fails. *)
Lemma forum_none_is_ambiguous_witness :
  returns (get_hacker_news_details world_no_story
             "Anatomy of Conceptual Collapse") 0 None
  /\ returns (get_hacker_news_details world_down
                "Anatomy of Conceptual Collapse") 0 None
  /\ returns (get_hacker_news_details (world_forum ConnFail)
                "Anatomy of Conceptual Collapse") 0 None.
Proof.
  split; [|split].
  - destruct (forum_none_is_ambiguous world_no_story
                "Anatomy of Conceptual Collapse" 0) as (H & _).
    apply (H {| status_code := 200;
                json_body := Some (PDict [("hits", PList [])]) |}
             [("hits", PList [])]); reflexivity.
  - destruct (forum_none_is_ambiguous world_down
                "Anatomy of Conceptual Collapse" 0) as (_ & H & _).
    apply H. left. left. reflexivity.
  - destruct (forum_none_is_ambiguous (world_forum ConnFail)
                "Anatomy of Conceptual Collapse" 0) as (_ & _ & _ & H & _).
    apply (H {| status_code := 200; json_body := Some hn_hit |}
             [("hits", PList [PDict [("objectID", PStr "4711");
                                     ("points", PInt 12);
                                     ("num_comments", PInt 3);
                                     ("title",
                                       PStr "Anatomy of Conceptual Collapse")]])]
             [("objectID", PStr "4711"); ("points", PInt 12);
              ("num_comments", PInt 3);
              ("title", PStr "Anatomy of Conceptual Collapse")] []);
      try reflexivity.
    left. reflexivity.
Defined.

End ForumClaims.

(** ** The sentiment classifier *)

Module Float64Facts.
Import Float64.

Lemma literal_tenth :
  literal (1 # 10) = Finite false (3602879701896397 # 36028797018963968).
Proof. vm_compute. reflexivity. Qed.

Lemma leb_not_ltb (x y : t) : leb x y = true -> ltb y x = false.
Proof.
  destruct x as [s a|[]|], y as [s' a'|[]|]; cbn; try congruence.
  intros ->. reflexivity.
Qed.

(** Below [-0.1] is not above [0.1]. *)
Lemma below_not_above (pol : t) :
  ltb pol (neg (literal (1 # 10))) = true ->
  ltb (literal (1 # 10)) pol = false.
Proof.
  rewrite literal_tenth.
  destruct pol as [s a|[]|]; cbn [ltb neg negb]; try congruence.
  rewrite negb_true_iff, negb_false_iff.
  intros H. apply Qle_bool_iff.
  destruct (Qlt_le_dec (value s a) (value true (3602879701896397 # 36028797018963968))) as [Hlt|Hge].
  - apply Qlt_le_weak. eapply Qlt_trans; [exact Hlt|]. reflexivity.
  - apply Qle_bool_iff in Hge. congruence.
Qed.

End Float64Facts.

Section SentimentClaims.
Import Float64 Float64Facts.

Variable polarity : string -> result Float64.t.

(** C8. The classifier answers "N/A" for a null or empty text and when the
    analysis raises; otherwise "Positive" for a polarity above 0.1,
    "Negative" for one below -0.1, "Neutral" for one in [-0.1, 0.1]. *)
Theorem sentiment_labels (text : string) :
  analyze_sentiment polarity None = "N/A"
  /\ analyze_sentiment polarity (Some "") = "N/A"
  /\ (forall e, polarity text = Raise e ->
        analyze_sentiment polarity (Some text) = "N/A")
  /\ (forall pol,
        text <> "" -> polarity text = Ok pol ->
        (ltb (literal (1 # 10)) pol = true ->
         analyze_sentiment polarity (Some text) = "Positive")
        /\ (ltb pol (neg (literal (1 # 10))) = true ->
            analyze_sentiment polarity (Some text) = "Negative")
        /\ (leb (neg (literal (1 # 10))) pol = true ->
            leb pol (literal (1 # 10)) = true ->
            analyze_sentiment polarity (Some text) = "Neutral")).
Proof.
  split; [reflexivity|]. split; [reflexivity|]. split.
  - intros e He. destruct text; [reflexivity|].
    cbn [analyze_sentiment]. now rewrite He.
  - intros pol Hne Hp. destruct text as [|c r]; [congruence|].
    cbn [analyze_sentiment]. rewrite Hp. repeat split.
    + now intros ->.
    + intros Hlow. now rewrite (below_not_above pol Hlow), Hlow.
    + intros Hlo Hhi.
      now rewrite (leb_not_ltb _ _ Hhi), (leb_not_ltb _ _ Hlo).
Qed.

End SentimentClaims.

(** An analysis that finds every text mildly pleasant (polarity 0.5), one
    that finds it unpleasant (-0.5), and one that finds nothing (0.0). *)
Lemma sentiment_labels_witness :
  analyze_sentiment (fun _ => Ok (Float64.literal (1 # 2)))
    (Some "a fine idea") = "Positive"
  /\ analyze_sentiment
       (fun _ => Ok (Float64.neg (Float64.literal (1 # 2))))
       (Some "a poor idea") = "Negative"
  /\ analyze_sentiment (fun _ => Ok (Float64.literal 0))
       (Some "an idea") = "Neutral".
Proof.
  split; [|split].
  - destruct (sentiment_labels (fun _ => Ok (Float64.literal (1 # 2)))
                "a fine idea") as (_ & _ & _ & H).
    destruct (H (Float64.literal (1 # 2))) as (Hpos & _);
      [discriminate | reflexivity |].
    apply Hpos. vm_compute. reflexivity.
  - destruct (sentiment_labels
                (fun _ => Ok (Float64.neg (Float64.literal (1 # 2))))
                "a poor idea") as (_ & _ & _ & H).
    destruct (H (Float64.neg (Float64.literal (1 # 2)))) as (_ & Hneg & _);
      [discriminate | reflexivity |].
    apply Hneg. vm_compute. reflexivity.
  - destruct (sentiment_labels (fun _ => Ok (Float64.literal 0)) "an idea")
      as (_ & _ & _ & H).
    destruct (H (Float64.literal 0)) as (_ & _ & Hmid);
      [discriminate | reflexivity |].
    apply Hmid; vm_compute; reflexivity.
Defined.

(** ** The main loop *)

Module MainLoopFacts.
Import AdapterFacts.

Lemma total_inv {A : Type} (m : M A) (n : nat) :
  total m -> exists v n', m n = (Ok v, n').
Proof.
  intros H. destruct (H n) as [v Hv]. unfold returns in Hv.
  destruct (m n) as [r n']. cbn in Hv. subst r. eauto.
Qed.

(** The rate computation raises nothing but [OverflowError]. *)
Lemma dl_rate_raises (views downloads : pyval) (e : exn) :
  dl_rate views downloads = Raise e -> e = OverflowError.
Proof.
  unfold dl_rate.
  destruct (Py.as_int views) as [v|]; [|discriminate].
  destruct (Py.as_int downloads) as [d|]; [|discriminate].
  destruct (0 <? v) eqn:Hv; [|discriminate].
  unfold Float64.int_truediv.
  destruct (v =? 0) eqn:Hz; [apply Z.eqb_eq in Hz; apply Z.ltb_lt in Hv; lia|].
  destruct (Float64.of_magnitude _ _); congruence.
Qed.

Section Process.
Variable w : World.
Variable engrxiv_cache : TitleCache.

Lemma stats_step_total (item : publication) :
  total (stats_step w engrxiv_cache item).
Proof.
  unfold stats_step.
  destruct (String.eqb (platform item) "Zenodo"); [apply zenodo_total|].
  destruct (Reconciler.get_engrxiv_stats_from_cache _ _) as [o dls].
  destruct (String.eqb (platform item) "engrXiv"); apply ret_total.
Qed.

(** One turn: the four adapters return, and the turn ends as the rate
    computation ends. *)
Lemma process_outcome (item : publication) (n : nat) :
  exists views downloads am hn rg n',
    returns (stats_step w engrxiv_cache item) n (views, downloads)
    /\ process w engrxiv_cache item n =
       (match dl_rate views downloads with
        | Ok rate =>
            Ok {| Title := title item; Platform := platform item;
                  DOI := doi item; Views := views; Downloads := downloads;
                  DL_Rate := rate; Altmetric := am; HackerNews := hn;
                  RG_Reads := rg |}
        | Raise e => Raise e
        end, n').
Proof.
  destruct (total_inv _ n (stats_step_total item)) as ([views downloads] & n1 & H1).
  destruct (total_inv _ n1 (altmetric_total w (doi item))) as (am & n2 & H2).
  destruct (total_inv _ n2 (hacker_news_total w (title item)))
    as (hn & n3 & H3).
  destruct (total_inv _ n3 (researchgate_total w (title item)))
    as (rg & n4 & H4).
  exists views, downloads, am, hn, rg, n4. split.
  - unfold returns. now rewrite H1.
  - unfold process, bind. rewrite H1, H2, H3, H4. unfold lift, ret.
    destruct (dl_rate views downloads); reflexivity.
Qed.

Lemma process_ok (item : publication) (n n' : nat) (r : metric_record) :
  process w engrxiv_cache item n = (Ok r, n') ->
  record_ident r = pub_ident item
  /\ dl_rate (Views r) (Downloads r) = Ok (DL_Rate r).
Proof.
  destruct (process_outcome item n)
    as (views & downloads & am & hn & rg & n4 & _ & ->).
  destruct (dl_rate views downloads) eqn:Hr; [|discriminate].
  intros [= <- _]. cbn. now split.
Qed.

Lemma process_raises (item : publication) (n n' : nat) (e : exn) :
  process w engrxiv_cache item n = (Raise e, n') -> e = OverflowError.
Proof.
  destruct (process_outcome item n)
    as (views & downloads & am & hn & rg & n4 & _ & ->).
  destruct (dl_rate views downloads) eqn:Hr; [discriminate|].
  intros [= <- _]. exact (dl_rate_raises _ _ _ Hr).
Qed.

Lemma process_total (item : publication) (n : nat) :
  rates_representable w ->
  exists r n', process w engrxiv_cache item n = (Ok r, n').
Proof.
  intros Hw.
  destruct (process_outcome item n)
    as (views & downloads & am & hn & rg & n4 & Hs & ->).
  assert (Hrate : exists rate, dl_rate views downloads = Ok rate).
  { unfold stats_step in Hs.
    destruct (String.eqb (platform item) "Zenodo").
    - exact (Hw n (doi item) views downloads Hs).
    - destruct (Reconciler.get_engrxiv_stats_from_cache _ _) as [o dls].
      destruct (String.eqb (platform item) "engrXiv");
        unfold returns in Hs; cbn in Hs; injection Hs as <- <-;
        now exists Dash. }
  destruct Hrate as [rate ->]. eauto.
Qed.

Lemma loop_ok (items : list publication) :
  forall (records out : list metric_record) (n n' : nat),
    loop w engrxiv_cache items records n = (Ok out, n') ->
    map record_ident out
    = (map record_ident records ++ map pub_ident items)%list.
Proof.
  induction items as [|item rest IH]; intros records out n n' H.
  - cbn in H. injection H as <- _. now rewrite app_nil_r.
  - cbn [loop] in H. unfold bind in H.
    destruct (process w engrxiv_cache item n) as [[r|e] n1] eqn:Hp;
      [|discriminate].
    apply IH in H. rewrite H, map_app. cbn [map].
    destruct (process_ok _ _ _ _ Hp) as [-> _].
    now rewrite <- app_assoc.
Qed.

Lemma loop_raises (items : list publication) :
  forall (records : list metric_record) (n n' : nat) (e : exn),
    loop w engrxiv_cache items records n = (Raise e, n') ->
    e = OverflowError.
Proof.
  induction items as [|item rest IH]; intros records n n' e H.
  - discriminate.
  - cbn [loop] in H. unfold bind in H.
    destruct (process w engrxiv_cache item n) as [[r|e'] n1] eqn:Hp.
    + exact (IH _ _ _ _ H).
    + injection H as <- _. exact (process_raises _ _ _ _ Hp).
Qed.

Lemma loop_total (items : list publication) :
  rates_representable w ->
  forall (records : list metric_record) (n : nat),
    exists out n', loop w engrxiv_cache items records n = (Ok out, n').
Proof.
  intros Hw. induction items as [|item rest IH]; intros records n.
  - exists records, n. reflexivity.
  - cbn [loop]. unfold bind.
    destruct (process_total item n Hw) as (r & n1 & ->). apply IH.
Qed.

End Process.

End MainLoopFacts.

Section MainLoopClaims.
Import MainLoopFacts.

(** C9. The code breaks the claim on one input.  When the registry reports
    1 view and 2^1024 downloads for a publication, both values pass the
    guard of the rate (integers, views above 0), the division
    [downloads / views] raises OverflowError outside any [try], the loop
    over the source's own list stops, and no record is emitted. *)
Theorem rate_overflow_stops_the_loop :
  Py.as_int (PInt 1) = Some 1
  /\ Py.as_int (PInt (2 ^ 1024)) = Some (2 ^ 1024)
  /\ 0 < 1
  /\ returns (get_zenodo_stats (world_zenodo huge_stats)
                "10.5281/zenodo.17428600") 0
       (PInt 1, PInt (2 ^ 1024))
  /\ dl_rate (PInt 1) (PInt (2 ^ 1024)) = Raise OverflowError
  /\ fst (main_loop (world_zenodo huge_stats) sample_cache DOIs 0%nat)
     = Raise OverflowError.
Proof.
  split; [reflexivity|]. split; [reflexivity|]. split; [reflexivity|].
  split; [vm_compute; reflexivity|].
  split; vm_compute; reflexivity.
Qed.

(** Every other run keeps identity and order: the loop either stops with
    the OverflowError of a rate division, or emits exactly one record per
    input publication, in the order of the input, each record carrying that
    publication's identifier, title and platform; and it does emit them
    whenever no registry reply makes a rate division overflow. *)
Theorem one_record_per_publication(w : World) (engrxiv_cache : TitleCache)
    (items : list publication) (n : nat) :
  (forall records n',
     main_loop w engrxiv_cache items n = (Ok records, n') ->
     map record_ident records = map pub_ident items
     /\ List.length records = List.length items)
  /\ (forall e n',
        main_loop w engrxiv_cache items n = (Raise e, n') ->
        e = OverflowError)
  /\ (rates_representable w ->
      exists records n',
        main_loop w engrxiv_cache items n = (Ok records, n')
        /\ map record_ident records = map pub_ident items
        /\ List.length records = List.length items).
Proof.
  assert (Hok : forall records n',
     main_loop w engrxiv_cache items n = (Ok records, n') ->
     map record_ident records = map pub_ident items
     /\ List.length records = List.length items).
  { intros records n' H. unfold main_loop in H. apply loop_ok in H.
    cbn in H. split; [exact H|].
    rewrite <- (length_map record_ident), H. apply length_map. }
  split; [exact Hok|]. split.
  - intros e n' H. unfold main_loop in H.
    exact (loop_raises _ _ _ _ _ _ _ H).
  - intros Hw.
    destruct (loop_total w engrxiv_cache items Hw [] n) as (out & n' & H).
    exists out, n'. split; [exact H|]. exact (Hok out n' H).
Qed.

Lemma plain_stats_representable : rates_representable (world_zenodo plain_stats).
Proof.
  intros n doi views downloads H. unfold returns in H. cbn in H.
  injection H as <- <-. eexists. vm_compute. reflexivity.
Qed.

(** The source's own list, the registry reporting 200 views and 50
    downloads for each of its records: six records, in order. *)
Lemma one_record_per_publication_witness :
  rates_representable (world_zenodo plain_stats)
  /\ exists records n',
       main_loop (world_zenodo plain_stats) sample_cache DOIs 0%nat
       = (Ok records, n')
       /\ map record_ident records = map pub_ident DOIs
       /\ List.length records = List.length DOIs.
Proof.
  split; [exact plain_stats_representable|].
  apply (one_record_per_publication (world_zenodo plain_stats)
           sample_cache DOIs 0).
  exact plain_stats_representable.
Defined.

End MainLoopClaims.



(** ** Checks of the string and number models on concrete inputs *)

Example strip_example : PyStr.strip "  A b :  " = "A b :".
Proof. vm_compute. reflexivity. Qed.

Example search_reads_example :
  Re.search_reads "Request PDF | 12 34   Reads on" = Some "34".
Proof. vm_compute. reflexivity. Qed.

Example sub_tags_example :
  Re.sub_tags "a<b>c<<i>d</i> x <> y > z" = "ac<d x  z".
Proof. vm_compute. reflexivity. Qed.

Example third_as_percent :
  match Float64.int_truediv 1 3 with
  | Ok x => Float64.repr (Float64.round1 (Float64.times100 x))
  | Raise _ => None
  end = Some "33.3".
Proof. vm_compute. reflexivity. Qed.

Example largest_quotient :
  Float64.int_truediv (2 ^ 1024 - 2 ^ 970 - 1) 1
  = Ok (Float64.Finite false (inject_Z (2 ^ 1024 - 2 ^ 971))).
Proof. vm_compute. reflexivity. Qed.

Example smallest_quotient :
  Float64.int_truediv 3 (2 ^ 1075)
  = Ok (Float64.Finite false (1 # Z.to_pos (2 ^ 1073))).
Proof. vm_compute. reflexivity. Qed.

(** ** The models of the regular expression and of the division *)

Module ReFacts.
Import Re.

Lemma close_tag_shorter (s rest : string) :
  close_tag s = Some rest -> (String.length rest < String.length s)%nat.
Proof.
  revert rest. induction s as [|c r IH]; intros rest; cbn; [discriminate|].
  destruct (Ascii.eqb c ">"); [intros [= ->]; lia|].
  destruct (Ascii.eqb c "<"); [discriminate|].
  intros H. apply IH in H. lia.
Qed.

Lemma match_tag_shorter (s rest : string) :
  match_tag s = Some rest -> (String.length rest < String.length s)%nat.
Proof.
  destruct s as [|c [|d r]]; cbn; try discriminate.
  destruct (Ascii.eqb c "<" && negb (Ascii.eqb d "<")); [|discriminate].
  intros H. apply close_tag_shorter in H. lia.
Qed.

(** The substitution does not depend on the fuel once there is as much of
    it as the text is long: [sub_tags] runs the loop to its end. *)
Lemma sub_tags_fuel_enough (fuel : nat) :
  forall (fuel' : nat) (text : string),
    (String.length text <= fuel)%nat -> (String.length text <= fuel')%nat ->
    sub_tags_fuel fuel text = sub_tags_fuel fuel' text.
Proof.
  induction fuel as [|f IH]; intros fuel' text H H'.
  - destruct text; [|cbn in H; lia]. now destruct fuel'.
  - destruct fuel' as [|f'].
    + destruct text; [|cbn in H'; lia]. reflexivity.
    + cbn [sub_tags_fuel].
      destruct (match_tag text) as [rest|] eqn:Hm.
      * apply match_tag_shorter in Hm. apply IH; lia.
      * destruct text as [|c r]; [reflexivity|].
        cbn in H, H'. f_equal. apply IH; lia.
Qed.

Lemma sub_tags_unfold (text : string) :
  sub_tags text =
  match match_tag text with
  | Some rest => sub_tags rest
  | None => match text with
            | EmptyString => EmptyString
            | String c r => String c (sub_tags r)
            end
  end.
Proof.
  unfold sub_tags. destruct text as [|c r]; [reflexivity|].
  cbn [String.length sub_tags_fuel].
  destruct (match_tag (String c r)) as [rest|] eqn:Hm.
  - apply match_tag_shorter in Hm. cbn in Hm.
    apply sub_tags_fuel_enough; lia.
  - reflexivity.
Qed.

End ReFacts.

Module Float64Bounds.
Import Float64.

Lemma round_half_even_le (n d : Z) : round_half_even n d <= n / d + 1.
Proof.
  unfold round_half_even.
  destruct (2 * (n mod d) <? d); [lia|].
  destruct (d <? 2 * (n mod d)); [lia|].
  destruct (Z.even (n / d)); lia.
Qed.

Lemma floor_log2_le (n d : positive) : floor_log2 n d <= Z.log2 (Zpos n).
Proof.
  unfold floor_log2.
  pose proof (Z.log2_nonneg (Zpos d)).
  destruct (if 0 <=? _ then _ else _); lia.
Qed.

(** A quotient whose numerator is below 2^1023 rounds to a finite float. *)
Lemma nearest_defined (n d : positive) :
  Zpos n < 2 ^ 1023 -> nearest n d <> None.
Proof.
  intros Hn. unfold nearest.
  set (e := Z.max (floor_log2 n d - 52) (-1074)).
  assert (He : e <= 970).
  { pose proof (floor_log2_le n d) as Hl.
    assert (Z.log2 (Zpos n) < 1023) by (apply Z.log2_lt_pow2; lia).
    unfold e. lia. }
  assert (Hpow : 2 ^ 1024 = 2 * 2 ^ 1023) by (vm_compute; reflexivity).
  assert (Hbig : 2 ^ 970 < 2 ^ 1023) by (vm_compute; reflexivity).
  destruct (0 <=? e) eqn:Hs.
  - apply Z.leb_le in Hs.
    set (m := round_half_even (Zpos n) (Zpos d * 2 ^ e)).
    assert (Hm : m * 2 ^ e < 2 ^ 1024).
    { pose proof (round_half_even_le (Zpos n) (Zpos d * 2 ^ e)) as Hr.
      fold m in Hr.
      assert (Hp : 0 < 2 ^ e) by (apply Z.pow_pos_nonneg; lia).
      assert (Hp' : 2 ^ e <= 2 ^ 970) by (apply Z.pow_le_mono_r; lia).
      assert (Hq : Zpos n / (Zpos d * 2 ^ e) * 2 ^ e <= Zpos n).
      { transitivity (Zpos n / 2 ^ e * 2 ^ e).
        - apply Z.mul_le_mono_nonneg_r; [lia|].
          apply Z.div_le_compat_l; nia.
        - rewrite Z.mul_comm. apply Z.mul_div_le. lia. }
      nia. }
    destruct (Qle_bool _ _) eqn:Hq; [|discriminate].
    unfold Qle_bool in Hq. cbn [Qnum Qden] in Hq.
    apply Z.leb_le in Hq. lia.
  - apply Z.leb_gt in Hs.
    set (m := round_half_even (Zpos n * 2 ^ (- e)) (Zpos d)).
    assert (Hp : 0 < 2 ^ (- e)) by (apply Z.pow_pos_nonneg; lia).
    assert (Hm : m < 2 ^ 1024 * 2 ^ (- e)).
    { pose proof (round_half_even_le (Zpos n * 2 ^ (- e)) (Zpos d)) as Hr.
      fold m in Hr.
      assert (Hq : Zpos n * 2 ^ (- e) / Zpos d <= Zpos n * 2 ^ (- e)).
      { apply Z.div_le_upper_bound; nia. }
      nia. }
    destruct (Qle_bool _ _) eqn:Hq; [|discriminate].
    unfold Qle_bool in Hq. cbn [Qnum Qden] in Hq.
    apply Z.leb_le in Hq. rewrite Z2Pos.id in Hq by lia. lia.
Qed.

(** With views above 0 and downloads below 2^1023 in absolute value the
    division of the rate returns. *)
Lemma int_truediv_defined (d v : Z) :
  0 < v -> Z.abs d < 2 ^ 1023 -> exists x, int_truediv d v = Ok x.
Proof.
  intros Hv Hd. unfold int_truediv.
  destruct (v =? 0) eqn:Hz; [apply Z.eqb_eq in Hz; lia|].
  unfold of_magnitude. cbn [Qnum Qden].
  destruct (Z.abs d) as [|n|n] eqn:Ha; eauto.
  pose proof (nearest_defined n (Z.to_pos (Z.abs v)) Hd) as Hn.
  destruct (nearest n _); [eauto | congruence].
Qed.

(** So the rate of a record is defined whenever its download count is
    below 2^1023 in absolute value. *)
Lemma dl_rate_defined (views downloads : pyval) :
  (forall d, Py.as_int downloads = Some d -> Z.abs d < 2 ^ 1023) ->
  exists rate, dl_rate views downloads = Ok rate.
Proof.
  intros Hd. unfold dl_rate.
  destruct (Py.as_int views) as [v|]; [|eauto].
  destruct (Py.as_int downloads) as [d|]; [|eauto].
  destruct (0 <? v) eqn:Hv; [|eauto].
  apply Z.ltb_lt in Hv.
  destruct (int_truediv_defined d v Hv (Hd d eq_refl)) as [x ->]. eauto.
Qed.

(** A world whose registry never reports such a count keeps every rate
    representable. *)
Lemma bounded_counts_representable (w : World) :
  (forall n doi views downloads d,
     returns (get_zenodo_stats w doi) n (views, downloads) ->
     Py.as_int downloads = Some d -> Z.abs d < 2 ^ 1023) ->
  rates_representable w.
Proof.
  intros Hw n doi views downloads Hr.
  apply dl_rate_defined. intros d Hd. exact (Hw n doi views downloads d Hr Hd).
Qed.

End Float64Bounds.

Section RateClaims.
Import MainLoopFacts Float64Bounds.

(** The integer [round_half_even n d] is the nearest one to [n / d], and
    the even one of the two when [n / d] lies halfway between them. *)
Lemma round_half_even_nearest (n d : Z) :
  0 < d ->
  2 * Z.abs (n - Float64.round_half_even n d * d) <= d
  /\ (2 * Z.abs (n - Float64.round_half_even n d * d) = d ->
      Z.even (Float64.round_half_even n d) = true).
Proof.
  intros Hd. unfold Float64.round_half_even.
  pose proof (Z.div_mod n d ltac:(lia)) as Hn.
  pose proof (Z.mod_pos_bound n d Hd) as Hr.
  set (q := n / d) in *. set (r := n mod d) in *.
  assert (Hq : n - q * d = r) by lia.
  assert (Hq1 : n - (q + 1) * d = r - d) by lia.
  destruct (2 * r <? d) eqn:H1; [apply Z.ltb_lt in H1|apply Z.ltb_ge in H1].
  - rewrite Hq. split; lia.
  - destruct (d <? 2 * r) eqn:H2; [apply Z.ltb_lt in H2|apply Z.ltb_ge in H2].
    + rewrite Hq1. split; lia.
    + destruct (Z.even q) eqn:He.
      * rewrite Hq. split; [lia | intros _; exact He].
      * rewrite Hq1. split; [lia|]. intros _.
        replace (q + 1) with (Z.succ q) by lia.
        rewrite Z.even_succ, <- Z.negb_even, He. reflexivity.
Qed.

(** C7. A record whose views and downloads are both integers, with views
    above 0, stores the percentage round(downloads / views * 100, 1): the
    quotient as a float, times 100, rounded to one decimal; every other
    record stores "-".  The rounding takes the number of tenths nearest to
    the value, the even one on a tie.  Views 200 and downloads 50 give
    "25.0%"; 3 and 1 give "33.3%", 3 and 2 "66.7%", 7 and 2 "28.6%", 8 and
    1 "12.5%", 16 and 1 "6.2%", 16 and 3 "18.8%", 1 and 3 "300.0%".  In the
    report a record whose platform is not Zenodo shows "N/A", one on Zenodo
    shows its stored rate, and the loop over the records leaves every
    record as it was. *)
Theorem download_rate :
  (forall w engrxiv_cache item n n' r,
     process w engrxiv_cache item n = (Ok r, n') ->
     (forall v d,
        Py.as_int (Views r) = Some v -> Py.as_int (Downloads r) = Some d ->
        0 < v ->
        exists q,
          Float64.int_truediv d v = Ok q
          /\ DL_Rate r = Percent (Float64.round1 (Float64.times100 q)))
     /\ (Py.as_int (Views r) = None \/ Py.as_int (Downloads r) = None
         \/ (exists v, Py.as_int (Views r) = Some v /\ v <= 0) ->
         DL_Rate r = Dash))
  /\ (forall views downloads v d,
        Py.as_int views = Some v -> Py.as_int downloads = Some d ->
        0 < v -> Z.abs d < 2 ^ 1023 ->
        exists q,
          Float64.int_truediv d v = Ok q
          /\ dl_rate views downloads
             = Ok (Percent (Float64.round1 (Float64.times100 q))))
  /\ (forall views downloads,
        Py.as_int views = None \/ Py.as_int downloads = None
        \/ (exists v, Py.as_int views = Some v /\ v <= 0) ->
        dl_rate views downloads = Ok Dash)
  /\ (forall s a,
        let k := Float64.tenths a in
        Float64.round1 (Float64.Finite s a)
        = Float64.of_magnitude s (Qred (k # 10))
        /\ 2 * Z.abs (Qnum a * 10 - k * Zpos (Qden a)) <= Zpos (Qden a)
        /\ (2 * Z.abs (Qnum a * 10 - k * Zpos (Qden a)) = Zpos (Qden a) ->
            Z.even k = true))
  /\ (rate_of 200 50 = Some "25.0%"
      /\ rate_of 3 1 = Some "33.3%"
      /\ rate_of 3 2 = Some "66.7%"
      /\ rate_of 7 2 = Some "28.6%"
      /\ rate_of 8 1 = Some "12.5%"
      /\ rate_of 16 1 = Some "6.2%"
      /\ rate_of 16 3 = Some "18.8%"
      /\ rate_of 1 3 = Some "300.0%"
      /\ rate_of 0 50 = Some "-"
      /\ dl_rate (PStr "N/A") (PInt 50) = Ok Dash
      /\ dl_rate PNone PNone = Ok Dash)
  /\ (forall r,
        Platform r <> "Zenodo" ->
        row_rate (fst (report_row r)) = NotAvailable
        /\ display_string (row_rate (fst (report_row r))) = Some "N/A")
  /\ (forall r,
        Platform r = "Zenodo" ->
        row_rate (fst (report_row r)) = Stored (DL_Rate r))
  /\ (forall records, snd (report_rows records) = records).
Proof.
  assert (Hdash : forall views downloads,
            Py.as_int views = None \/ Py.as_int downloads = None
            \/ (exists v, Py.as_int views = Some v /\ v <= 0) ->
            dl_rate views downloads = Ok Dash).
  { intros views downloads H. unfold dl_rate.
    destruct H as [->|[H|(v & -> & Hv)]]; [reflexivity | |].
    - rewrite H. now destruct (Py.as_int views).
    - apply Z.ltb_ge in Hv. rewrite Hv.
      now destruct (Py.as_int downloads). }
  split; [|split; [|split; [|split; [|split; [|split; [|split]]]]]].
  - intros w engrxiv_cache item n n' r H.
    pose proof (proj2 (process_ok _ _ _ _ _ _ H)) as Hrate.
    split.
    + intros v d Hv Hd Hpos. unfold dl_rate in Hrate.
      rewrite Hv, Hd in Hrate. apply Z.ltb_lt in Hpos. rewrite Hpos in Hrate.
      destruct (Float64.int_truediv d v) as [q|e]; [|discriminate].
      exists q. split; [reflexivity|]. congruence.
    + intros Hno. rewrite (Hdash _ _ Hno) in Hrate. congruence.
  - intros views downloads v d Hv Hd Hpos Hsmall.
    destruct (int_truediv_defined d v Hpos Hsmall) as [q Hq].
    exists q. split; [exact Hq|]. unfold dl_rate. rewrite Hv, Hd.
    apply Z.ltb_lt in Hpos. now rewrite Hpos, Hq.
  - exact Hdash.
  - intros s a k. split; [reflexivity|].
    apply (round_half_even_nearest (Qnum a * 10) (Zpos (Qden a))). lia.
  - repeat split; vm_compute; reflexivity.
  - intros r Hp. apply String.eqb_neq in Hp.
    unfold report_row. cbn. now rewrite Hp.
  - intros r Hp. apply String.eqb_eq in Hp.
    unfold report_row. cbn. now rewrite Hp.
  - induction records as [|r rest IH]; [reflexivity|].
    cbn [report_rows]. destruct (report_rows rest) as [rows rest'].
    cbn [snd] in IH. subst rest'. reflexivity.
Qed.

(** The loop on a registry publication with 3 views and 1 download: the
    record stores the quotient of 1 by 3, times 100, rounded, which prints
    as "33.3%"; stored on a record of another platform, the report shows
    "N/A" and the record keeps its rate; and views that are the text "N/A"
    give "-". *)
Lemma download_rate_witness :
  (exists r n' q,
     process (world_zenodo third_stats) sample_cache
       {| doi := "10.5281/zenodo.17575634"; title := "In the Lover's Mirror";
          platform := "Zenodo" |} 0%nat = (Ok r, n')
     /\ Float64.int_truediv 1 3 = Ok q
     /\ DL_Rate r = Percent (Float64.round1 (Float64.times100 q))
     /\ rate_string (DL_Rate r) = Some "33.3%")
  /\ (exists q,
        Float64.int_truediv 50 200 = Ok q
        /\ dl_rate (PInt 200) (PInt 50)
           = Ok (Percent (Float64.round1 (Float64.times100 q)))
        /\ let r := record_with "A Paper Elsewhere" "engrXiv" (PInt 200)
                      (PInt 50) (Percent (Float64.round1 (Float64.times100 q)))
           in
           display_string (row_rate (fst (report_row r))) = Some "N/A"
           /\ DL_Rate (snd (report_row r))
              = Percent (Float64.round1 (Float64.times100 q)))
  /\ dl_rate (PStr "N/A") (PInt 50) = Ok Dash.
Proof.
  destruct download_rate as (Hrec & Hfun & Hdash & _ & _ & Hna & _).
  split; [|split].
  - destruct (process (world_zenodo third_stats) sample_cache
                {| doi := "10.5281/zenodo.17575634";
                   title := "In the Lover's Mirror";
                   platform := "Zenodo" |} 0%nat) as [[r|e] n'] eqn:Hp;
      [|vm_compute in Hp; discriminate].
    assert (Hv : Views r = PInt 3 /\ Downloads r = PInt 1).
    { vm_compute in Hp. injection Hp as <- _. split; reflexivity. }
    destruct Hv as [Hv Hd].
    destruct (Hrec _ _ _ _ _ _ Hp) as [Hint _].
    destruct (Hint 3 1) as (q & Hq & Hr);
      [now rewrite Hv | now rewrite Hd | reflexivity |].
    exists r, n', q. split; [reflexivity|]. split; [exact Hq|].
    split; [exact Hr|]. rewrite Hr.
    assert (Hq' : q = Float64.Finite false (6004799503160661 # 18014398509481984)).
    { vm_compute in Hq. congruence. }
    rewrite Hq'. vm_compute. reflexivity.
  - destruct (Hfun (PInt 200) (PInt 50) 200 50) as (q & Hq & Hr);
      try reflexivity.
    exists q. split; [exact Hq|]. split; [exact Hr|].
    cbv zeta. split; [|reflexivity].
    apply Hna. cbn. discriminate.
  - apply Hdash. left. reflexivity.
Defined.

End RateClaims.


(** * Further properties of the code *)

(** ** Normalisation of titles *)

Module NormalFacts.
Import PyStr PyStrFacts.

Lemma lower_char_idem (c : ascii) : lower_char (lower_char c) = lower_char c.
Proof. by_cases_on_char c. Qed.

Lemma isspace_lower_char (c : ascii) : isspace (lower_char c) = isspace c.
Proof. by_cases_on_char c. Qed.

Lemma lower_idem (s : string) : lower (lower s) = lower s.
Proof.
  induction s as [|c r IH]; cbn; [reflexivity|].
  now rewrite lower_char_idem, IH.
Qed.

Lemma lower_lstrip (s : string) : lower (lstrip s) = lstrip (lower s).
Proof.
  induction s as [|c r IH]; cbn; [reflexivity|].
  rewrite isspace_lower_char. now destruct (isspace c).
Qed.

Lemma lower_rstrip (s : string) : lower (rstrip s) = rstrip (lower s).
Proof.
  induction s as [|c r IH]; cbn; [reflexivity|].
  rewrite <- IH, isspace_lower_char.
  destruct (rstrip r); cbn; [now destruct (isspace c) | reflexivity].
Qed.

Lemma lower_strip (s : string) : lower (strip s) = strip (lower s).
Proof. unfold strip. now rewrite lower_rstrip, lower_lstrip. Qed.

Lemma rstrip_idem (s : string) : rstrip (rstrip s) = rstrip s.
Proof.
  induction s as [|c r IH]; cbn; [reflexivity|].
  destruct (rstrip r) as [|a r'] eqn:Hr.
  - destruct (isspace c) eqn:Hsp; cbn; [reflexivity | now rewrite Hsp].
  - cbn [rstrip]. cbn [rstrip] in IH. rewrite IH. reflexivity.
Qed.

Lemma strip_idem (s : string) : strip (strip s) = strip s.
Proof.
  unfold strip. now rewrite lstrip_rstrip, lstrip_idem, rstrip_idem.
Qed.

Lemma prefix_refl (s : string) : prefix s s = true.
Proof.
  induction s as [|c r IH]; cbn; [reflexivity|].
  destruct (ascii_dec c c); [exact IH | congruence].
Qed.

Lemma contains_refl (s : string) : contains s s = true.
Proof. destruct s; cbn -[prefix]; now rewrite prefix_refl. Qed.

Lemma contains_empty (s : string) : contains "" s = true.
Proof. now destruct s. Qed.

End NormalFacts.

(** ** More on the title reconciler *)

Module ReconcilerMore.
Import PyStr PyStrFacts NormalFacts Reconciler ReconcilerFacts.

Lemma scan_substring_some (title : string) (items : TitleCache) (d : Z) :
  scan_substring (normalize title) items = Some d ->
  exists e, In e items /\ tier1_match title e /\ snd e = d.
Proof.
  induction items as [|e rest IH]; [discriminate|].
  rewrite scan_substring_step. destruct (_ && _) eqn:Htest.
  - intros [= <-]. exists e. split; [now left|].
    split; [now apply tier1_test | reflexivity].
  - intros H. destruct (IH H) as (x & Hx & Hm & Hd).
    exists x. split; [now right | now split].
Qed.

Lemma scan_base_some (title : string) (items : TitleCache) (d : Z) :
  scan_base (left_segment title) items = Some d ->
  exists e, In e items /\ tier2_match title e /\ snd e = d.
Proof.
  induction items as [|e rest IH]; [discriminate|].
  rewrite scan_base_step. destruct (_ && _) eqn:Htest.
  - intros [= <-]. exists e. split; [now left|].
    split; [now apply tier2_test | reflexivity].
  - intros H. destruct (IH H) as (x & Hx & Hm & Hd).
    exists x. split; [now right | now split].
Qed.

Lemma normalize_lower (s : string) : normalize (lower s) = normalize s.
Proof. unfold normalize. now rewrite lower_idem. Qed.

Lemma normalize_strip (s : string) : normalize (strip s) = normalize s.
Proof. unfold normalize. now rewrite lower_strip, strip_idem. Qed.

Lemma resolve_by_normal_form (cache : TitleCache) (t t' : string) :
  normalize t = normalize t' -> resolve cache t = resolve cache t'.
Proof.
  intros H. unfold resolve, get_engrxiv_stats_from_cache.
  destruct cache; [reflexivity|]. cbv zeta.
  fold (normalize t) (normalize t'). now rewrite H.
Qed.

End ReconcilerMore.

Section ReconcilerExtras.
Import PyStr PyStrFacts NormalFacts Reconciler ReconcilerFacts ReconcilerMore.

(** X1. The count returned is never invented: it is 0, or the count of an
    entry of the cache that matches the title in one of the two tiers. *)
Theorem resolve_origin (cache : TitleCache) (title : string) :
  resolve cache title = 0
  \/ exists e, In e cache
               /\ (tier1_match title e \/ tier2_match title e)
               /\ resolve cache title = snd e.
Proof.
  destruct cache as [|e0 rest] eqn:Hc; [now left|]. rewrite <- Hc.
  rewrite resolve_unfold by (subst; discriminate).
  destruct (scan_substring _ _) as [d|] eqn:H1.
  - right. destruct (scan_substring_some _ _ _ H1) as (e & He & Hm & Hd).
    exists e. repeat split; auto.
  - destruct (scan_base _ _) as [d|] eqn:H2; [|now left].
    right. destruct (scan_base_some _ _ _ H2) as (e & He & Hm & Hd).
    exists e. repeat split; auto.
Qed.

(** X2. Letter case and surrounding whitespace of the canonical title do
    not matter: the lowered title and the trimmed title resolve as the
    title itself, and so do any two titles with one normal form. *)
Theorem resolve_ignores_case_and_margin (cache : TitleCache) (title : string) :
  resolve cache (lower title) = resolve cache title
  /\ resolve cache (strip title) = resolve cache title
  /\ (forall t', normalize t' = normalize title ->
        resolve cache t' = resolve cache title).
Proof.
  split; [|split].
  - apply resolve_by_normal_form, normalize_lower.
  - apply resolve_by_normal_form, normalize_strip.
  - intros t'. apply resolve_by_normal_form.
Qed.

Lemma resolve_ignores_case_and_margin_witness :
  normalize "a full long PAPER title " = normalize "  A Full Long Paper Title"
  /\ resolve [("A Full Long Paper Title About Something", 42)]
       "a full long PAPER title "
     = resolve [("A Full Long Paper Title About Something", 42)]
         "  A Full Long Paper Title".
Proof.
  assert (H : normalize "a full long PAPER title "
              = normalize "  A Full Long Paper Title")
    by (vm_compute; reflexivity).
  split; [exact H|].
  apply (resolve_ignores_case_and_margin
           [("A Full Long Paper Title About Something", 42)]
           "  A Full Long Paper Title").
  exact H.
Defined.

(** X3. A canonical title that is empty or only whitespace is a substring
    of every cached title: it resolves to the count of the first cache
    entry whose normalised title is longer than 10 characters. *)
Theorem blank_title_takes_first_long_entry (cache : TitleCache)
    (title : string) (before : TitleCache) (e : string * Z)
    (after : TitleCache) :
  normalize title = "" ->
  cache = (before ++ e :: after)%list ->
  (forall x, In x before -> len (normalize (fst x)) <= 10) ->
  10 < len (normalize (fst e)) ->
  resolve cache title = snd e.
Proof.
  intros Hblank -> Hshort Hlong.
  rewrite resolve_unfold by (now destruct before).
  rewrite (scan_substring_first title before e after); [reflexivity| |].
  - intros x Hx [_ Hlen]. specialize (Hshort x Hx). lia.
  - split; [|exact Hlong]. left. rewrite Hblank. apply contains_empty.
Qed.

Lemma blank_title_takes_first_long_entry_witness :
  normalize "   " = ""
  /\ resolve [("Anatomy", 3); ("Drift of Ungrounded Modality", 12)] "   " = 12.
Proof.
  split; [vm_compute; reflexivity|].
  apply (blank_title_takes_first_long_entry
           [("Anatomy", 3); ("Drift of Ungrounded Modality", 12)] "   "
           [("Anatomy", 3)] ("Drift of Ungrounded Modality", 12) []).
  - vm_compute. reflexivity.
  - reflexivity.
  - intros x [<-|[]]. vm_compute. discriminate.
  - vm_compute. reflexivity.
Defined.

(** X4. The two length guards: when no cached title is longer than 10
    characters once normalised, and the left segment of the canonical
    title has at most 5 characters, nothing matches and the count is 0. *)
Theorem short_titles_never_match (cache : TitleCache) (title : string) :
  (forall e, In e cache -> len (normalize (fst e)) <= 10) ->
  len (left_segment title) <= 5 ->
  resolve cache title = 0.
Proof.
  intros Hshort Hseg.
  destruct cache as [|e0 rest] eqn:Hc; [reflexivity|]. rewrite <- Hc in *.
  rewrite resolve_unfold by (subst; discriminate).
  rewrite scan_substring_none.
  - rewrite scan_base_none; [reflexivity|].
    intros x _ [_ Hlen]. lia.
  - intros x Hx [_ Hlen]. specialize (Hshort x Hx). lia.
Qed.

Lemma short_titles_never_match_witness :
  resolve [("Short", 5); ("Anatomy", 3)] "Short: Sub B" = 0.
Proof.
  apply (short_titles_never_match
           [("Short", 5); ("Anatomy", 3)] "Short: Sub B").
  - intros e [<-|[<-|[]]]; vm_compute; discriminate.
  - vm_compute. discriminate.
Defined.

(** X5. Looking up a cached title itself: when it is longer than 10
    characters once normalised, and no earlier entry contains it or is
    contained in it, the count stored under it comes back. *)
Theorem cached_title_resolves_to_its_count (cache : TitleCache)
    (before : TitleCache) (k : string) (d : Z) (after : TitleCache) :
  cache = (before ++ (k, d) :: after)%list ->
  10 < len (normalize k) ->
  (forall x, In x before -> ~ tier1_match k x) ->
  resolve cache k = d.
Proof.
  intros -> Hlong Hno.
  rewrite resolve_unfold by (now destruct before).
  rewrite (scan_substring_first k before (k, d) after Hno); [reflexivity|].
  split; [|exact Hlong]. left. apply contains_refl.
Qed.

Lemma cached_title_resolves_to_its_count_witness :
  resolve sample_cache "Drift of Ungrounded Modality" = 12.
Proof.
  apply (cached_title_resolves_to_its_count sample_cache
           [("Masami Systems: A Structurally Constrained, Emotionally Persistent AI Companion for Simulating Human-like Connection", 31)]
           "Drift of Ungrounded Modality" 12 []).
  - reflexivity.
  - vm_compute. reflexivity.
  - intros x [<-|[]]. rewrite tier1_test. vm_compute. discriminate.
Defined.

End ReconcilerExtras.

(** ** The two regular expressions of the adapters *)

Module ReMore.
Import PyStr PyStrFacts Re ReFacts.

Lemma sub_tags_fuel_length (fuel : nat) :
  forall text,
    (String.length (sub_tags_fuel fuel text) <= String.length text)%nat.
Proof.
  induction fuel as [|f IH]; intros text; cbn [sub_tags_fuel]; [lia|].
  destruct (match_tag text) as [rest|] eqn:Hm.
  - apply match_tag_shorter in Hm. specialize (IH rest). lia.
  - destruct text as [|c r]; [cbn; lia|]. cbn. specialize (IH r). lia.
Qed.

Lemma sub_tags_fuel_plain (fuel : nat) :
  forall text, free_of "<" text = true -> sub_tags_fuel fuel text = text.
Proof.
  induction fuel as [|f IH]; intros text H; cbn [sub_tags_fuel];
    [reflexivity|].
  destruct text as [|c r]; [reflexivity|].
  cbn in H. apply andb_true_iff in H. destruct H as [Hc Hr].
  apply negb_true_iff in Hc.
  assert (Hm : match_tag (String c r) = None).
  { cbn. destruct r; [reflexivity|]. now rewrite Hc. }
  rewrite Hm. f_equal. now apply IH.
Qed.

Lemma close_tag_app (body rest : string) :
  free_of "<" body = true -> free_of ">" body = true ->
  close_tag (body ++ String ">" rest) = Some rest.
Proof.
  induction body as [|c b IH]; cbn; [reflexivity|].
  intros H1 H2. apply andb_true_iff in H1, H2.
  destruct H1 as [H1 H1'], H2 as [H2 H2'].
  apply negb_true_iff in H1, H2. rewrite H1, H2. now apply IH.
Qed.

Lemma append_split_skip (s : string) : s = take_digits s ++ skip_digits s.
Proof.
  induction s as [|c r IH]; cbn; [reflexivity|].
  destruct (is_digit c); cbn; [now rewrite <- IH | reflexivity].
Qed.

Lemma take_digits_all (s : string) : all_chars is_digit (take_digits s) = true.
Proof.
  induction s as [|c r IH]; cbn; [reflexivity|].
  destruct (is_digit c) eqn:Hd; cbn; [now rewrite Hd | reflexivity].
Qed.

Lemma lstrip_split (s : string) :
  exists ws, s = ws ++ lstrip s /\ all_chars isspace ws = true.
Proof.
  induction s as [|c r (ws & Hs & Hw)]; cbn; [now exists ""|].
  destruct (isspace c) eqn:Hsp.
  - exists (String c ws). cbn. rewrite Hsp, Hw. split; [now f_equal|reflexivity].
  - now exists "".
Qed.

Lemma prefix_split (p s : string) :
  prefix p s = true -> exists rest, s = p ++ rest.
Proof.
  revert s. induction p as [|a p IH]; intros s.
  - intros _. now exists s.
  - destruct s as [|b s]; cbn; [discriminate|].
    destruct (ascii_dec a b) as [<-|]; [|discriminate].
    intros H. destruct (IH s H) as [rest ->]. now exists rest.
Qed.

Lemma prefix_app (p rest : string) : prefix p (p ++ rest) = true.
Proof.
  induction p as [|a p IH]; [now destruct rest|]. cbn.
  destruct (ascii_dec a a); [exact IH | congruence].
Qed.

Lemma app_assoc_string (a b c : string) : (a ++ b) ++ c = a ++ (b ++ c).
Proof. induction a as [|x a IH]; cbn; [reflexivity | now rewrite IH]. Qed.

Lemma search_reads_sound (desc digits : string) :
  search_reads desc = Some digits ->
  digits <> ""
  /\ all_chars is_digit digits = true
  /\ exists before ws after,
       desc = before ++ digits ++ ws ++ "Reads" ++ after
       /\ all_chars isspace ws = true.
Proof.
  revert digits. induction desc as [|c r IH]; intros digits; [discriminate|].
  cbn [search_reads].
  destruct (is_digit c && prefix "Reads" (lstrip (skip_digits (String c r))))
    eqn:Htest.
  - intros H.
    assert (Hdig : digits = take_digits (String c r)) by congruence.
    subst digits. clear H.
    apply andb_true_iff in Htest. destruct Htest as [Hd Hp].
    split; [cbn; now rewrite Hd|]. split; [apply take_digits_all|].
    destruct (lstrip_split (skip_digits (String c r))) as (ws & Hs & Hw).
    destruct (prefix_split _ _ Hp) as [after Ha].
    exists "", ws, after. split; [|exact Hw].
    change (String c r
            = take_digits (String c r) ++ ws ++ "Reads" ++ after).
    rewrite <- Ha, <- Hs. apply append_split_skip.
  - intros H.
    destruct (IH digits H) as (Hne & Hall & before & ws & after & -> & Hw).
    split; [exact Hne|]. split; [exact Hall|].
    exists (String c before), ws, after. now split.
Qed.

Lemma space_not_digit (c : ascii) : isspace c = true -> is_digit c = false.
Proof. by_cases_on_char c. Qed.

Lemma skip_digits_app (digits tail : string) :
  all_chars is_digit digits = true ->
  (match tail with String c _ => is_digit c = false | EmptyString => True end) ->
  skip_digits (digits ++ tail) = tail.
Proof.
  intros Hd Ht. induction digits as [|c d IH]; cbn.
  - destruct tail as [|c t]; [reflexivity|]. cbn. now rewrite Ht.
  - cbn in Hd. apply andb_true_iff in Hd. destruct Hd as [Hc Hd].
    rewrite Hc. now apply IH.
Qed.

Lemma lstrip_app (ws tail : string) :
  all_chars isspace ws = true ->
  (match tail with String c _ => isspace c = false | EmptyString => True end) ->
  lstrip (ws ++ tail) = tail.
Proof.
  intros Hw Ht. induction ws as [|c w IH]; cbn.
  - destruct tail as [|c t]; [reflexivity|]. cbn. now rewrite Ht.
  - cbn in Hw. apply andb_true_iff in Hw. destruct Hw as [Hc Hw].
    rewrite Hc. now apply IH.
Qed.

Lemma search_reads_complete (before digits ws after : string) :
  digits <> "" ->
  all_chars is_digit digits = true ->
  all_chars isspace ws = true ->
  exists found,
    search_reads (before ++ digits ++ ws ++ "Reads" ++ after) = Some found.
Proof.
  intros Hne Hd Hw.
  remember ("Reads" ++ after) as word eqn:Hword.
  remember (ws ++ word) as tail eqn:Htail.
  induction before as [|c b IH].
  - destruct digits as [|c d]; [congruence|].
    assert (Hc : is_digit c = true).
    { cbn in Hd. now apply andb_true_iff in Hd. }
    change ("" ++ String c d ++ tail) with (String c (d ++ tail)).
    cbn [search_reads]. rewrite Hc. cbn [andb].
    change (String c (d ++ tail)) with (String c d ++ tail).
    rewrite skip_digits_app; [|exact Hd|].
    + subst tail. rewrite lstrip_app; [|exact Hw|subst word; reflexivity].
      subst word. rewrite prefix_app. eauto.
    + subst tail. destruct ws as [|x w]; [subst word; reflexivity|].
      cbn in Hw. apply andb_true_iff in Hw.
      cbn [append]. now apply space_not_digit.
  - change (String c b ++ digits ++ tail)
      with (String c (b ++ digits ++ tail)).
    cbn [search_reads]. destruct (_ && _); eauto.
Qed.

Lemma int_of_digits_nonneg (digits : string) :
  all_chars is_digit digits = true -> 0 <= int_of_digits digits.
Proof.
  unfold int_of_digits.
  assert (H : forall acc, 0 <= acc ->
            all_chars is_digit digits = true ->
            0 <= fold_left
                   (fun a c => 10 * a + (Z.of_N (N_of_ascii c) - 48))
                   (list_ascii_of_string digits) acc).
  { induction digits as [|c d IH]; intros acc Hacc Hall;
      cbn [list_ascii_of_string fold_left]; [exact Hacc|].
    cbn in Hall. apply andb_true_iff in Hall. destruct Hall as [Hc Hall].
    apply IH; [|exact Hall].
    unfold is_digit in Hc. apply andb_true_iff in Hc. destruct Hc as [Hlo _].
    apply Nat.leb_le in Hlo.
    assert (48 <= Z.of_N (N_of_ascii c)) by (rewrite <- N_nat_Z; lia).
    lia. }
  apply H. lia.
Qed.

Lemma int_of_str_ok (digits : string) :
  len digits <= int_max_str_digits ->
  int_of_str digits = Ok (int_of_digits digits).
Proof.
  intros H. unfold int_of_str. apply Z.ltb_ge in H. now rewrite H.
Qed.

Lemma int_of_str_refuses (digits : string) :
  int_max_str_digits < len digits -> int_of_str digits = Raise ValueError.
Proof.
  intros H. unfold int_of_str. apply Z.ltb_lt in H. now rewrite H.
Qed.

Lemma int_of_str_value (digits : string) (z : Z) :
  int_of_str digits = Ok z ->
  z = int_of_digits digits /\ len digits <= int_max_str_digits.
Proof.
  unfold int_of_str.
  destruct (int_max_str_digits <? len digits) eqn:H; [discriminate|].
  apply Z.ltb_ge in H. intros [= <-]. now split.
Qed.

End ReMore.

(** ** More on the adapters *)

Module AdapterMore.
Import PyStr Re ReFacts ReMore AdapterFacts MainLoopFacts.

(** Case analysis on the innermost scrutinee, until none is left. *)
Ltac inner_match :=
  match goal with
  | |- context [match ?x with _ => _ end] =>
      lazymatch x with
      | context [match _ with _ => _ end] => fail
      | _ => destruct x eqn:?
      end
  end.

Ltac split_matches := repeat (inner_match; cbn).

Lemma zenodo_calls (w : World) (doi : string) (n : nat) :
  snd (get_zenodo_stats w doi n) = S n.
Proof. run. split_matches; reflexivity. Qed.

Lemma altmetric_calls (w : World) (doi : string) (n : nat) :
  snd (get_altmetric_data w doi n) = S n.
Proof. run. split_matches; reflexivity. Qed.

Lemma researchgate_calls (w : World) (title : string) (n : nat) :
  snd (get_researchgate_rough w title n) = S n.
Proof. run. split_matches; reflexivity. Qed.

Lemma hacker_news_calls (w : World) (title : string) (n : nat) :
  snd (get_hacker_news_details w title n) = S n
  \/ snd (get_hacker_news_details w title n) = S (S n).
Proof. run. split_matches; auto. Qed.

Lemma hacker_news_single_call (w : World) (title : string) (n : nat) :
  unusable (http w n (HNSearch (strip (before_colon title))))
  \/ refused (http w n (HNSearch (strip (before_colon title)))) ->
  snd (get_hacker_news_details w title n) = S n.
Proof.
  intros [[H|(r & H & Hj)]|(r & H & Hs)]; run; rewrite H; cbn;
    try reflexivity.
  - rewrite Hj. now destruct (status_code r =? 200).
  - apply Z.eqb_neq in Hs. now rewrite Hs.
Qed.

Lemma take_length (k : nat) (s : string) :
  (String.length (take k s) <= k)%nat.
Proof.
  revert s. induction k as [|k IH]; intros s; cbn; [lia|].
  destruct s; cbn; [lia|]. specialize (IH s). lia.
Qed.

Lemma append_length (a b : string) :
  String.length (a ++ b) = (String.length a + String.length b)%nat.
Proof. induction a as [|c a IH]; cbn; [reflexivity | now rewrite IH]. Qed.

Lemma preview_of_bound (c : pyval) (p : comment_preview) :
  preview_of c = Ok p -> len (text p) <= 153.
Proof.
  unfold preview_of.
  destruct (Py.get c "comment_text" (PStr "")) as [[| | | |t| |]|e];
    try discriminate.
  destruct (Py.get c "author" PNone) as [a|e]; [|discriminate].
  pose proof (take_length 150 (sub_tags t)) as Ht.
  set (tk := take 150 (sub_tags t)) in *. clearbody tk.
  intros [= <-]. cbn [text].
  destruct (150 <? len (sub_tags t)) eqn:Hlong.
  - unfold len. rewrite append_length.
    change (String.length "...") with 3%nat. lia.
  - apply Z.ltb_ge in Hlong. lia.
Qed.

Lemma previews_shape (cs : list pyval) :
  forall ps, previews cs = Ok ps ->
             List.length ps = List.length cs
             /\ Forall (fun p => len (text p) <= 153) ps.
Proof.
  induction cs as [|c rest IH]; intros ps; cbn [previews].
  - intros [= <-]. now split.
  - destruct (preview_of c) as [p|e] eqn:Hp; [|discriminate].
    destruct (previews rest) as [ps'|e]; [|discriminate].
    intros [= <-]. destruct (IH ps' eq_refl) as [Hl Hf].
    split; [cbn; now rewrite Hl|].
    constructor; [exact (preview_of_bound _ _ Hp) | exact Hf].
Qed.

Lemma preview_of_usable (c : pyval) :
  usable_comment c = true -> exists p, preview_of c = Ok p.
Proof.
  unfold usable_comment, preview_of.
  destruct c as [| | | | | |d]; try discriminate. cbn [Py.get].
  destruct (Py.assoc "comment_text" d) as [[| | | |t| |]|]; try discriminate;
    intros _; destruct (Py.assoc "author" d); eexists; reflexivity.
Qed.

Lemma preview_of_unusable (c : pyval) :
  usable_comment c = false -> exists e, preview_of c = Raise e.
Proof.
  unfold usable_comment, preview_of.
  destruct c as [| | | | | |d]; cbn [Py.get]; try (intros _; eexists; reflexivity).
  destruct (Py.assoc "comment_text" d) as [[| | | |t| |]|]; try discriminate;
    intros _; eexists; reflexivity.
Qed.

Lemma previews_usable (cs : list pyval) :
  forallb usable_comment cs = true -> exists ps, previews cs = Ok ps.
Proof.
  induction cs as [|c rest IH]; cbn [forallb previews]; [now exists []|].
  intros H. apply andb_true_iff in H. destruct H as [Hc Hrest].
  destruct (preview_of_usable c Hc) as [p ->].
  destruct (IH Hrest) as [ps ->]. now exists (p :: ps).
Qed.

Lemma previews_unusable (cs : list pyval) :
  forallb usable_comment cs = false -> exists e, previews cs = Raise e.
Proof.
  induction cs as [|c rest IH]; cbn [forallb previews]; [discriminate|].
  intros H. destruct (usable_comment c) eqn:Hc.
  - cbn in H. destruct (preview_of_usable c Hc) as [p ->].
    destruct (IH H) as [e ->]. now exists e.
  - destruct (preview_of_unusable c Hc) as [e ->]. now exists e.
Qed.

Lemma previews_pointwise (cs : list pyval) :
  forall ps, previews cs = Ok ps ->
             Forall2 (fun hit p => preview_of hit = Ok p) cs ps.
Proof.
  induction cs as [|c rest IH]; intros ps; cbn [previews].
  - intros [= <-]. constructor.
  - destruct (preview_of c) as [p|e] eqn:Hp; [|discriminate].
    destruct (previews rest) as [ps'|e]; [|discriminate].
    intros [= <-]. constructor; [exact Hp | now apply IH].
Qed.

(** The previews of a bundle are empty or come from the loop over the
    comment hits. *)
Lemma hn_previews_origin (w : World) (title : string) (n : nat)
    (details : hn_details) :
  returns (get_hacker_news_details w title) n (Some details) ->
  comments_preview details = []
  \/ exists cs, previews cs = Ok (comments_preview details).
Proof.
  run. split_matches; intros H; try discriminate;
    injection H as <-; cbn; eauto.
Qed.

Lemma scan_results_nonneg (ds : list (option string)) (b : bool) (z : Z) :
  scan_results ds b = Ok (Some z) -> 0 <= z.
Proof.
  induction ds as [|[desc|] rest IH]; cbn [scan_results].
  - destruct b; discriminate.
  - destruct (search_reads desc) as [digits|] eqn:Hs; [|exact IH].
    destruct (int_of_str digits) as [reads|e] eqn:Hi; [|discriminate].
    intros [= <-]. apply int_of_str_value in Hi. destruct Hi as [-> _].
    apply int_of_digits_nonneg.
    now destruct (search_reads_sound _ _ Hs) as (_ & Hall & _).
  - discriminate.
Qed.

Lemma scan_results_first (earlier : list string) (desc digits : string)
    (later : list (option string)) (b : bool) :
  (forall d, In d earlier -> search_reads d = None) ->
  search_reads desc = Some digits ->
  scan_results (map Some earlier ++ Some desc :: later)%list b
  = match int_of_str digits with
    | Ok reads => Ok (Some reads)
    | Raise e => Raise e
    end.
Proof.
  intros Hno Hd. induction earlier as [|d rest IH]; cbn.
  - now rewrite Hd.
  - rewrite (Hno d) by now left. apply IH. intros x Hx. apply Hno. now right.
Qed.

Lemma scan_results_broken (earlier : list string)
    (later : list (option string)) (b : bool) :
  (forall d, In d earlier -> search_reads d = None) ->
  scan_results (map Some earlier ++ None :: later)%list b = Raise TypeError.
Proof.
  intros Hno. induction earlier as [|d rest IH]; cbn; [reflexivity|].
  rewrite (Hno d) by now left. apply IH. intros x Hx. apply Hno. now right.
Qed.

Lemma altmetric_result_has_score (w : World) (doi : string) (n : nat)
    (v : pyval) :
  returns (get_altmetric_data w doi) n v ->
  exists d s, v = PDict d /\ Py.assoc "score" d = Some s.
Proof.
  run. split_matches; intros H; try discriminate;
    injection H as <-; eexists _, _; split; reflexivity.
Qed.

Section Trace.
Variable w : World.
Variable engrxiv_cache : TitleCache.

(** One turn of the main loop, adapter by adapter. *)
Lemma process_trace (item : publication) (n : nat) :
  exists views downloads am hn rg n1 n2 n3 n4,
    stats_step w engrxiv_cache item n = (Ok (views, downloads), n1)
    /\ get_altmetric_data w (doi item) n1 = (Ok am, n2)
    /\ get_hacker_news_details w (title item) n2 = (Ok hn, n3)
    /\ get_researchgate_rough w (title item) n3 = (Ok rg, n4)
    /\ process w engrxiv_cache item n =
       (match dl_rate views downloads with
        | Ok rate =>
            Ok {| Title := title item; Platform := platform item;
                  DOI := doi item; Views := views; Downloads := downloads;
                  DL_Rate := rate; Altmetric := am; HackerNews := hn;
                  RG_Reads := rg |}
        | Raise e => Raise e
        end, n4).
Proof.
  destruct (total_inv _ n (stats_step_total w engrxiv_cache item))
    as ([views downloads] & n1 & H1).
  destruct (total_inv _ n1 (altmetric_total w (doi item))) as (am & n2 & H2).
  destruct (total_inv _ n2 (hacker_news_total w (title item)))
    as (hn & n3 & H3).
  destruct (total_inv _ n3 (researchgate_total w (title item)))
    as (rg & n4 & H4).
  exists views, downloads, am, hn, rg, n1, n2, n3, n4.
  repeat split; try assumption.
  unfold process, bind. rewrite H1, H2, H3, H4. unfold lift, ret.
  destruct (dl_rate views downloads); reflexivity.
Qed.

Lemma stats_step_calls (item : publication) (n : nat) :
  snd (stats_step w engrxiv_cache item n)
  = if String.eqb (platform item) "Zenodo" then S n else n.
Proof.
  unfold stats_step.
  destruct (String.eqb (platform item) "Zenodo"); [apply zenodo_calls|].
  destruct (Reconciler.get_engrxiv_stats_from_cache _ _).
  now destruct (String.eqb (platform item) "engrXiv").
Qed.

End Trace.

End AdapterMore.

Section AdapterExtras.
Import PyStr Re ReFacts ReMore AdapterFacts MainLoopFacts AdapterMore.

(** X6. Removing markup never lengthens a comment, and a comment without
    the character [<] is left exactly as it is. *)
Theorem sub_tags_shrinks (text : string) :
  len (sub_tags text) <= len text
  /\ (free_of "<" text = true -> sub_tags text = text).
Proof.
  split.
  - unfold len, sub_tags.
    pose proof (sub_tags_fuel_length (String.length text) text). lia.
  - apply sub_tags_fuel_plain.
Qed.

Lemma sub_tags_shrinks_witness :
  free_of "<" "2 > 1, they say" = true
  /\ sub_tags "2 > 1, they say" = "2 > 1, they say".
Proof.
  split; [reflexivity|].
  apply (sub_tags_shrinks "2 > 1, they say"). reflexivity.
Defined.

(** X7. A tag is removed: when the text starts with a part free of [<],
    followed by [<], a non-empty body free of [<] and [>], and [>], the
    result is that first part followed by what the substitution makes of
    the rest. *)
Theorem sub_tags_removes_tag (before body rest : string) :
  free_of "<" before = true ->
  body <> "" ->
  free_of "<" body = true ->
  free_of ">" body = true ->
  sub_tags (before ++ String "<" (body ++ String ">" rest))
  = before ++ sub_tags rest.
Proof.
  intros Hb Hne H1 H2. induction before as [|c b IH].
  - cbn [append]. rewrite sub_tags_unfold.
    destruct body as [|d body']; [congruence|].
    cbn in H1, H2. apply andb_true_iff in H1, H2.
    destruct H1 as [Hd H1], H2 as [_ H2]. apply negb_true_iff in Hd.
    cbn [append match_tag]. rewrite Hd. cbn.
    now rewrite (close_tag_app body' rest H1 H2).
  - cbn in Hb. apply andb_true_iff in Hb. destruct Hb as [Hc Hb].
    apply negb_true_iff in Hc. cbn [append]. rewrite sub_tags_unfold.
    assert (Hm : match_tag (String c (b ++ String "<" (body ++ String ">" rest)))
                 = None).
    { cbn. destruct (b ++ _); [reflexivity|]. now rewrite Hc. }
    rewrite Hm. f_equal. now apply IH.
Qed.

Lemma sub_tags_removes_tag_witness :
  sub_tags "see <a href=x>this" = "see this".
Proof.
  change "see this" with ("see " ++ sub_tags "this").
  apply (sub_tags_removes_tag "see " "a href=x" "this");
    [reflexivity | discriminate | reflexivity | reflexivity].
Defined.

(** X8. What the reads pattern returns is a non-empty run of decimal
    digits that stands in the description before optional whitespace and
    the word Reads. *)
Theorem reads_pattern_sound (desc digits : string) :
  search_reads desc = Some digits ->
  digits <> ""
  /\ all_chars is_digit digits = true
  /\ 0 <= int_of_digits digits
  /\ exists before ws after,
       desc = before ++ digits ++ ws ++ "Reads" ++ after
       /\ all_chars isspace ws = true.
Proof.
  intros H. destruct (search_reads_sound _ _ H) as (Hne & Hall & Hex).
  repeat split; auto. now apply int_of_digits_nonneg.
Qed.

Lemma reads_pattern_sound_witness :
  search_reads "Request PDF | 12 34   Reads on" = Some "34"
  /\ 0 <= int_of_digits "34".
Proof.
  split; [reflexivity|].
  apply (reads_pattern_sound "Request PDF | 12 34   Reads on" "34").
  reflexivity.
Defined.

(** X9. The reads pattern finds a count whenever there is one: a
    description that holds a non-empty run of digits, then whitespace or
    nothing, then the word Reads, always matches. *)
Theorem reads_pattern_complete (before digits ws after : string) :
  digits <> "" ->
  all_chars is_digit digits = true ->
  all_chars isspace ws = true ->
  exists found,
    search_reads (before ++ digits ++ ws ++ "Reads" ++ after) = Some found.
Proof. apply search_reads_complete. Qed.

Lemma reads_pattern_complete_witness :
  exists found, search_reads "Cited 3 times, 250 Reads so far" = Some found.
Proof.
  apply (reads_pattern_complete "Cited 3 times, " "250" " " " so far");
    [discriminate | reflexivity | reflexivity].
Defined.

(** X10. The rough estimate is either the text "Protected" or an integer
    that is not negative; it is never None and never an error. *)
Theorem researchgate_range (w : World) (title : string) (n : nat) :
  exists v,
    returns (get_researchgate_rough w title) n v
    /\ (v = Protected \/ exists reads, v = PInt reads /\ 0 <= reads).
Proof.
  unfold returns, get_researchgate_rough, bind, try_except, rg_try_body, ret.
  destruct (web_search w n _) as [|ds b]; cbn; [eauto|].
  destruct (scan_results ds b) as [[z|]|e] eqn:Hs; cbn; eauto.
  eexists. split; [reflexivity|]. right. exists z. split; [reflexivity|].
  exact (scan_results_nonneg _ _ _ Hs).
Qed.

(** X11. The first search result whose description matches decides,
    whatever comes after it: its count is returned when its run of digits
    has at most 4300 digits, the most [int] converts, and "Protected" when
    the run is longer.  A result whose description is not a string, met
    before any match, ends the search with "Protected" whatever comes after
    it. *)
Theorem researchgate_first_match (w : World) (title : string) (n : nat)
    (earlier : list string) (later : list (option string)) (b : bool) :
  (forall d, In d earlier -> search_reads d = None) ->
  (forall desc digits,
     web_search w n ("site:researchgate.net " ++ title)
     = SearchResults (map Some earlier ++ Some desc :: later)%list b ->
     search_reads desc = Some digits ->
     len digits <= int_max_str_digits ->
     returns (get_researchgate_rough w title) n (PInt (int_of_digits digits)))
  /\ (forall desc digits,
        web_search w n ("site:researchgate.net " ++ title)
        = SearchResults (map Some earlier ++ Some desc :: later)%list b ->
        search_reads desc = Some digits ->
        int_max_str_digits < len digits ->
        returns (get_researchgate_rough w title) n Protected)
  /\ (web_search w n ("site:researchgate.net " ++ title)
      = SearchResults (map Some earlier ++ None :: later)%list b ->
      returns (get_researchgate_rough w title) n Protected).
Proof.
  intros Hno. split; [|split].
  - intros desc digits Hw Hd Hlen.
    unfold returns, get_researchgate_rough, bind, try_except, rg_try_body, ret.
    rewrite Hw, (scan_results_first earlier desc digits later b Hno Hd).
    now rewrite (int_of_str_ok digits Hlen).
  - intros desc digits Hw Hd Hlen.
    unfold returns, get_researchgate_rough, bind, try_except, rg_try_body, ret.
    rewrite Hw, (scan_results_first earlier desc digits later b Hno Hd).
    now rewrite (int_of_str_refuses digits Hlen).
  - intros Hw.
    unfold returns, get_researchgate_rough, bind, try_except, rg_try_body, ret.
    rewrite Hw. now rewrite (scan_results_broken earlier later b).
Qed.

Lemma researchgate_first_match_witness :
  returns (get_researchgate_rough
             (world_search
                (SearchResults [Some "A profile page"; Some "About 57 Reads";
                                None] true))
             "In the Lover's Mirror") 0 (PInt 57)
  /\ returns (get_researchgate_rough
                (world_search
                   (SearchResults [Some "A profile page";
                                   Some (long_digits ++ " Reads");
                                   Some "About 57 Reads"] false))
                "In the Lover's Mirror") 0 Protected.
Proof.
  split.
  - destruct (researchgate_first_match
                (world_search
                   (SearchResults [Some "A profile page"; Some "About 57 Reads";
                                   None] true))
                "In the Lover's Mirror" 0 ["A profile page"] [None] true)
      as [H _].
    + intros d [<-|[]]. reflexivity.
    + apply (H "About 57 Reads" "57"); [reflexivity | reflexivity |].
      vm_compute. discriminate.
  - destruct (researchgate_first_match
                (world_search
                   (SearchResults [Some "A profile page";
                                   Some (long_digits ++ " Reads");
                                   Some "About 57 Reads"] false))
                "In the Lover's Mirror" 0 ["A profile page"]
                [Some "About 57 Reads"] false)
      as (_ & H & _).
    + intros d [<-|[]]. reflexivity.
    + apply (H (long_digits ++ " Reads") long_digits);
        [reflexivity | vm_compute; reflexivity | vm_compute; reflexivity].
Defined.

End AdapterExtras.

Section AdapterCallExtras.
Import PyStr AdapterFacts MainLoopFacts AdapterMore.

(** X12. No adapter retries: the registry, mention and rough-estimate
    adapters make exactly one external call each, the forum adapter makes
    one or two, and it makes only one when its search request fails, is
    refused or does not decode. *)
Theorem adapters_call_once (w : World) (doi title : string) (n : nat) :
  snd (get_zenodo_stats w doi n) = S n
  /\ snd (get_altmetric_data w doi n) = S n
  /\ snd (get_researchgate_rough w title n) = S n
  /\ (snd (get_hacker_news_details w title n) = S n
      \/ snd (get_hacker_news_details w title n) = S (S n))
  /\ (unusable (http w n (HNSearch (strip (before_colon title))))
      \/ refused (http w n (HNSearch (strip (before_colon title)))) ->
      snd (get_hacker_news_details w title n) = S n).
Proof.
  repeat apply conj.
  - apply zenodo_calls.
  - apply altmetric_calls.
  - apply researchgate_calls.
  - apply hacker_news_calls.
  - apply hacker_news_single_call.
Qed.

Lemma adapters_call_once_witness :
  snd (get_hacker_news_details world_down "In the Lover's Mirror" 7%nat) = 8%nat.
Proof.
  apply (adapters_call_once world_down "10.5281/zenodo.17575634"
           "In the Lover's Mirror" 7).
  left. left. reflexivity.
Defined.

(** X13. The forum adapter keeps every comment the service returns, in
    order, or none at all.  When the story is found and the comments answer
    decodes to a list of hits: if every hit is a dictionary whose
    [comment_text] is a string or absent, the bundle carries one preview
    per hit, the preview of that hit, in the order of the hits (the limit
    of three is the request's, not the adapter's); if some hit is not, the
    adapter returns None. *)
Theorem forum_keeps_every_comment (w : World) (title : string) (n : nat)
    (r c : response) (d best cd : list (string * pyval))
    (rest cs : list pyval) :
  http w n (HNSearch (strip (before_colon title))) = Resp r ->
  status_code r = 200 ->
  json_body r = Some (PDict d) ->
  get_or d "hits" (PList []) = PList (PDict best :: rest) ->
  http w (S n) (HNComments (get_or best "objectID" PNone)) = Resp c ->
  status_code c = 200 ->
  json_body c = Some (PDict cd) ->
  get_or cd "hits" (PList []) = PList cs ->
  (forallb usable_comment cs = true ->
   exists ps,
     returns (get_hacker_news_details w title) n
       (Some {| points := get_or best "points" (PInt 0);
                comments_count := get_or best "num_comments" (PInt 0);
                objectID := get_or best "objectID" PNone;
                hn_title := get_or best "title" PNone;
                comments_preview := ps |})
     /\ List.length ps = List.length cs
     /\ Forall2 (fun hit p => preview_of hit = Ok p) cs ps)
  /\ (forallb usable_comment cs = false ->
      returns (get_hacker_news_details w title) n None).
Proof.
  intros H Hs Hj Hh Hc Hcs Hcj Hch.
  assert (Hiter : match Py.assoc "hits" cd with
                  | Some x => Ok x
                  | None => Ok (PList [])
                  end = Ok (PList cs)).
  { unfold get_or in Hch. destruct (Py.assoc "hits" cd); now rewrite Hch. }
  assert (Hrun : fst (get_hacker_news_details w title n) =
                 match previews cs with
                 | Ok ps =>
                     Ok (Some {| points := get_or best "points" (PInt 0);
                                 comments_count :=
                                   get_or best "num_comments" (PInt 0);
                                 objectID := get_or best "objectID" PNone;
                                 hn_title := get_or best "title" PNone;
                                 comments_preview := ps |})
                 | Raise _ => Ok None
                 end).
  { run. rewrite H, Hs, Hj. cbn. unfold get_or in *.
    destruct (Py.assoc "hits" d) as [hits|]; [|discriminate].
    cbn. subst hits. cbn.
    destruct (Py.assoc "objectID" best) as [sid|]; cbn; rewrite Hc; cbn;
      rewrite Hcs, Hcj; cbn; rewrite Hiter; cbn;
      (destruct (previews cs) as [ps|e]; cbn; [|reflexivity]);
      destruct (Py.assoc "points" best), (Py.assoc "num_comments" best),
        (Py.assoc "title" best); reflexivity. }
  split; intros Hu.
  - destruct (previews_usable cs Hu) as [ps Hp].
    exists ps. unfold returns. rewrite Hrun, Hp.
    split; [reflexivity|]. split.
    + exact (proj1 (previews_shape cs ps Hp)).
    + exact (previews_pointwise cs ps Hp).
  - destruct (previews_unusable cs Hu) as [e Hp].
    unfold returns. now rewrite Hrun, Hp.
Qed.

Lemma forum_keeps_every_comment_witness :
  (exists details,
     returns (get_hacker_news_details (world_forum (ok_json four_comments))
                "Anatomy of Conceptual Collapse") 0 (Some details)
     /\ List.length (comments_preview details) = 4%nat)
  /\ returns (get_hacker_news_details (world_forum (ok_json null_text_comments))
                "Anatomy of Conceptual Collapse") 0 None.
Proof.
  split.
  - destruct (forum_keeps_every_comment (world_forum (ok_json four_comments))
                "Anatomy of Conceptual Collapse" 0
                {| status_code := 200; json_body := Some hn_hit |}
                {| status_code := 200; json_body := Some four_comments |}
                [("hits", PList [PDict hn_story])] hn_story
                [("hits", PList comment_hits)] [] comment_hits
                eq_refl eq_refl eq_refl eq_refl eq_refl eq_refl eq_refl eq_refl)
      as [Hkeep _].
    destruct (Hkeep eq_refl) as (ps & Hret & Hlen & _).
    eexists. split; [exact Hret|]. exact Hlen.
  - destruct (forum_keeps_every_comment
                (world_forum (ok_json null_text_comments))
                "Anatomy of Conceptual Collapse" 0
                {| status_code := 200; json_body := Some hn_hit |}
                {| status_code := 200; json_body := Some null_text_comments |}
                [("hits", PList [PDict hn_story])] hn_story
                [("hits", PList [PDict [("author", PStr "ada");
                                        ("comment_text", PStr "Fine")];
                                 PDict [("author", PStr "bob");
                                        ("comment_text", PNone)]])] []
                [PDict [("author", PStr "ada"); ("comment_text", PStr "Fine")];
                 PDict [("author", PStr "bob"); ("comment_text", PNone)]]
                eq_refl eq_refl eq_refl eq_refl eq_refl eq_refl eq_refl eq_refl)
      as [_ Hnone].
    apply Hnone. reflexivity.
Defined.

(** X14. No preview is longer than 153 characters: 150 of the comment and
    the three dots. *)
Theorem forum_previews_bounded (w : World) (title : string) (n : nat)
    (details : hn_details) :
  returns (get_hacker_news_details w title) n (Some details) ->
  Forall (fun p => len (text p) <= 153) (comments_preview details).
Proof.
  intros H. destruct (hn_previews_origin w title n details H) as [->|[cs Hp]].
  - constructor.
  - exact (proj2 (previews_shape cs _ Hp)).
Qed.

Lemma forum_previews_bounded_witness :
  exists details,
    returns (get_hacker_news_details (world_forum (ok_json four_comments))
               "Anatomy of Conceptual Collapse") 0 (Some details)
    /\ Forall (fun p => len (text p) <= 153) (comments_preview details)
    /\ option_map (fun p => len (text p))
         (List.hd_error (comments_preview details)) = Some 153.
Proof.
  eexists. split; [vm_compute; reflexivity|]. split.
  - eapply (forum_previews_bounded (world_forum (ok_json four_comments))
              "Anatomy of Conceptual Collapse" 0).
    vm_compute. reflexivity.
  - vm_compute. reflexivity.
Defined.

End AdapterCallExtras.

(** ** More on the main loop *)

Module MainLoopMore.
Import AdapterFacts MainLoopFacts AdapterMore.

Section Calls.
Variable w : World.
Variable engrxiv_cache : TitleCache.

Lemma snd_of {A : Type} (m : M A) (n n' : nat) (r : result A) :
  m n = (r, n') -> snd (m n) = n'.
Proof. now intros ->. Qed.

Lemma process_calls (item : publication) (n : nat) :
  (n + 3 <= snd (process w engrxiv_cache item n)
   /\ snd (process w engrxiv_cache item n) <= n + 5)%nat.
Proof.
  destruct (process_trace w engrxiv_cache item n)
    as (views & downloads & am & hn & rg & n1 & n2 & n3 & n4
        & H1 & H2 & H3 & H4 & ->).
  cbn [snd].
  pose proof (stats_step_calls w engrxiv_cache item n) as C1.
  rewrite (snd_of _ _ _ _ H1) in C1.
  pose proof (altmetric_calls w (doi item) n1) as C2.
  rewrite (snd_of _ _ _ _ H2) in C2.
  pose proof (hacker_news_calls w (title item) n2) as C3.
  rewrite (snd_of _ _ _ _ H3) in C3.
  pose proof (researchgate_calls w (title item) n3) as C4.
  rewrite (snd_of _ _ _ _ H4) in C4.
  destruct (String.eqb (platform item) "Zenodo"); lia.
Qed.

Lemma loop_calls (items : list publication) :
  forall (records : list metric_record) (n : nat),
    (snd (loop w engrxiv_cache items records n)
     <= n + 5 * List.length items)%nat
    /\ (forall out, fst (loop w engrxiv_cache items records n) = Ok out ->
          (n + 3 * List.length items
           <= snd (loop w engrxiv_cache items records n))%nat).
Proof.
  induction items as [|item rest IH]; intros records n.
  - cbn. split; [lia|]. intros _ _. lia.
  - cbn [loop List.length]. unfold bind.
    pose proof (process_calls item n) as Hp.
    destruct (process w engrxiv_cache item n) as [[r|e] n1]; cbn [snd] in Hp.
    + destruct (IH (records ++ [r])%list n1) as [Hup Hlow].
      split; [lia|]. intros out Hout. specialize (Hlow out Hout). lia.
    + cbn. split; [lia|]. discriminate.
Qed.

End Calls.
End MainLoopMore.

Section MainLoopExtras.
Import PyStr AdapterFacts MainLoopFacts AdapterMore MainLoopMore.

(** X15. Every record the loop builds carries a mention bundle that is a
    dictionary with the key "score": the report's reads of it,
    [am.get('score', 0)] and [item['am']['score']], find a value. *)
Theorem record_has_score (w : World) (engrxiv_cache : TitleCache)
    (item : publication) (n n' : nat) (r : metric_record) :
  process w engrxiv_cache item n = (Ok r, n') ->
  exists s,
    Py.getitem (Altmetric r) "score" = Ok s
    /\ row_score (fst (report_row r)) = Ok s.
Proof.
  destruct (process_trace w engrxiv_cache item n)
    as (views & downloads & am & hn & rg & n1 & n2 & n3 & n4
        & H1 & H2 & H3 & H4 & ->).
  destruct (dl_rate views downloads); [|discriminate].
  intros [= <- _].
  assert (Ham : returns (get_altmetric_data w (doi item)) n1 am)
    by (unfold returns; now rewrite H2).
  destruct (altmetric_result_has_score _ _ _ _ Ham) as (d & s & -> & Hs).
  exists s. cbn. now rewrite Hs.
Qed.

Lemma record_has_score_witness :
  exists r n',
    process (world_zenodo plain_stats) sample_cache
      {| doi := "10.5281/zenodo.17575634"; title := "In the Lover's Mirror";
         platform := "Zenodo" |} 0%nat = (Ok r, n')
    /\ exists s, Py.getitem (Altmetric r) "score" = Ok s
                 /\ row_score (fst (report_row r)) = Ok s.
Proof.
  eexists. eexists. split; [vm_compute; reflexivity|].
  eapply (record_has_score (world_zenodo plain_stats) sample_cache
            {| doi := "10.5281/zenodo.17575634";
               title := "In the Lover's Mirror"; platform := "Zenodo" |} 0).
  vm_compute. reflexivity.
Defined.

(** X16. Off the registry platform nothing is ever computed: a record
    whose platform is not Zenodo stores the rate "-"; on engrXiv its views
    are the text "N/A" and its downloads the reconciler's count, on any
    other platform both are None.  The report's "N/A" therefore only ever
    replaces "-". *)
Theorem rate_is_dash_off_registry (w : World) (engrxiv_cache : TitleCache)
    (item : publication) (n n' : nat) (r : metric_record) :
  process w engrxiv_cache item n = (Ok r, n') ->
  Platform r <> "Zenodo" ->
  DL_Rate r = Dash
  /\ (Platform r = "engrXiv" ->
      Views r = PStr "N/A"
      /\ Downloads r = PInt (Reconciler.resolve engrxiv_cache (Title r)))
  /\ (Platform r <> "engrXiv" -> Views r = PNone /\ Downloads r = PNone).
Proof.
  destruct (process_trace w engrxiv_cache item n)
    as (views & downloads & am & hn & rg & n1 & n2 & n3 & n4
        & H1 & H2 & H3 & H4 & ->).
  destruct (dl_rate views downloads) as [rate|] eqn:Hr; [|discriminate].
  intros [= <- _]. cbn [Platform DL_Rate Views Downloads Title].
  intros Hplat. apply String.eqb_neq in Hplat.
  unfold stats_step in H1. rewrite Hplat in H1.
  unfold Reconciler.resolve.
  destruct (Reconciler.get_engrxiv_stats_from_cache _ _) as [o dls].
  destruct (String.eqb (platform item) "engrXiv") eqn:He;
    unfold ret in H1; injection H1 as <- <- _; cbn in Hr;
    injection Hr as <-.
  - split; [reflexivity|]. split; [now intros _|].
    apply String.eqb_eq in He. congruence.
  - split; [reflexivity|]. split; [|now intros _].
    apply String.eqb_neq in He. congruence.
Qed.

Lemma rate_is_dash_off_registry_witness :
  exists r n',
    process (world_zenodo plain_stats) sample_cache
      {| doi := "10.31224/5745";
         title := "Drift of Ungrounded Modality: On Sycophantic Failure in Constitutional AI";
         platform := "engrXiv" |} 0%nat = (Ok r, n')
    /\ DL_Rate r = Dash /\ Views r = PStr "N/A" /\ Downloads r = PInt 12.
Proof.
  eexists. eexists. split; [vm_compute; reflexivity|].
  destruct (rate_is_dash_off_registry (world_zenodo plain_stats) sample_cache
              {| doi := "10.31224/5745";
                 title := "Drift of Ungrounded Modality: On Sycophantic Failure in Constitutional AI";
                 platform := "engrXiv" |} 0 _ _ ltac:(vm_compute; reflexivity))
    as (Hd & He & _); [cbn; discriminate|].
  split; [exact Hd|]. destruct (He eq_refl) as [Hv Hdl].
  split; [exact Hv|]. rewrite Hdl. vm_compute. reflexivity.
Defined.

(** X17. The loop's use of the outside world is bounded: a turn makes at
    least 3 and at most 5 external calls, so a run over k publications
    makes at most 5k, and at least 3k when it completes. *)
Theorem loop_call_budget (w : World) (engrxiv_cache : TitleCache)
    (items : list publication) (n : nat) :
  (snd (main_loop w engrxiv_cache items n) <= n + 5 * List.length items)%nat
  /\ (forall records,
        fst (main_loop w engrxiv_cache items n) = Ok records ->
        (n + 3 * List.length items
         <= snd (main_loop w engrxiv_cache items n))%nat)
  /\ (forall item,
        (n + 3 <= snd (process w engrxiv_cache item n)
         /\ snd (process w engrxiv_cache item n) <= n + 5)%nat).
Proof.
  split; [apply loop_calls|]. split; [apply loop_calls|].
  intros item. apply process_calls.
Qed.

Lemma loop_call_budget_witness :
  exists records,
    fst (main_loop (world_zenodo plain_stats) sample_cache DOIs 0%nat)
    = Ok records
    /\ (18 <= snd (main_loop (world_zenodo plain_stats) sample_cache DOIs
                     0%nat))%nat.
Proof.
  eexists. split; [vm_compute; reflexivity|].
  eapply (proj1 (proj2 (loop_call_budget (world_zenodo plain_stats)
                          sample_cache DOIs 0))).
  vm_compute. reflexivity.
Defined.

End MainLoopExtras.

(** ** The report *)

Module ReportFacts.
Import PyStr AdapterFacts MainLoopFacts AdapterMore.

Lemma free_of_before_colon (s : string) : free_of ":" (before_colon s) = true.
Proof.
  induction s as [|c r IH]; cbn; [reflexivity|].
  unfold colon. destruct (Ascii.eqb c ":") eqn:Hc; cbn; [reflexivity|].
  now rewrite Hc.
Qed.

Lemma free_of_take (x : ascii) (k : nat) (s : string) :
  free_of x s = true -> free_of x (take k s) = true.
Proof.
  revert s. induction k as [|k IH]; intros s; [reflexivity|].
  destruct s as [|c r]; cbn; [reflexivity|].
  intros H. apply andb_true_iff in H. destruct H as [Hc Hr].
  rewrite Hc. now apply IH.
Qed.

Lemma free_of_app (x : ascii) (a b : string) :
  free_of x a = true -> free_of x b = true -> free_of x (a ++ b) = true.
Proof.
  intros Ha Hb. induction a as [|c a IH]; cbn; [exact Hb|].
  cbn in Ha. apply andb_true_iff in Ha. destruct Ha as [Hc Ha].
  rewrite Hc. now apply IH.
Qed.

Lemma report_loop_rows (records : list metric_record) :
  forall rows hs,
    report_loop records = Ok (rows, hs) ->
    rows = fst (report_rows records)
    /\ (List.length hs <= List.length records)%nat
    /\ (forall h, In h hs ->
          exists r, In r records /\ is_highlight r = Ok true
                    /\ h = {| hl_title := Title r; hl_am := Altmetric r;
                              hl_hn := HackerNews r |}).
Proof.
  induction records as [|r rest IH]; intros rows hs; cbn [report_loop].
  - intros [= <- <-]. repeat split; [cbn; lia | intros h []].
  - destruct (is_highlight r) as [chosen|e] eqn:Hr; [|discriminate].
    destruct (report_loop rest) as [[rows' hs']|e]; [|discriminate].
    intros [= <- <-]. destruct (IH rows' hs' eq_refl) as (Hrows & Hlen & Hin).
    split; [|split].
    + cbn [report_rows]. destruct (report_rows rest) as [rs rest'].
      cbn in *. now subst rows'.
    + destruct chosen; cbn [List.length]; lia.
    + intros h Hh.
      assert (Hcase : (chosen = true
                       /\ h = {| hl_title := Title r; hl_am := Altmetric r;
                                 hl_hn := HackerNews r |})
                      \/ In h hs').
      { destruct chosen; [destruct Hh as [<-|Hh]|]; auto. }
      destruct Hcase as [[-> ->]|Hh'].
      * exists r. split; [now left | now split].
      * destruct (Hin h Hh') as (r' & Hr' & Hhl & ->).
        exists r'. split; [now right | now split].
Qed.

Lemma report_loop_quiet (records : list metric_record) :
  Forall quiet records ->
  report_loop records = Ok (fst (report_rows records), []).
Proof.
  induction 1 as [|r rest [Ha Hh] _ IH]; [reflexivity|].
  cbn [report_loop report_rows]. unfold is_highlight. rewrite Ha, Hh. cbn.
  rewrite IH. now destruct (report_rows rest).
Qed.

Section Down.
Variable w : World.
Variable engrxiv_cache : TitleCache.
Hypothesis down : forall n rq, http w n rq = ConnFail.

Lemma process_down (item : publication) (n : nat) :
  exists r n', process w engrxiv_cache item n = (Ok r, n') /\ quiet r.
Proof.
  destruct (process_trace w engrxiv_cache item n)
    as (views & downloads & am & hn & rg & n1 & n2 & n3 & n4
        & H1 & H2 & H3 & H4 & ->).
  assert (Ham : am = score_only).
  { pose proof (altmetric_no_data w (doi item) n1
                  (or_introl (or_introl (down _ _)))) as H.
    unfold returns in H. rewrite H2 in H. cbn in H. congruence. }
  assert (Hhn : hn = None).
  { pose proof (hn_search_no_data w (title item) n2
                  (or_introl (or_introl (down _ _)))) as H.
    unfold returns in H. rewrite H3 in H. cbn in H. congruence. }
  assert (Hrate : exists rate, dl_rate views downloads = Ok rate).
  { unfold stats_step in H1.
    destruct (String.eqb (platform item) "Zenodo").
    - pose proof (zenodo_unusable w (doi item) n (or_introl (down _ _))) as H.
      unfold returns in H. rewrite H1 in H. cbn in H.
      injection H as -> ->. now exists Dash.
    - destruct (Reconciler.get_engrxiv_stats_from_cache _ _) as [o dls].
      destruct (String.eqb (platform item) "engrXiv");
        unfold ret in H1; injection H1 as <- <- _; now exists Dash. }
  destruct Hrate as [rate ->]. subst am hn.
  eexists _, _. split; [reflexivity|]. now split.
Qed.

Lemma loop_down (items : list publication) :
  forall (records : list metric_record) (n : nat),
    Forall quiet records ->
    exists out n',
      loop w engrxiv_cache items records n = (Ok out, n')
      /\ Forall quiet out
      /\ List.length out = (List.length records + List.length items)%nat.
Proof.
  induction items as [|item rest IH]; intros records n Hq.
  - exists records, n. cbn. repeat split; [exact Hq | lia].
  - cbn [loop]. unfold bind.
    destruct (process_down item n) as (r & n1 & -> & Hr).
    destruct (IH (records ++ [r])%list n1) as (out & n' & Hl & Hout & Hlen).
    { apply Forall_app. split; [exact Hq | now constructor]. }
    exists out, n'. split; [exact Hl|]. split; [exact Hout|].
    rewrite Hlen, length_app. cbn. lia.
Qed.

End Down.
End ReportFacts.

Section ReportExtras.
Import PyStr AdapterFacts MainLoopFacts AdapterMore ReportFacts.

(** X18. The title shown in the table has at most 33 characters and no
    colon; a title whose part before the first colon has at most 30
    characters is shown as that part. *)
Theorem short_title_bounded (title : string) :
  len (short_title title) <= 33
  /\ free_of ":" (short_title title) = true
  /\ (len (before_colon title) <= 30 ->
      short_title title = before_colon title).
Proof.
  unfold short_title.
  pose proof (free_of_before_colon title) as Hf.
  pose proof (take_length 30 (before_colon title)) as Ht.
  set (title_main := before_colon title) in *.
  destruct (30 <? len title_main) eqn:Hlong.
  - apply Z.ltb_lt in Hlong. split; [|split].
    + unfold len. rewrite append_length.
      change (String.length "...") with 3%nat. lia.
    + apply free_of_app; [now apply free_of_take | reflexivity].
    + lia.
  - apply Z.ltb_ge in Hlong. split; [lia|]. now split.
Qed.

Lemma short_title_bounded_witness :
  short_title "Anatomy of Conceptual Collapse: a sequel"
  = "Anatomy of Conceptual Collapse".
Proof.
  apply (short_title_bounded "Anatomy of Conceptual Collapse: a sequel").
  vm_compute. discriminate.
Defined.

(** X19. When the loop of the report completes, it has built one row per
    record, in order, and its highlights are entries of records for which
    the mention score or the forum points are above 0; they are never more
    than the records. *)
Theorem report_rows_and_highlights (records : list metric_record)
    (rows : list table_row) (hs : list highlight) :
  report_loop records = Ok (rows, hs) ->
  rows = fst (report_rows records)
  /\ map row_downloads rows = map Downloads records
  /\ (List.length hs <= List.length records)%nat
  /\ (forall h, In h hs ->
        exists r, In r records /\ is_highlight r = Ok true
                  /\ hl_title h = Title r /\ hl_am h = Altmetric r
                  /\ hl_hn h = HackerNews r).
Proof.
  intros H. destruct (report_loop_rows records rows hs H) as (Hrows & Hlen & Hin).
  split; [exact Hrows|]. split; [|split; [exact Hlen|]].
  - subst rows. clear. induction records as [|r rest IH]; [reflexivity|].
    cbn [report_rows]. destruct (report_rows rest) as [rs rest'].
    cbn in *. now rewrite IH.
  - intros h Hh. destruct (Hin h Hh) as (r & Hr & Hhl & ->).
    exists r. now repeat split.
Qed.

Lemma report_rows_and_highlights_witness :
  exists rows hs,
    report_loop sample_records = Ok (rows, hs)
    /\ map row_downloads rows = map Downloads sample_records
    /\ hs = [].
Proof.
  eexists. eexists. split; [vm_compute; reflexivity|]. split.
  - eapply (report_rows_and_highlights sample_records).
    vm_compute. reflexivity.
  - reflexivity.
Defined.

(** X20. Fail-soft from end to end: when every request fails at the
    network, the main loop still emits one record per publication, none of
    them with a mention score or a forum bundle, and the loop of the report
    completes with no highlight. *)
Theorem network_down_run (w : World) (engrxiv_cache : TitleCache)
    (items : list publication) (n : nat) :
  (forall k rq, http w k rq = ConnFail) ->
  exists records n',
    main_loop w engrxiv_cache items n = (Ok records, n')
    /\ List.length records = List.length items
    /\ Forall quiet records
    /\ report_loop records = Ok (fst (report_rows records), []).
Proof.
  intros Hdown.
  destruct (loop_down w engrxiv_cache Hdown items [] n (Forall_nil _))
    as (out & n' & Hl & Hq & Hlen).
  exists out, n'. split; [exact Hl|]. split; [exact Hlen|].
  split; [exact Hq|]. now apply report_loop_quiet.
Qed.

Lemma network_down_run_witness :
  exists records n',
    main_loop world_down sample_cache DOIs 0%nat = (Ok records, n')
    /\ List.length records = 6%nat
    /\ Forall quiet records
    /\ report_loop records = Ok (fst (report_rows records), []).
Proof.
  apply (network_down_run world_down sample_cache DOIs 0).
  intros k rq. reflexivity.
Defined.

(** X21. The report does not survive a story without points: when a
    record's mention score is not above 0 and its forum bundle carries
    None as points, the comparison [hn['points'] > 0] raises and the loop
    of the report ends in an exception. *)
Theorem report_fails_on_null_points (records : list metric_record)
    (r : metric_record) (s : pyval) (hn : hn_details) :
  In r records ->
  Py.get (Altmetric r) "score" (PInt 0) = Ok s ->
  Py.gt0 s = Ok false ->
  HackerNews r = Some hn ->
  points hn = PNone ->
  exists e, report_loop records = Raise e.
Proof.
  intros Hin Hs Hgt Hhn Hp.
  assert (Hr : is_highlight r = Raise TypeError).
  { unfold is_highlight. now rewrite Hs, Hgt, Hhn, Hp. }
  induction records as [|r0 rest IH]; [destruct Hin|].
  cbn [report_loop]. destruct Hin as [->|Hin].
  - rewrite Hr. eauto.
  - destruct (is_highlight r0); [|eauto].
    destruct (IH Hin) as [e ->]. eauto.
Qed.

Lemma report_fails_on_null_points_witness :
  report_loop (sample_records ++ [null_points_record])%list = Raise TypeError.
Proof.
  destruct (report_fails_on_null_points
              (sample_records ++ [null_points_record])%list
              null_points_record (PInt 0) null_points_story) as [e He].
  - apply in_or_app. right. now left.
  - reflexivity.
  - reflexivity.
  - reflexivity.
  - reflexivity.
  - rewrite He. vm_compute in He. congruence.
Defined.

End ReportExtras.

(** ** The messaging functions *)

Section SlackExtras.
Import Slack.

Variable client : Client.
Variable path_exists : string -> bool.

(** X22. The diagnosis answers True exactly when a token is set, the
    authentication call returns, and either no channel is set or the
    channel call returns with the bot as a member.  Without a token it
    makes no call at all; after a failed authentication it does not go on
    to the channel call. *)
Theorem diagnosis_verdict (token channel_id : option string)
    (log : list call) :
  (fst (diagnose_and_connect client token channel_id log) = Finished true
   <-> unset token = false
       /\ (exists b, client (List.length log) AuthTest = Answered b)
       /\ (unset channel_id = true
           \/ client (S (List.length log))
                (ConversationsInfo (text_of channel_id)) = Answered true))
  /\ (unset token = true ->
      diagnose_and_connect client token channel_id log
      = (Finished false, log))
  /\ (unset token = false ->
      client (List.length log) AuthTest = ApiError ->
      diagnose_and_connect client token channel_id log
      = (Finished false, (log ++ [AuthTest])%list)).
Proof.
  unfold diagnose_and_connect, send.
  assert (Hlen : List.length (log ++ [AuthTest])%list = S (List.length log))
    by (rewrite length_app; cbn; lia).
  split; [|split].
  - destruct (unset token); [split; [discriminate | intros [H _]; discriminate]|].
    destruct (client (List.length log) AuthTest) as [b| |] eqn:Ha.
    + destruct (unset channel_id).
      * split; [intros _|reflexivity]. repeat split; eauto.
      * rewrite Hlen.
        destruct (client (S (List.length log)) _) as [[]| |] eqn:Hc; cbn;
          (split; [intros H; try discriminate; repeat split; eauto
                  | intros (_ & _ & [H|H]); congruence]).
    + split; [discriminate | intros (_ & [b Hb] & _); discriminate].
    + split; [discriminate | intros (_ & [b Hb] & _); discriminate].
  - now intros ->.
  - intros -> ->. reflexivity.
Qed.

(** X23. An upload of a file that does not exist makes no call; the upload
    of a file that exists makes exactly one, and a SlackApiError raised by
    that call does not leave the function. *)
Theorem upload_one_file (token channel_id : option string)
    (filepath title : string) (log : list call) :
  (path_exists filepath = false ->
   upload_file_to_slack client path_exists token channel_id filepath title log
   = (Finished tt, log))
  /\ (path_exists filepath = true ->
      snd (upload_file_to_slack client path_exists token channel_id
             filepath title log)
      = (log ++ [FilesUploadV2 (text_of channel_id) filepath title])%list
      /\ (client (List.length log)
             (FilesUploadV2 (text_of channel_id) filepath title)
           <> OtherError ->
          fst (upload_file_to_slack client path_exists token channel_id
                 filepath title log) = Finished tt)).
Proof.
  unfold upload_file_to_slack, send. split.
  - now intros ->.
  - intros ->. cbn [negb].
    destruct (client (List.length log) _); cbn; split; congruence.
Qed.

(** X24. The uploads do not depend on one another nor on the diagnosis:
    with token and channel set, every file present and no exception other
    than SlackApiError, the image (when there is one), the report and the
    dataset are each sent once, in that order, whatever the service
    answers.  Without a token or without a channel nothing is sent. *)
Theorem uploads_are_independent (token channel_id img_filename : option string)
    (md_filename csv_filename img_title md_title : string)
    (log : list call) :
  (unset token = false -> unset channel_id = false ->
   (forall f, path_exists f = true) ->
   (forall k c, client k c <> OtherError) ->
   slack_upload client path_exists token channel_id img_filename
     md_filename csv_filename img_title md_title log
   = (Finished tt,
      (log
       ++ (if unset img_filename then []
           else [FilesUploadV2 (text_of channel_id) (text_of img_filename)
                   img_title])
       ++ [FilesUploadV2 (text_of channel_id) md_filename md_title;
           FilesUploadV2 (text_of channel_id) csv_filename
             "Raw Data (CSV)"])%list))
  /\ (unset token = true \/ unset channel_id = true ->
      slack_upload client path_exists token channel_id img_filename
        md_filename csv_filename img_title md_title log
      = (Finished tt, log)).
Proof.
  split.
  - intros Ht Hc Hfiles Hclient.
    assert (Hup : forall f t l,
              upload_file_to_slack client path_exists token channel_id f t l
              = (Finished tt,
                 (l ++ [FilesUploadV2 (text_of channel_id) f t])%list)).
    { intros f t l. unfold upload_file_to_slack, send. rewrite Hfiles.
      cbn [negb].
      destruct (client (List.length l) _) eqn:Ha; try reflexivity.
      now destruct (Hclient _ _ Ha). }
    unfold slack_upload. rewrite Ht, Hc. cbn [negb andb].
    destruct img_filename as [img|]; cbn [unset text_of].
    + destruct (String.eqb img "").
      * rewrite !Hup. now rewrite <- !app_assoc.
      * rewrite !Hup. now rewrite <- !app_assoc.
    + rewrite !Hup. now rewrite <- !app_assoc.
  - intros H. unfold slack_upload.
    destruct H as [-> | ->]; [reflexivity|].
    now destruct (unset token).
Qed.

End SlackExtras.

(** A bot that is authenticated but not a member is told so, and without a
    token nothing is asked. *)
Lemma diagnosis_verdict_witness :
  Slack.diagnose_and_connect client_outsider (Some "xoxb-1") (Some "C042") []
  = (Slack.Finished false, [Slack.AuthTest; Slack.ConversationsInfo "C042"])
  /\ Slack.diagnose_and_connect client_outsider None (Some "C042") []
     = (Slack.Finished false, []).
Proof.
  split; [reflexivity|].
  apply (diagnosis_verdict client_outsider None (Some "C042") []).
  reflexivity.
Defined.

Lemma upload_one_file_witness :
  Slack.upload_file_to_slack client_outsider
    (fun f => negb (String.eqb f "impact_graph.png"))
    (Some "xoxb-1") (Some "C042") "impact_graph.png" "Impact Graph" []
  = (Slack.Finished tt, []).
Proof.
  apply (upload_one_file client_outsider
           (fun f => negb (String.eqb f "impact_graph.png"))
           (Some "xoxb-1") (Some "C042") "impact_graph.png" "Impact Graph" []).
  reflexivity.
Defined.

(** The diagnosis says no, the image is refused, and the report and the
    dataset are sent all the same. *)
Lemma uploads_are_independent_witness :
  fst (Slack.diagnose_and_connect client_outsider (Some "xoxb-1")
         (Some "C042") []) = Slack.Finished false
  /\ Slack.slack_upload client_outsider (fun _ => true)
       (Some "xoxb-1") (Some "C042") (Some "impact_graph.png")
       "report.md" "metrics.csv" "Impact Graph" "Social Report" []
     = (Slack.Finished tt,
        [Slack.FilesUploadV2 "C042" "impact_graph.png" "Impact Graph";
         Slack.FilesUploadV2 "C042" "report.md" "Social Report";
         Slack.FilesUploadV2 "C042" "metrics.csv" "Raw Data (CSV)"]).
Proof.
  split; [reflexivity|].
  apply (uploads_are_independent client_outsider (fun _ => true)
           (Some "xoxb-1") (Some "C042") (Some "impact_graph.png")
           "report.md" "metrics.csv" "Impact Graph" "Social Report" []);
    try reflexivity.
  intros k [| |ch f t]; cbn; try discriminate.
  destruct (String.eqb f "impact_graph.png"); discriminate.
Defined.

(** ** The bulk scrape *)

Module PrefetchFacts.
Import PyStr PyStrFacts NormalFacts Re ReMore Prefetch.

Lemma dict_set_lookup (k : string) (v : Z) (d : TitleCache) :
  Py.assoc k (dict_set k v d) = Some v.
Proof.
  induction d as [|[k' v'] rest IH]; cbn.
  - now rewrite String.eqb_refl.
  - destruct (String.eqb k k') eqn:Hk; cbn; [now rewrite String.eqb_refl|].
    now rewrite Hk.
Qed.

Lemma dict_set_other (k k' : string) (v : Z) (d : TitleCache) :
  k' <> k -> Py.assoc k' (dict_set k v d) = Py.assoc k' d.
Proof.
  intros Hne. induction d as [|[k0 v0] rest IH]; cbn.
  - apply String.eqb_neq in Hne. now rewrite Hne.
  - destruct (String.eqb k k0) eqn:Hk; cbn.
    + apply String.eqb_eq in Hk. subst k0.
      apply String.eqb_neq in Hne. now rewrite Hne.
    + now rewrite IH.
Qed.

Lemma dict_set_in (k : string) (v : Z) (d : TitleCache) (e : string * Z) :
  In e (dict_set k v d) -> e = (k, v) \/ In e d.
Proof.
  induction d as [|[k' v'] rest IH]; cbn.
  - intros [<-|[]]. now left.
  - destruct (String.eqb k k'); cbn.
    + intros [<-|H]; auto.
    + intros [<-|H]; auto. destruct (IH H); auto.
Qed.

Lemma dict_set_key_in (k : string) (v : Z) (d : TitleCache) (x : string) :
  In x (map fst (dict_set k v d)) -> x = k \/ In x (map fst d).
Proof.
  rewrite !in_map_iff. intros ([k0 v0] & <- & H).
  destruct (dict_set_in _ _ _ _ H) as [[= -> ->]|H']; [now left|].
  right. now exists (k0, v0).
Qed.

Lemma dict_set_nodup (k : string) (v : Z) (d : TitleCache) :
  NoDup (map fst d) -> NoDup (map fst (dict_set k v d)).
Proof.
  induction d as [|[k' v'] rest IH]; cbn.
  - intros _. constructor; [intros [] | constructor].
  - intros H. inversion H as [|? ? Hnot Hrest]; subst.
    destruct (String.eqb k k') eqn:Hk; cbn.
    + apply String.eqb_eq in Hk. subst k'. now constructor.
    + constructor; [|now apply IH].
      intros Hin. destruct (dict_set_key_in _ _ _ _ Hin) as [->|Hin'].
      * now rewrite String.eqb_refl in Hk.
      * contradiction.
Qed.

Lemma search_downloads_digits (text digits : string) :
  search_downloads text = Some digits ->
  digits <> "" /\ all_chars is_digit digits = true.
Proof.
  induction text as [|c r IH]; [discriminate|].
  cbn [search_downloads].
  destruct (prefix "Downloads:" (String c r)); [|exact IH].
  destruct (take_digits (lstrip (drop 10 (String c r)))) as [|a ds] eqn:Ht;
    [exact IH|].
  intros [= <-]. split; [discriminate|].
  rewrite <- Ht. apply take_digits_all.
Qed.

Lemma search_downloads_sound (text digits : string) :
  search_downloads text = Some digits ->
  exists before ws after,
    text = before ++ "Downloads:" ++ ws ++ digits ++ after
    /\ all_chars isspace ws = true.
Proof.
  revert digits. induction text as [|c r IH]; intros digits; [discriminate|].
  cbn [search_downloads].
  destruct (prefix "Downloads:" (String c r)) eqn:Hp.
  - destruct (take_digits (lstrip (drop 10 (String c r)))) as [|a ds] eqn:Ht.
    + intros H. destruct (IH digits H) as (b & ws & a' & -> & Hw).
      now exists (String c b), ws, a'.
    + intros [= <-]. rewrite <- Ht.
      destruct (prefix_split _ _ Hp) as [rest Hrest].
      destruct (lstrip_split rest) as (ws & Hs & Hw).
      exists "", ws, (skip_digits (lstrip rest)). split; [|exact Hw].
      rewrite Hrest.
      change (drop 10 ("Downloads:" ++ rest)) with rest.
      change ("" ++ "Downloads:" ++ ws ++ take_digits (lstrip rest)
                 ++ skip_digits (lstrip rest))
        with ("Downloads:" ++ (ws ++ (take_digits (lstrip rest)
                 ++ skip_digits (lstrip rest)))).
      now rewrite <- append_split_skip, <- Hs.
  - intros H. destruct (IH digits H) as (b & ws & a' & -> & Hw).
    now exists (String c b), ws, a'.
Qed.

Lemma prefetch_loop_step (det : detail_block) (rest : list detail_block)
    (c : TitleCache) :
  prefetch_loop (det :: rest) c =
  if block_stops det then c
  else prefetch_loop rest
         (match block_entry det with
          | Some (k, v) => dict_set k v c
          | None => c
          end).
Proof.
  unfold block_stops, block_entry, int_of_str. cbn [prefetch_loop].
  destruct (search_downloads (det_text det)) as [digits|]; [|reflexivity].
  unfold int_of_str.
  destruct (int_max_str_digits <? len digits); [reflexivity|].
  now destruct (title_text det).
Qed.

Lemma block_entry_shape (det : detail_block) (k : string) (v : Z) :
  block_entry det = Some (k, v) -> strip k = k /\ 0 <= v.
Proof.
  unfold block_entry.
  destruct (search_downloads (det_text det)) as [digits|] eqn:Hs;
    [|discriminate].
  destruct (title_text det); [|discriminate].
  destruct (int_max_str_digits <? len digits); [discriminate|].
  intros [= <- <-]. split; [apply strip_idem|].
  apply int_of_digits_nonneg. now apply (search_downloads_digits _ _ Hs).
Qed.

(** Blocks that do not end the scrape are read one after the other. *)
Lemma prefetch_loop_app (a b : list detail_block) (c : TitleCache) :
  Forall (fun det => block_stops det = false) a ->
  prefetch_loop (a ++ b)%list c = prefetch_loop b (prefetch_loop a c).
Proof.
  intros Ha. revert c. induction Ha as [|det a Hdet Ha IH]; intros c;
    [reflexivity|].
  cbn [app]. now rewrite !prefetch_loop_step, Hdet, IH.
Qed.

(** A block that ends the scrape hides the blocks after it. *)
Lemma prefetch_loop_stops (a : list detail_block) (bad : detail_block)
    (b : list detail_block) (c : TitleCache) :
  Forall (fun det => block_stops det = false) a ->
  block_stops bad = true ->
  prefetch_loop (a ++ bad :: b)%list c = prefetch_loop a c.
Proof.
  intros Ha Hbad. rewrite (prefetch_loop_app a (bad :: b) c Ha).
  now rewrite prefetch_loop_step, Hbad.
Qed.

Lemma dict_set_well_formed (k : string) (v : Z) (c : TitleCache) :
  strip k = k -> 0 <= v -> cache_well_formed c -> cache_well_formed (dict_set k v c).
Proof.
  intros Hk Hv [Hnd Hall]. split; [now apply dict_set_nodup|].
  intros e He. destruct (dict_set_in _ _ _ _ He) as [->|He']; [now split|].
  now apply Hall.
Qed.

Lemma prefetch_loop_well_formed (blocks : list detail_block) :
  forall c, cache_well_formed c -> cache_well_formed (prefetch_loop blocks c).
Proof.
  induction blocks as [|det rest IH]; intros c Hc; [exact Hc|].
  rewrite prefetch_loop_step.
  destruct (block_stops det); [exact Hc|]. apply IH.
  destruct (block_entry det) as [[k v]|] eqn:Hb; [|exact Hc].
  destruct (block_entry_shape _ _ _ Hb). now apply dict_set_well_formed.
Qed.

End PrefetchFacts.

Module PrefetchMore.
Import PyStr Reconciler ReconcilerFacts ReconcilerMore Prefetch PrefetchFacts.

Lemma resolve_member (cache : TitleCache) (title : string) :
  resolve cache title = 0
  \/ exists e, In e cache /\ resolve cache title = snd e.
Proof.
  destruct cache as [|e0 rest] eqn:Hc; [now left|]. rewrite <- Hc.
  rewrite resolve_unfold by (subst; discriminate).
  destruct (scan_substring _ _) as [d|] eqn:H1.
  - right. destruct (scan_substring_some _ _ _ H1) as (e & He & _ & Hd).
    exists e. now split.
  - destruct (scan_base _ _) as [d|] eqn:H2; [|now left].
    right. destruct (scan_base_some _ _ _ H2) as (e & He & _ & Hd).
    exists e. now split.
Qed.

Lemma prefetch_well_formed (pg : page) (c : TitleCache) :
  cache_well_formed c ->
  cache_well_formed (prefetch_engrxiv_search_results pg c).
Proof.
  intros Hc. destruct pg as [|status blocks]; [exact Hc|]. cbn.
  destruct (negb (status =? 200)); [exact Hc|].
  now apply prefetch_loop_well_formed.
Qed.

End PrefetchMore.

Section PrefetchExtras.
Import PyStr Re ReMore Reconciler Prefetch PrefetchFacts PrefetchMore.

(** X25. The scrape keeps the cache in shape: if its titles are distinct
    and trimmed and its counts are not negative before, they are so after,
    whatever the page holds; and the reconciler then never returns a
    negative count. *)
Theorem prefetch_keeps_cache_in_shape (pg : page) (cache : TitleCache)
    (title : string) :
  cache_well_formed cache ->
  cache_well_formed (prefetch_engrxiv_search_results pg cache)
  /\ 0 <= resolve (prefetch_engrxiv_search_results pg cache) title.
Proof.
  intros Hc. pose proof (prefetch_well_formed pg cache Hc) as Hw.
  split; [exact Hw|].
  destruct (resolve_member (prefetch_engrxiv_search_results pg cache) title)
    as [->|(e & He & ->)]; [lia|].
  now apply (proj2 Hw).
Qed.

Lemma prefetch_keeps_cache_in_shape_witness :
  cache_well_formed []
  /\ prefetch_engrxiv_search_results sample_page []
     = [("Masami Systems", 33); ("Drift of Ungrounded Modality", 12)]
  /\ cache_well_formed (prefetch_engrxiv_search_results sample_page []).
Proof.
  assert (H0 : cache_well_formed []).
  { split; [constructor | intros e []]. }
  split; [exact H0|]. split; [reflexivity|].
  apply (prefetch_keeps_cache_in_shape sample_page [] "" H0).
Defined.

(** X26. A scrape that fails keeps what was stored before the failure and
    adds nothing after it.  When the request or the parsing raises, or the
    status code is not 200, the cache is left as it was; starting from the
    empty cache, every title then resolves to 0 and every engrXiv
    publication gets the views "N/A" and the downloads 0.  When the failure
    comes inside the loop, at a block whose count has more than 4300 digits,
    the cache is the one the blocks before it produce, and the blocks after
    it are not read: on a page whose second block is such a one, the empty
    cache becomes {"First": 1}. *)
Theorem failed_prefetch_keeps_what_was_stored (cache : TitleCache) :
  (forall pg,
     pg = PageFail \/ (exists status blocks,
                         pg = Page status blocks /\ status <> 200) ->
     prefetch_engrxiv_search_results pg cache = cache
     /\ (forall title,
           resolve (prefetch_engrxiv_search_results pg []) title = 0)
     /\ (forall w item n,
           platform item = "engrXiv" ->
           returns (stats_step w (prefetch_engrxiv_search_results pg []) item)
             n (PStr "N/A", PInt 0)))
  /\ (forall before bad after,
        Forall (fun det => block_stops det = false) before ->
        block_stops bad = true ->
        prefetch_engrxiv_search_results (Page 200 (before ++ bad :: after)%list)
          cache
        = prefetch_engrxiv_search_results (Page 200 before) cache)
  /\ (forall text full_title digits after,
        search_downloads text = Some digits ->
        int_max_str_digits < len digits ->
        prefetch_engrxiv_search_results
          (Page 200 ({| det_text := text; title_text := full_title |} :: after))
          cache
        = cache)
  /\ prefetch_engrxiv_search_results broken_page [] = [("First", 1)].
Proof.
  split; [|split; [|split]].
  - intros pg H.
    assert (Hsame : forall c, prefetch_engrxiv_search_results pg c = c).
    { intros c. destruct H as [->|(status & blocks & -> & Hs)]; [reflexivity|].
      cbn. apply Z.eqb_neq in Hs. now rewrite Hs. }
    split; [apply Hsame|]. split.
    + intros title. now rewrite Hsame.
    + intros w item n Hp. rewrite Hsame. unfold returns, stats_step.
      rewrite Hp. reflexivity.
  - intros before bad after Hb Hbad. cbn.
    now apply prefetch_loop_stops.
  - intros text full_title digits after Hs Hlen. cbn. rewrite Hs.
    now rewrite (int_of_str_refuses digits Hlen).
  - vm_compute. reflexivity.
Qed.

Lemma failed_prefetch_keeps_what_was_stored_witness :
  prefetch_engrxiv_search_results (Page 503 []) sample_cache = sample_cache
  /\ resolve (prefetch_engrxiv_search_results (Page 503 []) [])
       "Drift of Ungrounded Modality" = 0
  /\ prefetch_engrxiv_search_results
       (Page 200
          [ {| det_text := "Downloads: 1"; title_text := Some "First" |};
            {| det_text := "Downloads: " ++ long_digits;
               title_text := Some "Second" |};
            {| det_text := "Downloads: 3"; title_text := Some "Third" |} ])
       sample_cache
     = prefetch_engrxiv_search_results
         (Page 200
            [ {| det_text := "Downloads: 1"; title_text := Some "First" |} ])
         sample_cache.
Proof.
  destruct (failed_prefetch_keeps_what_was_stored sample_cache)
    as (Hpre & Hin & _).
  destruct (Hpre (Page 503 [])) as (H1 & H2 & _).
  - right. exists 503, []. split; [reflexivity | discriminate].
  - split; [exact H1|]. split; [apply H2|].
    apply (Hin [ {| det_text := "Downloads: 1"; title_text := Some "First" |} ]
               {| det_text := "Downloads: " ++ long_digits;
                  title_text := Some "Second" |}
               [ {| det_text := "Downloads: 3"; title_text := Some "Third" |} ]).
    + repeat constructor.
    + vm_compute. reflexivity.
Defined.

(** X27. What the downloads pattern returns is a non-empty run of decimal
    digits that stands in the text after the word Downloads, a colon and
    optional whitespace. *)
Theorem downloads_pattern_sound (text digits : string) :
  search_downloads text = Some digits ->
  digits <> ""
  /\ all_chars is_digit digits = true
  /\ exists before ws after,
       text = before ++ "Downloads:" ++ ws ++ digits ++ after
       /\ all_chars isspace ws = true.
Proof.
  intros H. destruct (search_downloads_digits _ _ H) as [Hne Hall].
  split; [exact Hne|]. split; [exact Hall|].
  now apply search_downloads_sound.
Qed.

Lemma downloads_pattern_sound_witness :
  search_downloads "Published: 2025 Downloads:  33 Views: 90" = Some "33"
  /\ all_chars is_digit "33" = true.
Proof.
  split; [reflexivity|].
  apply (downloads_pattern_sound
           "Published: 2025 Downloads:  33 Views: 90" "33").
  reflexivity.
Defined.

(** X28. The count scraped last for a title is the one stored: when no
    block of the page holds a count of more than 4300 digits, the cache
    holds after the loop, under the trimmed title of the last block with its
    marker removed, the count of that block, whatever the earlier blocks
    and the cache before were. *)
Theorem scraped_count_is_stored (blocks : list detail_block)
    (cache : TitleCache) (text full_title digits : string) :
  Forall (fun det => block_stops det = false) blocks ->
  search_downloads text = Some digits ->
  len digits <= int_max_str_digits ->
  Py.assoc (strip (remove_all "Preprint / Version 1" full_title))
    (prefetch_loop
       (blocks ++ [{| det_text := text; title_text := Some full_title |}])%list
       cache)
  = Some (int_of_digits digits).
Proof.
  intros Hb Hs Hlen. rewrite (prefetch_loop_app _ _ _ Hb).
  cbn [prefetch_loop det_text title_text]. rewrite Hs.
  rewrite (int_of_str_ok digits Hlen). apply dict_set_lookup.
Qed.

Lemma scraped_count_is_stored_witness :
  Py.assoc "Masami Systems"
    (prefetch_engrxiv_search_results sample_page sample_cache) = Some 33.
Proof.
  apply (scraped_count_is_stored
           [ {| det_text := "Published: 2025-01-02 Downloads: 31";
                title_text := Some "Masami SystemsPreprint / Version 1" |};
             {| det_text := "Published: 2025-03-04";
                title_text := Some "No count here" |};
             {| det_text := "Downloads:12";
                title_text := Some " Drift of Ungrounded Modality " |};
             {| det_text := "Downloads: 7"; title_text := None |} ]
           sample_cache "Downloads:  33 Views: 90" "Masami Systems" "33").
  - repeat constructor.
  - reflexivity.
  - vm_compute. discriminate.
Defined.

End PrefetchExtras.

Section RateExtras.
Import MainLoopFacts Float64Bounds.

(** X29. The rate of a record can fail in one way only, the OverflowError
    of the division, and not at all while the download count is below
    2^1023 in absolute value: for integer views above 0 it is then a
    percentage.  With 0 downloads the stored text is "0.0%". *)
Theorem rate_never_fails_on_bounded_counts (views downloads : pyval) :
  (forall e, dl_rate views downloads = Raise e -> e = OverflowError)
  /\ (forall v d,
        Py.as_int views = Some v -> Py.as_int downloads = Some d ->
        0 < v -> Z.abs d < 2 ^ 1023 ->
        exists x, dl_rate views downloads = Ok (Percent x))
  /\ (forall v,
        Py.as_int views = Some v -> Py.as_int downloads = Some 0 -> 0 < v ->
        exists rate,
          dl_rate views downloads = Ok rate
          /\ rate_string rate = Some "0.0%").
Proof.
  split; [apply dl_rate_raises|]. split.
  - intros v d Hv Hd Hpos Hsmall. unfold dl_rate. rewrite Hv, Hd.
    apply Z.ltb_lt in Hpos. rewrite Hpos.
    apply Z.ltb_lt in Hpos.
    destruct (int_truediv_defined d v Hpos Hsmall) as [x ->]. eauto.
  - intros v Hv Hd Hpos. unfold dl_rate. rewrite Hv, Hd.
    assert (Hz : (v =? 0) = false) by (apply Z.eqb_neq; lia).
    assert (Hn : (v <? 0) = false) by (apply Z.ltb_ge; lia).
    apply Z.ltb_lt in Hpos. rewrite Hpos.
    unfold Float64.int_truediv. rewrite Hz. cbn. rewrite Hn.
    eexists. split; reflexivity.
Qed.

Lemma rate_never_fails_on_bounded_counts_witness :
  (exists x, dl_rate (PInt 3) (PInt 1) = Ok (Percent x))
  /\ exists rate, dl_rate (PInt 3) (PInt 0) = Ok rate
                  /\ rate_string rate = Some "0.0%".
Proof.
  destruct (rate_never_fails_on_bounded_counts (PInt 3) (PInt 1))
    as (_ & H1 & _).
  destruct (rate_never_fails_on_bounded_counts (PInt 3) (PInt 0))
    as (_ & _ & H2).
  split.
  - apply (H1 3 1); reflexivity.
  - apply (H2 3); reflexivity.
Defined.

End RateExtras.


(** ** Corpus statistics *)

Module StatsFacts.
Import Float64.

Lemma round_half_even_one (n : Z) : round_half_even n 1 = n.
Proof.
  unfold round_half_even. rewrite Z.div_1_r, Z.mod_1_r. reflexivity.
Qed.

Lemma floor_log2_one (p : positive) : floor_log2 p 1 = Z.log2 (Zpos p).
Proof.
  unfold floor_log2. change (Z.log2 1) with 0. rewrite Z.sub_0_r.
  pose proof (Z.log2_nonneg (Zpos p)) as H0.
  destruct (0 <=? Z.log2 (Zpos p)) eqn:H; [|apply Z.leb_gt in H; lia].
  pose proof (Z.log2_spec (Zpos p) ltac:(lia)) as [Hl _].
  destruct (1 * 2 ^ Z.log2 (Zpos p) <=? Zpos p) eqn:Hr; [reflexivity|].
  apply Z.leb_gt in Hr. lia.
Qed.

(** An integer below 2^53 is a float. *)
Lemma nearest_small (p : positive) :
  Zpos p < 2 ^ 53 -> nearest p 1 = Some (Zpos p # 1).
Proof.
  intros Hp. unfold nearest. rewrite floor_log2_one.
  assert (HL : Z.log2 (Zpos p) < 53) by (apply Z.log2_lt_pow2; lia).
  pose proof (Z.log2_nonneg (Zpos p)) as H0.
  set (L := Z.log2 (Zpos p)) in *.
  replace (Z.max (L - 52) (-1074)) with (L - 52) by lia.
  assert (Hbig : 2 ^ 53 < 2 ^ 1024) by (vm_compute; reflexivity).
  assert (Hid : Qred (Zpos p # 1) = Zpos p # 1).
  { apply Qcanon.Qred_identity. cbn [Qnum Qden]. apply Z.gcd_1_r. }
  destruct (0 <=? L - 52) eqn:He.
  - apply Z.leb_le in He. replace (L - 52) with 0 by lia.
    change (2 ^ 0) with 1. rewrite !Z.mul_1_r.
    change (1 * 1) with 1. rewrite round_half_even_one.
    destruct (Qle_bool (2 ^ 1024 # 1) (Zpos p # 1)) eqn:Hq.
    + unfold Qle_bool in Hq. cbn [Qnum Qden] in Hq. apply Z.leb_le in Hq. lia.
    + now rewrite Hid.
  - apply Z.leb_gt in He. rewrite round_half_even_one.
    set (k := - (L - 52)) in *.
    assert (Hk : 0 < 2 ^ k) by (apply Z.pow_pos_nonneg; lia).
    destruct (Qle_bool _ _) eqn:Hq.
    + unfold Qle_bool in Hq. cbn [Qnum Qden] in Hq. apply Z.leb_le in Hq.
      rewrite Z2Pos.id in Hq by lia. nia.
    + f_equal. rewrite <- Hid. apply Qred_complete.
      unfold Qeq. cbn [Qnum Qden]. rewrite Z2Pos.id by lia. lia.
Qed.

Lemma of_Z_exact (z : Z) : Z.abs z < 2 ^ 53 -> of_Z z = exact_Z z.
Proof.
  intros Hz. unfold of_Z, exact_Z, of_magnitude. cbn [inject_Z Qnum Qden].
  pose proof (Z.abs_nonneg z) as Hn.
  destruct (Z.abs z) as [|p|p] eqn:Ha; [reflexivity | | lia].
  now rewrite (nearest_small p Hz).
Qed.

Lemma value_exact (z : Z) :
  value (z <? 0) (inject_Z (Z.abs z)) = inject_Z z.
Proof. destruct z; reflexivity. Qed.

Lemma Qred_inject_Z (z : Z) : Qred (inject_Z z) = inject_Z z.
Proof.
  apply Qcanon.Qred_identity. cbn [inject_Z Qnum Qden]. apply Z.gcd_1_r.
Qed.

(** The sum of two floats that are integers is the float nearest to the
    integer sum. *)
Lemma add_exact (a b : Z) : add (exact_Z a) (exact_Z b) = of_Z (a + b).
Proof.
  unfold add, exact_Z. rewrite !value_exact.
  assert (Hred : Qred (inject_Z a + inject_Z b) = inject_Z (a + b)).
  { rewrite <- (Qred_inject_Z (a + b)). apply Qred_complete.
    unfold Qeq, inject_Z, Qplus. cbn [Qnum Qden]. lia. }
  cbv zeta. rewrite Hred. cbn [inject_Z Qnum].
  destruct (a + b) as [|p|p] eqn:Hs.
  - replace ((a <? 0) && (b <? 0)) with false; [reflexivity|].
    symmetry. apply andb_false_iff.
    destruct (a <? 0) eqn:Ha; [|now left]. right.
    apply Z.ltb_lt in Ha. apply Z.ltb_ge. clear Hred. lia.
  - reflexivity.
  - reflexivity.
Qed.

Lemma abs_sum_nonneg (zs : list Z) : 0 <= abs_sum zs.
Proof. induction zs as [|z zs IH]; cbn [abs_sum]; lia. Qed.

Lemma int_sum_bound (zs : list Z) : Z.abs (int_sum zs) <= abs_sum zs.
Proof. induction zs as [|z zs IH]; cbn [abs_sum int_sum]; lia. Qed.

Lemma abs_sum_app (a b : list Z) : abs_sum (a ++ b) = abs_sum a + abs_sum b.
Proof. induction a as [|z a IH]; cbn [app abs_sum]; lia. Qed.

Lemma int_sum_app (a b : list Z) : int_sum (a ++ b) = int_sum a + int_sum b.
Proof. induction a as [|z a IH]; cbn [app int_sum]; lia. Qed.

Lemma abs_sum_perm (a b : list Z) : Permutation a b -> abs_sum a = abs_sum b.
Proof. induction 1; cbn [abs_sum]; lia. Qed.

Lemma int_sum_perm (a b : list Z) : Permutation a b -> int_sum a = int_sum b.
Proof. induction 1; cbn [int_sum]; lia. Qed.

Lemma abs_sum_zeros (k : nat) : abs_sum (repeat 0 k) = 0.
Proof. induction k as [|k IH]; cbn [repeat abs_sum]; lia. Qed.

Lemma int_sum_zeros (k : nat) : int_sum (repeat 0 k) = 0.
Proof. induction k as [|k IH]; cbn [repeat int_sum]; lia. Qed.

Lemma fold_add_int_sum (zs : list Z) :
  forall acc, fold_left Z.add zs acc = acc + int_sum zs.
Proof.
  induction zs as [|z zs IH]; intros acc; cbn [fold_left int_sum]; [lia|].
  rewrite IH. lia.
Qed.

(** However the additions are bracketed, a sum of floats that are integers
    is exact while the absolute values sum to less than 2^53. *)
Lemma eval_exact (t : sum_tree) :
  forall zs, leaves t = map exact_Z zs -> abs_sum zs < 2 ^ 53 ->
             eval t = exact_Z (int_sum zs).
Proof.
  induction t as [x|l IHl r IHr]; intros zs Hl Hb; cbn [leaves eval] in *.
  - destruct zs as [|z [|z' zs]]; try discriminate.
    injection Hl as ->. cbn [int_sum]. now rewrite Z.add_0_r.
  - symmetry in Hl. apply map_eq_app in Hl.
    destruct Hl as (zl & zr & -> & Hzl & Hzr).
    rewrite abs_sum_app in Hb.
    pose proof (abs_sum_nonneg zl). pose proof (abs_sum_nonneg zr).
    pose proof (int_sum_bound zl). pose proof (int_sum_bound zr).
    rewrite (IHl zl (eq_sym Hzl)) by lia.
    rewrite (IHr zr (eq_sym Hzr)) by lia.
    rewrite add_exact, of_Z_exact by lia.
    now rewrite int_sum_app.
Qed.

Lemma sum_exact (reduction : list Float64.t -> sum_tree) (zs : list Z) :
  adds_each_once reduction ->
  abs_sum zs < 2 ^ 53 ->
  sum reduction (map exact_Z zs) = exact_Z (int_sum zs).
Proof.
  intros Hr Hb. unfold sum. destruct (Hr (map exact_Z zs)) as [k Hk].
  change (Finite false 0) with (exact_Z 0) in Hk.
  rewrite <- (map_repeat 0 k exact_Z), <- map_app in Hk.
  apply Permutation_map_inv in Hk. destruct Hk as (l & Hl & Hp).
  assert (Hs : int_sum l = int_sum zs).
  { rewrite <- (int_sum_perm _ _ Hp), int_sum_app, int_sum_zeros. lia. }
  assert (Ha : abs_sum l = abs_sum zs).
  { rewrite <- (abs_sum_perm _ _ Hp), abs_sum_app, abs_sum_zeros. lia. }
  rewrite (eval_exact _ l Hl) by lia. now rewrite Hs.
Qed.

Lemma left_comb_from_leaves (column : list Float64.t) :
  forall acc, leaves (left_comb_from acc column)
              = (leaves acc ++ column)%list.
Proof.
  induction column as [|x rest IH]; intros acc; cbn [left_comb_from].
  - now rewrite app_nil_r.
  - rewrite IH. cbn [leaves]. now rewrite <- app_assoc.
Qed.

Lemma left_comb_adds_each_once : adds_each_once left_comb.
Proof.
  intros [|x rest].
  - exists 1%nat. apply Permutation_refl.
  - exists 0%nat. unfold left_comb. rewrite left_comb_from_leaves.
    apply Permutation_refl.
Qed.

Lemma wrap64_small (z : Z) : Z.abs z < 2 ^ 53 -> wrap64 z = z.
Proof.
  intros Hz. unfold wrap64.
  assert (H63 : 2 ^ 53 < 2 ^ 63) by (vm_compute; reflexivity).
  assert (H64 : 2 ^ 64 = 2 * 2 ^ 63) by (vm_compute; reflexivity).
  rewrite Z.mod_small by lia. lia.
Qed.

Section WithOracles.
Variable numeric_text : string -> bool.
Variable open_total : list metric_record -> result number.
Variable open_avg : list metric_record -> result Float64.t.
Variable reduction : list Float64.t -> sum_tree.
Hypothesis reduction_adds : adds_each_once reduction.

Lemma abs_total_counts0 (df : list metric_record) :
  abs_total df = abs_sum (counts0 df).
Proof.
  induction df as [|r rest IH]; [reflexivity|].
  cbn [abs_total counts0 map abs_sum]. fold (counts0 rest). rewrite IH.
  now destruct (count_of (Downloads r)).
Qed.

Lemma spec_total_counts0 (df : list metric_record) :
  spec_total df = int_sum (counts0 df).
Proof.
  induction df as [|r rest IH]; [reflexivity|].
  cbn [spec_total counts0 map int_sum]. fold (counts0 rest). now rewrite IH.
Qed.

Lemma abs_sum_counts (df : list metric_record) :
  abs_sum (counts df) = abs_total df.
Proof.
  induction df as [|r rest IH]; [reflexivity|].
  cbn [counts abs_total].
  destruct (count_of (Downloads r)); cbn [abs_sum]; rewrite IH; lia.
Qed.

Lemma abs_total_filter (f : metric_record -> bool) (df : list metric_record) :
  abs_total (filter f df) <= abs_total df.
Proof.
  induction df as [|r rest IH]; [cbn; lia|].
  cbn [filter abs_total].
  assert (Hn : 0 <= match count_of (Downloads r) with
                    | Some z => Z.abs z
                    | None => 0
                    end) by (destruct (count_of (Downloads r)); lia).
  destruct (f r); cbn [abs_total]; lia.
Qed.

Lemma abs_total_nonneg (df : list metric_record) : 0 <= abs_total df.
Proof. rewrite abs_total_counts0. apply abs_sum_nonneg. Qed.

Lemma spec_kept_counts (df : list metric_record) :
  spec_kept df = (int_sum (counts (df_for_avg df)),
                  List.length (counts (df_for_avg df))).
Proof.
  induction df as [|r rest IH]; [reflexivity|].
  cbn [spec_kept df_for_avg filter]. fold (df_for_avg rest). rewrite IH.
  destruct (contains_nocase "Technical Letter" (Title r)); cbn [negb];
    [reflexivity|].
  cbn [counts]. destruct (count_of (Downloads r)); reflexivity.
Qed.

(** A plain cell with a count below 2^53 is read as that count, one
    without as NaN. *)
Lemma read_cell_plain (v : pyval) :
  plain_cell numeric_text v ->
  (forall z, count_of v = Some z -> Z.abs z < 2 ^ 53) ->
  read_cell numeric_text v
  = match count_of v with
    | Some z => IntCell z
    | None => FloatCell NaN
    end.
Proof.
  intros Hp Hb. destruct v as [| |z| |s| |]; cbn in *; try reflexivity;
    try contradiction.
  - specialize (Hb z eq_refl).
    assert (H63 : 2 ^ 53 < 2 ^ 63) by (vm_compute; reflexivity).
    unfold int64.
    destruct (- 2 ^ 63 <=? z) eqn:H1; [|apply Z.leb_gt in H1; lia].
    destruct (z <? 2 ^ 63) eqn:H2; [|apply Z.ltb_ge in H2; lia].
    reflexivity.
  - now rewrite Hp.
Qed.

Lemma plain_frame_tail (r : metric_record) (rest : list metric_record) :
  plain_frame numeric_text (r :: rest) ->
  plain_cell numeric_text (Downloads r)
  /\ (forall z, count_of (Downloads r) = Some z -> Z.abs z < 2 ^ 53)
  /\ plain_frame numeric_text rest.
Proof.
  intros [Hp Hb]. inversion Hp as [|? ? Hr Hrest]; subst.
  cbn [abs_total] in Hb. pose proof (abs_total_nonneg rest) as Hn.
  split; [exact Hr|]. split.
  - intros z Hz. rewrite Hz in Hb. lia.
  - split; [exact Hrest|]. destruct (count_of (Downloads r)); lia.
Qed.

Lemma cells_plain (df : list metric_record) :
  plain_frame numeric_text df ->
  map (fun r => read_cell numeric_text (Downloads r)) df
  = map (fun r => match count_of (Downloads r) with
                  | Some z => IntCell z
                  | None => FloatCell NaN
                  end) df.
Proof.
  induction df as [|r rest IH]; intros Hf; [reflexivity|].
  destruct (plain_frame_tail r rest Hf) as (Hr & Hb & Hrest).
  cbn [map]. now rewrite (read_cell_plain _ Hr Hb), IH.
Qed.

Lemma floats_plain (df : list metric_record) :
  plain_frame numeric_text df ->
  map (fun r => as_float (read_cell numeric_text (Downloads r))) df
  = map (fun r => match count_of (Downloads r) with
                  | Some z => exact_Z z
                  | None => NaN
                  end) df.
Proof.
  induction df as [|r rest IH]; intros Hf; [reflexivity|].
  destruct (plain_frame_tail r rest Hf) as (Hr & Hb & Hrest).
  cbn [map]. rewrite (read_cell_plain _ Hr Hb), IH by exact Hrest.
  f_equal. destruct (count_of (Downloads r)) as [z|] eqn:Hc; [|reflexivity].
  cbn [as_float]. apply of_Z_exact. now apply Hb.
Qed.

Lemma no_open_cell (df : list metric_record) :
  existsb is_open
    (map (fun r => match count_of (Downloads r) with
                   | Some z => IntCell z
                   | None => FloatCell NaN
                   end) df) = false.
Proof.
  induction df as [|r rest IH]; [reflexivity|].
  cbn [map existsb]. rewrite IH. now destruct (count_of (Downloads r)).
Qed.

Lemma all_int_cells (df : list metric_record) :
  forallb is_int
    (map (fun r => match count_of (Downloads r) with
                   | Some z => IntCell z
                   | None => FloatCell NaN
                   end) df) = all_counts df.
Proof.
  induction df as [|r rest IH]; [reflexivity|].
  cbn [map forallb all_counts]. fold (all_counts rest). rewrite IH.
  now destruct (count_of (Downloads r)).
Qed.

Lemma int_cells (df : list metric_record) :
  map int_of
    (map (fun r => match count_of (Downloads r) with
                   | Some z => IntCell z
                   | None => FloatCell NaN
                   end) df) = counts0 df.
Proof.
  unfold counts0. rewrite map_map. apply map_ext. intros r.
  now destruct (count_of (Downloads r)).
Qed.

Lemma fillna0_cells (df : list metric_record) :
  fillna0 (map (fun r => match count_of (Downloads r) with
                         | Some z => exact_Z z
                         | None => NaN
                         end) df)
  = map exact_Z (counts0 df).
Proof.
  unfold fillna0, counts0. rewrite !map_map. apply map_ext. intros r.
  now destruct (count_of (Downloads r)).
Qed.

Lemma dropna_cells (df : list metric_record) :
  dropna (map (fun r => match count_of (Downloads r) with
                        | Some z => exact_Z z
                        | None => NaN
                        end) df)
  = map exact_Z (counts df).
Proof.
  induction df as [|r rest IH]; [reflexivity|].
  unfold dropna in *. cbn [map filter counts].
  destruct (count_of (Downloads r)); cbn [isna exact_Z negb map];
    now rewrite IH.
Qed.

Lemma total_dl_exact (df : list metric_record) :
  df <> [] -> plain_frame numeric_text df ->
  total_dl numeric_text open_total reduction df
  = Ok (if all_counts df then IntNum (spec_total df)
        else FloatNum (exact_Z (spec_total df))).
Proof.
  intros Hne Hf. unfold total_dl.
  destruct df as [|r0 rest0] eqn:Hdf; [congruence|]. rewrite <- Hdf in *.
  cbv zeta.
  assert (Hfl : map as_float
                  (map (fun r => read_cell numeric_text (Downloads r)) df)
                = map (fun r => match count_of (Downloads r) with
                                | Some z => exact_Z z
                                | None => NaN
                                end) df)
    by (rewrite map_map; now apply floats_plain).
  rewrite Hfl, (cells_plain df Hf), no_open_cell, all_int_cells.
  pose proof (proj2 Hf) as Hb. rewrite abs_total_counts0 in Hb.
  pose proof (int_sum_bound (counts0 df)) as Hs.
  destruct (all_counts df).
  - unfold sum_int64. rewrite int_cells, fold_add_int_sum, Z.add_0_l.
    rewrite wrap64_small by lia. now rewrite spec_total_counts0.
  - rewrite fillna0_cells.
    rewrite (sum_exact reduction _ reduction_adds Hb).
    now rewrite spec_total_counts0.
Qed.

Lemma avg_dl_exact (df : list metric_record) :
  df <> [] -> plain_frame numeric_text df ->
  avg_dl numeric_text open_avg reduction df
  = Ok (match spec_kept df with
        | (_, O) => NaN
        | (s, S k) => div_count (exact_Z s) (Pos.of_succ_nat k)
        end).
Proof.
  intros Hne Hf. unfold avg_dl.
  destruct df as [|r0 rest0] eqn:Hdf; [congruence|]. rewrite <- Hdf in *.
  rewrite (cells_plain df Hf), no_open_cell.
  assert (Hf' : plain_frame numeric_text (df_for_avg df)).
  { destruct Hf as [Hp Hb]. split.
    - apply Forall_forall. intros r Hr. unfold df_for_avg in Hr.
      apply filter_In in Hr. destruct Hr as [Hr _].
      rewrite Forall_forall in Hp. now apply Hp.
    - pose proof (abs_total_filter
                    (fun r => negb (contains_nocase "Technical Letter"
                                      (Title r))) df).
      unfold df_for_avg. lia. }
  rewrite (floats_plain (df_for_avg df) Hf'), dropna_cells.
  rewrite spec_kept_counts. f_equal. unfold mean.
  assert (Hsum : sum reduction (map exact_Z (counts (df_for_avg df)))
                 = exact_Z (int_sum (counts (df_for_avg df)))).
  { apply sum_exact; [exact reduction_adds|].
    rewrite abs_sum_counts. exact (proj2 Hf'). }
  remember (counts (df_for_avg df)) as l eqn:Hl.
  destruct l as [|z zs]; [reflexivity|].
  cbn [map] in Hsum |- *. rewrite Hsum. cbn [List.length].
  now rewrite length_map, Pos.of_nat_succ.
Qed.

End WithOracles.
End StatsFacts.


Section AggregatorClaims.
Import StatsFacts.

(** C6 fails as stated, in two ways.  For the empty record list there is
    no total: the data frame has no column to read and the script stops
    with KeyError, however pandas reads and sums.  And the sum of a column
    with a missing cell is a float64 sum: for downloads 2^53 - 1, 2 and
    None, added from the first to the last, the total is 2^53, not the sum
    2^53 + 1 of the counts. *)
Lemma corpus_statistics_counterexample :
  (forall numeric_text open_total open_avg reduction,
     total_dl numeric_text open_total reduction [] = Raise KeyError
     /\ avg_dl numeric_text open_avg reduction [] = Raise KeyError)
  /\ adds_each_once left_comb
  /\ (forall numeric_text open_total,
        total_dl numeric_text open_total left_comb wide_records
        = Ok (FloatNum (Float64.exact_Z (2 ^ 53))))
  /\ spec_total wide_records = 2 ^ 53 + 1.
Proof.
  split; [intros; split; reflexivity|].
  split; [exact left_comb_adds_each_once|]. split.
  - intros numeric_text open_total. vm_compute. reflexivity.
  - vm_compute. reflexivity.
Qed.

(** C6, amended. For every record list that is not empty, whose download
    cells are integer counts or are missing or no numbers, the absolute
    values of the counts summing to less than 2^53, and whatever the order
    in which the cells are added: the total is the sum of the counts, a
    cell without a count counted as 0 (an int64 when every record has a
    count, a float64 otherwise); the average is the mean, to the nearest
    float, of the counts of the records whose title does not contain
    "Technical Letter" in any letter case, cells without a count being left
    out of both the sum and the number, and it is NaN when no count is
    kept.  For downloads 10, 20, None and 999, the 999 under a title with
    "Technical Letter", the total is 1029 and the average 15.0; the same
    holds when that title spells the pattern in another letter case and
    the missing cell is a text that is no number. *)
Theorem corpus_statistics (numeric_text : string -> bool)
    (open_total : list metric_record -> result number)
    (open_avg : list metric_record -> result Float64.t)
    (reduction : list Float64.t -> sum_tree) :
  adds_each_once reduction ->
  (forall df,
     df <> [] -> plain_frame numeric_text df ->
     total_dl numeric_text open_total reduction df
     = Ok (if all_counts df then IntNum (spec_total df)
           else FloatNum (Float64.exact_Z (spec_total df)))
     /\ avg_dl numeric_text open_avg reduction df
        = Ok (match spec_kept df with
              | (_, O) => Float64.NaN
              | (s, S k) =>
                  Float64.div_count (Float64.exact_Z s) (Pos.of_succ_nat k)
              end))
  /\ (total_dl numeric_text open_total reduction sample_records
      = Ok (FloatNum (Float64.exact_Z 1029))
      /\ avg_dl numeric_text open_avg reduction sample_records
         = Ok (Float64.exact_Z 15)
      /\ Float64.repr (Float64.exact_Z 15) = Some "15.0")
  /\ (numeric_text "N/A" = false ->
      total_dl numeric_text open_total reduction shouting_records
      = Ok (FloatNum (Float64.exact_Z 1029))
      /\ avg_dl numeric_text open_avg reduction shouting_records
         = Ok (Float64.exact_Z 15))
  /\ (contains_nocase "Technical Letter" "A TECHNICAL letter, zipped" = true
      /\ contains_nocase "Technical Letter" "technical letter" = true
      /\ contains_nocase "Technical Letter" "Technical Notes and a Letter"
         = false)
  /\ (avg_dl numeric_text open_avg reduction
        [record_with "Technical Letter (ZIP)" "Zenodo" (PInt 2000) (PInt 999)
           Dash]
      = Ok Float64.NaN)
  /\ (total_dl numeric_text open_total reduction
        [record_with "One" "Zenodo" PNone (PInt 1) Dash;
         record_with "Two" "Zenodo" PNone (PInt 2) Dash]
      = Ok (IntNum 3)
      /\ avg_dl numeric_text open_avg reduction
           [record_with "One" "Zenodo" PNone (PInt 1) Dash;
            record_with "Two" "Zenodo" PNone (PInt 2) Dash;
            record_with "Three" "Zenodo" PNone PNone Dash]
         = Ok (Float64.Finite false (3 # 2))).
Proof.
  intros Hr.
  assert (Hgen : forall df,
     df <> [] -> plain_frame numeric_text df ->
     total_dl numeric_text open_total reduction df
     = Ok (if all_counts df then IntNum (spec_total df)
           else FloatNum (Float64.exact_Z (spec_total df)))
     /\ avg_dl numeric_text open_avg reduction df
        = Ok (match spec_kept df with
              | (_, O) => Float64.NaN
              | (s, S k) =>
                  Float64.div_count (Float64.exact_Z s) (Pos.of_succ_nat k)
              end)).
  { intros df Hne Hf. split.
    - now apply total_dl_exact.
    - now apply avg_dl_exact. }
  split; [exact Hgen|]. split; [|split; [|split; [|split]]].
  - destruct (Hgen sample_records) as [Ht Ha]; [discriminate | |].
    { split; [repeat constructor | vm_compute; reflexivity]. }
    split; [exact Ht|]. split; [|vm_compute; reflexivity].
    rewrite Ha. vm_compute. reflexivity.
  - intros Hna.
    destruct (Hgen shouting_records) as [Ht Ha]; [discriminate | |].
    { split; [|vm_compute; reflexivity].
      repeat constructor. exact Hna. }
    split; [exact Ht|].
    rewrite Ha. vm_compute. reflexivity.
  - split; [vm_compute; reflexivity|]. split; vm_compute; reflexivity.
  - destruct (Hgen [record_with "Technical Letter (ZIP)" "Zenodo" (PInt 2000)
                      (PInt 999) Dash]) as [_ Ha]; [discriminate | |].
    { split; [repeat constructor | vm_compute; reflexivity]. }
    exact Ha.
  - split.
    + destruct (Hgen [record_with "One" "Zenodo" PNone (PInt 1) Dash;
                      record_with "Two" "Zenodo" PNone (PInt 2) Dash])
        as [Ht _]; [discriminate | |].
      { split; [repeat constructor | vm_compute; reflexivity]. }
      exact Ht.
    + destruct (Hgen [record_with "One" "Zenodo" PNone (PInt 1) Dash;
                      record_with "Two" "Zenodo" PNone (PInt 2) Dash;
                      record_with "Three" "Zenodo" PNone PNone Dash])
        as [_ Ha]; [discriminate | |].
      { split; [repeat constructor | vm_compute; reflexivity]. }
      rewrite Ha. vm_compute. reflexivity.
Qed.

(** The specification's example, the cells added from the first to the
    last: the cells are plain, the counts sum to 1029, so the total is 1029
    and the average the quotient of 30 by 2. *)
Lemma corpus_statistics_witness :
  adds_each_once left_comb
  /\ sample_records <> []
  /\ plain_frame (fun _ => false) sample_records
  /\ spec_total sample_records = 1029
  /\ spec_kept sample_records = (30, 2%nat)
  /\ total_dl (fun _ => false) (fun _ => Raise TypeError) left_comb
       sample_records
     = Ok (FloatNum (Float64.exact_Z 1029))
  /\ avg_dl (fun _ => false) (fun _ => Raise TypeError) left_comb
       sample_records
     = Ok (Float64.div_count (Float64.exact_Z 30) 2).
Proof.
  assert (Hne : sample_records <> []) by discriminate.
  assert (Hp : plain_frame (fun _ => false) sample_records).
  { split; [repeat constructor | vm_compute; reflexivity]. }
  split; [exact left_comb_adds_each_once|].
  split; [exact Hne|]. split; [exact Hp|].
  split; [reflexivity|]. split; [reflexivity|].
  exact (proj1 (corpus_statistics (fun _ => false) (fun _ => Raise TypeError)
                  (fun _ => Raise TypeError) left_comb
                  left_comb_adds_each_once)
           sample_records Hne Hp).
Defined.

End AggregatorClaims.
